(* ===== verification/_CoqProject ===== *)
-Q . S2P
Prelude.v
JsObject.v
Data.v
ReactionAggregator.v
State.v
DataSync.v
Location.v
ListingLifecycle.v
UrgentLifecycle.v
Matching.v
Chatbot.v
Dashboard.v
Footprint.v
Interleaving.v
Invariants.v
SessionCoords.v
Auth.v
App.v
