(* ===== verification/Prelude.v ===== *)
(** * neighbour-node: a verification development of the web client

    The program verified here is the React client of neighbour-node,
    [src/frontend/src/App.js].  [App] (lines 456-472) routes ["/login"]
    to [LoginPage] and every other path to [AuthGate], which renders
    [Dashboard] (lines 80-454) for a signed-in Firebase user.  The
    dashboard's [useState] hooks are the session state; its handlers are
    [async] functions that send REST requests and continue when the
    answer arrives.  Requests go through [apiGet]/[apiPost] of
    [./api], and identity through [./firebase]; neither file is in the
    repository, so both are the environment here: a request is a value
    of [Data.request] appended to the world, and its answer is chosen by
    the environment, as is every Firebase answer.

    Files, in dependency order, and what each models:

    - [Prelude] (this file): the state monad [St] with its notation
      ([let!], [;;] in [st_scope]), counting in lists ([count_if]), the
      hint database [nn], the tactics [st_simpl] and [vm_decide].
    - [JsObject]: the plain object [counts] of App.js 134 as a
      [gmap string jsval] with the [Object.prototype] fallback of reads,
      [++] with [ToNumeric] and the double rounding at 2^53, and the
      [__proto__] setter.
    - [Data]: listings, urgent needs, reaction events, the two forms,
      chatbot answers (a Module with a Record per type), the REST
      requests, the reports, and the [Backend] record of the answers the
      server gives (modelled from the spec, section 6).
    - [ReactionAggregator]: the [forEach] of App.js 134-142 ([aggregate]).
    - [State]: the dashboard's hooks ([dash]), the continuations of the
      [await]s in flight ([pending], holding what each closure captured),
      and [world] = hooks, continuations, requests sent, reports; the
      hook setters and [send], [await_], [report_] in the monad.
    - [DataSync]: [refreshData] (App.js 119-149) cut at its [await]s;
      [refresh_result], the atomic refresh of spec 4.2, and [settle],
      which runs one refresh with the backend's answers.
    - [Location], [ListingLifecycle], [UrgentLifecycle], [Matching],
      [Chatbot]: the mount effect and the handlers of App.js 104-226,
      each with its continuations, and the pieces of the view they need
      (status buttons, reaction numbers, the modal, the chatbot panel).
    - [Dashboard]: the events the rendered page offers ([enabled]), the
      handlers ([handle]), the dispatch of continuations ([resume]), the
      step relation [step] (a user event, or the settlement of any
      continuation in flight, in any order, with any outcome),
      [reachable], and the executable [run] with [run_rtc].
    - [Footprint]: what a handler may change (hooks by a preorder,
      appended continuations, requests and reports), composed along
      [st_bind]; the tactic [footprint_tac].
    - [Interleaving]: races between refreshes and with the forms.
    - [Invariants]: invariants of every reachable dashboard, by rule
      induction on [step] from the footprints of the handlers.
    - [SessionCoords]: every request with coordinates carries the
      session's, proved with footprints guarded by the coordinates a
      handler reads ([Footprint.footprint_on]).
    - [Auth]: [AuthGate], [LoginPage], [handleLogout] and the routes,
      against Firebase as an environment (current user, queued
      [onAuthStateChanged] notifications, settlements, changes made in
      another tab); [auth_step], the invariant [auth_inv] and [drain].
    - [App]: the dashboard's world mounted under the gate
      ([reconcile]) and the application's step relation [app_step].

    The theorems (claim ids in their doc comments):
    - refresh (C1-C3): a refresh undisturbed by other steps refines the
      atomic [refresh] of spec 4.2, with the requests in order; a failed
      [Promise.all] keeps the state; each listing's counts come from its
      own reaction request only;
    - counts (C4-C7): exact for the four known types up to 2^53 events
      and stuck at 2^53 beyond, unknown types absent, [NaN] for names of
      [Object.prototype] (a divergence from spec 4.1), independent of the
      order of the events;
    - invariants of the dashboard (C8-C10, C19, C31, C32): one position
      request, coordinates immutable once set; status changes only from
      an active listing; every posted radius valid; the listing category
      always empty (the form has no input for it); every request with
      coordinates made at the session's coordinates; a response only for
      a listing the open modal offers;
    - interleavings (C11, C12, C29, C30), for every world in which the
      continuations are in flight: two refreshes land in either order
      (no sequence token); the listings and the counts are not replaced
      together; a matching request erases the candidates another stored
      meanwhile; the older chatbot answer can land last, under the newer
      query;
    - handlers and view (C13-C18, C26-C28, C33): the outcomes of the
      listing and urgent-need posts (the captured form; failures
      unhandled), of the position callback (fallback [{0, 0}]), of
      reactions and status changes (failures only logged), of the
      matching workflow and of the chatbot's guard; the chatbot panel,
      which prints a bare "0" for a distance of 0;
    - authentication and composition (C20-C25): the page agrees with
      Firebase once notifications are delivered, and the delivery ends;
      the login form's two calls and its error path; sign-in reaches the
      dashboard; logout and its unhandled failure; a change of user in
      another tab hands the mounted dashboard to the new user.

    Bounds and fuel: [settle b (S (length ls))] gives one step to the
    [Promise.all] and one per listing, which is what the loop awaits;
    [drain (2n+1)] delivers a queue of [n] notifications, since each
    delivery lowers [Auth.settle_measure] (twice the queue, plus one
    when the page disagrees with Firebase), bounded by [2n+1]; counts
    are exact up to 2^53 events, above which [++] on a double stops.

    Not modelled: the layout, styling and text of the view beyond what
    the theorems read; [./api] and [./firebase] (absent from the
    repository) beyond their answers, which are a list or a failure (a
    resolved body that is not an array, on which App.js 126-131 would
    set the listings before its loop throws, is not represented);
    Firebase's internals; the browser history ([replace]);
    React's batching, which no theorem here depends on, since each
    handler's updates are applied in order within one step. *)

From stdpp Require Export base gmap strings list.
From Stdlib Require Export ZArith.

(** ** A state monad *)

Declare Scope st_scope.
Delimit Scope st_scope with st.

Definition St (S A : Type) : Type := S -> A * S.

Definition st_ret {S A} (a : A) : St S A := fun s => (a, s).

Definition st_bind {S A B} (m : St S A) (k : A -> St S B) : St S B :=
  fun s => let (a, s') := m s in k a s'.

Definition st_get {S} : St S S := fun s => (s, s).

Definition st_modify {S} (f : S -> S) : St S unit := fun s => (tt, f s).

(** The final state of a computation. *)
Definition st_exec {S A} (m : St S A) (s : S) : S := snd (m s).

Notation "'let!' x := m 'in' k" := (st_bind m (fun x => k))
  (at level 10, x name, m at level 100, k at level 200) : st_scope.
Notation "m ;; k" := (st_bind m (fun _ => k))
  (at level 100, k at level 200, right associativity) : st_scope.

Local Open Scope st_scope.

Lemma st_exec_bind {S A B} (m : St S A) (k : A -> St S B) s :
  st_exec (st_bind m k) s = st_exec (k (fst (m s))) (snd (m s)).
Proof. unfold st_exec, st_bind. by destruct (m s). Qed.

Lemma st_exec_seq {S B} (m : St S unit) (k : St S B) s :
  st_exec (m ;; k) s = st_exec k (st_exec m s).
Proof. unfold st_exec, st_bind. by destruct (m s) as [[] ?]. Qed.

Lemma st_exec_modify {S} (f : S -> S) s : st_exec (st_modify f) s = f s.
Proof. reflexivity. Qed.

Lemma st_exec_ret {S A} (a : A) (s : S) : st_exec (st_ret a) s = s.
Proof. reflexivity. Qed.

(** ** Counting in lists *)

(** Occurrences of the elements satisfying [P]. *)
Definition count_if {A} (P : A -> Prop) `{!∀ x, Decision (P x)} (l : list A) : nat :=
  length (filter P l).

Section count_if.
Context {A : Type} (P : A -> Prop) `{!∀ x, Decision (P x)}.

Lemma count_if_nil : count_if P [] = 0.
Proof. reflexivity. Qed.

Lemma count_if_cons x l :
count_if P (x :: l) = (if decide (P x) then 1 else 0) + count_if P l.
Proof. unfold count_if. rewrite filter_cons. by case_decide. Qed.

Lemma count_if_app l1 l2 : count_if P (l1 ++ l2) = count_if P l1 + count_if P l2.
Proof. unfold count_if. by rewrite filter_app, length_app. Qed.

Lemma count_if_le l : count_if P l <= length l.
Proof. unfold count_if. apply length_filter. Qed.

Lemma count_if_perm l1 l2 : l1 ≡ₚ l2 -> count_if P l1 = count_if P l2.
Proof. intros Hp. unfold count_if. by rewrite Hp. Qed.
Lemma count_if_delete l i x :
  l !! i = Some x -> count_if P l = (if decide (P x) then 1 else 0) + count_if P (delete i l).
Proof.
  intros Hi. rewrite <-(take_drop_middle l i x Hi) at 1.
  rewrite delete_take_drop, !count_if_app, count_if_cons. lia.
Qed.
End count_if.

Lemma count_if_eq_zero {A} `{!EqDecision A} (x : A) (l : list A) :
  count_if (fun y => y = x) l = 0 <-> x ∉ l.
Proof.
  induction l as [|y l IH]; [set_solver|].
  rewrite count_if_cons, elem_of_cons. case_decide; [naive_solver lia|]. rewrite IH. naive_solver.
Qed.

(** [Nat.iter] unrolled on the last application. *)
Lemma iter_succ_r {A} (f : A -> A) n x : Nat.iter (S n) f x = Nat.iter n f (f x).
Proof. induction n as [|n IH]; simpl; [done|]. by rewrite <-IH. Qed.

(** Removing the last element of a list. *)
Lemma delete_snoc {A} (l : list A) x : delete (length l) (l ++ [x]) = l.
Proof. by rewrite delete_middle, app_nil_r. Qed.

Lemma pred_length_snoc {A} (l : list A) x : pred (length (l ++ [x])) = length l.
Proof. rewrite length_app. simpl. lia. Qed.

(** ** Automation *)

Create HintDb nn discriminated.
Create Rewrite HintDb nn.
#[export] Hint Rewrite @st_exec_seq @st_exec_modify @st_exec_ret : nn.
#[export] Hint Rewrite @count_if_nil @count_if_cons @count_if_app : nn.
#[export] Hint Resolve count_if_le : nn.
#[export] Hint Rewrite @delete_snoc @pred_length_snoc @last_snoc : nn.

(** Unfold a monadic computation into the state it produces. *)
Ltac st_simpl := repeat (autorewrite with nn; simpl).

(** Prove a decidable proposition on closed data by evaluation. *)
Ltac vm_decide :=
  match goal with |- ?P => apply (proj1 (bool_decide_eq_true P)); vm_compute; reflexivity end.
