(* ===== verification/JsObject.v ===== *)
(** * Plain JavaScript objects used as dictionaries

    [refreshData] (App.js 134-139) counts reactions in an object literal
    [counts] and tests membership with [counts[k] !== undefined].  A
    property read on a plain object falls back to [Object.prototype], so
    the test also accepts the names of the prototype's properties.  This
    file models what the code relies on: own properties as a
    [gmap string jsval], the read [o[k]], the assignment [o[k] = v]
    (with the [__proto__] setter, which ignores a non-object), and the
    postfix increment [o[k]++] with its [ToNumeric] conversion and the
    rounding of IEEE-754 doubles above 2^53. *)

From S2P Require Import Prelude.

Local Open Scope Z_scope.

(** The values the counting code can meet: [undefined], a number (the
    counts are integers), [NaN], and the function or object that an
    inherited property of [Object.prototype] holds. *)
Inductive jsval :=
| JUndef
| JNum (n : Z)
| JNaN
| JObj.

#[global] Instance jsval_eq_dec : EqDecision jsval.
Proof. solve_decision. Defined.

(** The properties of [Object.prototype] (ECMAScript 2024, 20.1.3 and
    Annex B.2.2). *)
Definition object_prototype_keys : list string :=
  ["constructor"; "hasOwnProperty"; "isPrototypeOf"; "propertyIsEnumerable";
   "toLocaleString"; "toString"; "valueOf"; "__proto__";
   "__defineGetter__"; "__defineSetter__"; "__lookupGetter__"; "__lookupSetter__"]%string.

(** [o[k]]: the own property, else the prototype's, else [undefined]. *)
Definition js_get (o : gmap string jsval) (k : string) : jsval :=
  match o !! k with
  | Some v => v
  | None => if decide (k ∈ object_prototype_keys) then JObj else JUndef
  end.

(** The largest integer below which a double adds one exactly. *)
Definition max_safe : Z := 2 ^ 53.

(** [ToNumeric(v) + 1] on the values above.  At [2^53] the sum rounds
    back to [2^53] (round half to even). *)
Definition js_succ (v : jsval) : jsval :=
  match v with
  | JNum n => JNum (if n <? max_safe then n + 1 else n)
  | _ => JNaN
  end.

(** [o[k] = v] for a non-object [v]: the [__proto__] accessor of
    [Object.prototype] ignores it; any other name becomes an own
    property. *)
Definition js_set (o : gmap string jsval) (k : string) (v : jsval) : gmap string jsval :=
  if decide (k = "__proto__"%string) then o else <[k:=v]> o.

(** [o[k]++] as a statement. *)
Definition js_postinc (o : gmap string jsval) (k : string) : gmap string jsval :=
  js_set o k (js_succ (js_get o k)).

(** ** Lemmas *)

Lemma js_get_own o k v : o !! k = Some v -> js_get o k = v.
Proof. unfold js_get. by intros ->. Qed.

Lemma js_get_absent o k :
  o !! k = None -> k ∉ object_prototype_keys -> js_get o k = JUndef.
Proof. unfold js_get. intros -> ?. by case_decide. Qed.

Lemma lookup_js_set o k v k' :
  js_set o k v !! k' =
    if decide (k = k' /\ k <> "__proto__"%string) then Some v else o !! k'.
Proof.
  unfold js_set. destruct (decide (k = "__proto__"%string)) as [->|Hp].
  - rewrite decide_False; naive_solver.
  - destruct (decide (k = k')) as [<-|Hne].
    + rewrite decide_True by done. apply lookup_insert_eq.
    + rewrite decide_False by naive_solver. by apply lookup_insert_ne.
Qed.

Lemma lookup_js_postinc_ne o k k' : k <> k' -> js_postinc o k !! k' = o !! k'.
Proof. intros Hne. unfold js_postinc. rewrite lookup_js_set. case_decide; naive_solver. Qed.

(** Counting from zero with [++] is exact up to [2^53] and stays there. *)
Lemma iter_js_succ_zero n :
  Nat.iter n js_succ (JNum 0) = JNum (Z.min (Z.of_nat n) max_safe).
Proof.
  induction n as [|n IH]; [done|].
  rewrite Nat.iter_succ, IH. unfold js_succ, max_safe.
  f_equal. destruct (Z.ltb_spec (Z.min (Z.of_nat n) (2 ^ 53)) (2 ^ 53)); lia.
Qed.

(** [NaN] absorbs [++]. *)
Lemma iter_js_succ_nan n : Nat.iter (S n) js_succ JNaN = JNaN.
Proof. induction n as [|n IH]; [done|]. by rewrite Nat.iter_succ, IH. Qed.
