(* ===== verification/Data.v ===== *)
(** * The data the dashboard exchanges with the backend

    The JSON objects of App.js as records, one [Module] per object so
    that the fields keep the names of the code ([Listing.title],
    [UrgentNeed.radius_km], ...); the REST requests the client sends
    (the table of spec section 6); what the client reports when
    something fails; and [Backend], the record of the read operations
    that answer a refresh.  Numbers that the code only passes along
    (coordinates, radii, distances) are rationals; identifiers are
    integers. *)

From S2P Require Import Prelude.
From Stdlib Require Import QArith_base.

#[global] Instance Q_eq_dec : EqDecision Q.
Proof. solve_decision. Defined.

(** [{ lat, lng }] built at App.js 107 and 112. *)
Record Coordinates := mk_coords { lat : Q; lng : Q }.

#[global] Instance coords_eq_dec : EqDecision Coordinates.
Proof. solve_decision. Defined.

(** A listing as the backend returns it and App.js 333-366 reads it. *)
Module Listing.
Record t := mk {
  id : Z;
  title : string;
  description : string;
  type : string;
  is_free : bool;
  is_trade : bool;
  category : string;
  status : string;
  lat : Q;
  lng : Q
}.
#[global] Instance eq_dec : EqDecision t.
Proof. solve_decision. Defined.
End Listing.

(** An urgent need as App.js 404-416 reads it. *)
Module UrgentNeed.
Record t := mk {
  id : Z;
  title : string;
  description : string;
  radius_km : Q;
  lat : Q;
  lng : Q
}.
#[global] Instance eq_dec : EqDecision t.
Proof. solve_decision. Defined.
End UrgentNeed.

(** A reaction event; App.js 135-139 reads [reaction_type] only. *)
Module ReactionEvent.
Record t := mk {
  listing_id : Z;
  reaction_type : string
}.
#[global] Instance eq_dec : EqDecision t.
Proof. solve_decision. Defined.
End ReactionEvent.

(** The listing form state, App.js 90-97. *)
Module ListingForm.
Record t := mk {
  title : string;
  description : string;
  type : string;
  is_free : bool;
  is_trade : bool;
  category : string
}.
#[global] Instance eq_dec : EqDecision t.
Proof. solve_decision. Defined.

(** The initial value of [useState], App.js 90-97. *)
Definition init : t := mk "" "" "offer" true false "".
End ListingForm.

(** The urgent-need form state, App.js 98-102. *)
Module UrgentForm.
Record t := mk {
  title : string;
  description : string;
  radius_km : Q
}.
#[global] Instance eq_dec : EqDecision t.
Proof. solve_decision. Defined.

Definition init : t := mk "" "" 2.
End UrgentForm.

(** The chatbot's answer, App.js 252-281. *)
Module Suggestion.
Record t := mk { title : string; description : string; distance_km : option Q }.
#[global] Instance eq_dec : EqDecision t.
Proof. solve_decision. Defined.
End Suggestion.

Module ExternalLink.
Record t := mk { platform : string; url : string; icon : string }.
#[global] Instance eq_dec : EqDecision t.
Proof. solve_decision. Defined.
End ExternalLink.

Module ChatResponse.
Record t := mk {
  response : string;
  suggestions : option (list Suggestion.t);
  external_links : option (list ExternalLink.t)
}.
#[global] Instance eq_dec : EqDecision t.
Proof. solve_decision. Defined.
End ChatResponse.

(** The requests of App.js, in the order of the table of spec 6.  A
    payload built as [{ ...form, lat, lng }] is the form with the
    coordinates. *)
Inductive request :=
| GetListings (c : Coordinates) (radius_km : Q)              (* App.js 123 *)
| PostListing (form : ListingForm.t) (c : Coordinates)       (* App.js 155 *)
| PatchListing (listing_id : Z) (status : string)       (* App.js 184 *)
| GetUrgentNearby (c : Coordinates) (radius_km : Q)          (* App.js 124 *)
| PostUrgent (form : UrgentForm.t) (c : Coordinates)         (* App.js 164 *)
| GetMyMatchingListings (urgent_id : Z)                 (* App.js 208 *)
| PostRespondWithListing (urgent_id listing_id : Z)     (* App.js 219 *)
| GetReactions (listing_id : Z)                         (* App.js 133 *)
| PostReaction (listing_id : Z) (reaction_type : string)  (* App.js 175 *)
| PostChatbotQuery (query : list Z) (c : Coordinates).       (* App.js 195 *)

#[global] Instance request_eq_dec : EqDecision request.
Proof. solve_decision. Defined.

(** What a handler reports: [console.error], [alert], or a rejected
    promise that no [catch] handles. *)
Inductive report :=
| ConsoleError
| Alert (msg : string)
| Unhandled.

#[global] Instance report_eq_dec : EqDecision report.
Proof. solve_decision. Defined.

(** The answers of the backend to the reads of a refresh, modelled from
    spec 6 since [./api] is not in the repository: a list, or [None] for
    a rejected request (network error, non-2xx status).  A resolved body
    that is not a list is not represented: App.js 126-131 would store it
    with [setListings] before the [for...of] throws. *)
Record Backend := mk_backend {
  get_listings : Coordinates -> Q -> option (list Listing.t);
  get_urgent_nearby : Coordinates -> Q -> option (list UrgentNeed.t);
  get_reactions : Z -> option (list ReactionEvent.t)
}.
