(* ===== verification/ReactionAggregator.v ===== *)
(** * ReactionAggregator: reaction events to per-type counts

    App.js 134-140 builds the counts of one listing:
    {v
      const counts = { like: 0, helpful: 0, available: 0, unavailable: 0 };
      listingReactions.forEach(r => {
        if (counts[r.reaction_type] !== undefined) {
          counts[r.reaction_type]++;
        }
      });
    v}
    [aggregate] is that loop over the object semantics of [JsObject];
    [listing_counts] is the default of App.js 334 that the view reads.
    The lemma [lookup_aggregate] gives the value of every property of the
    result from the number of events of that type; the theorems derive
    from it the exact counts of the four known types, the absence of
    unknown types, the order independence, and what happens to a type
    named like a property of [Object.prototype]. *)

From S2P Require Import Prelude JsObject Data.

Local Open Scope Z_scope.

(** The four keys of the object literal. *)
Definition known_reaction_types : list string :=
  ["like"; "helpful"; "available"; "unavailable"]%string.

(** [{ like: 0, helpful: 0, available: 0, unavailable: 0 }] (App.js 134,
    142, 334). *)
Definition zero_counts : gmap string jsval :=
  <["unavailable" := JNum 0]> (<["available" := JNum 0]>
    (<["helpful" := JNum 0]> (<["like" := JNum 0]> ∅)))%string.

(** The body of the [forEach] (App.js 135-139). *)
Definition count_reaction (counts : gmap string jsval) (r : ReactionEvent.t)
    : gmap string jsval :=
  if decide (js_get counts (ReactionEvent.reaction_type r) <> JUndef)
  then js_postinc counts (ReactionEvent.reaction_type r)
  else counts.

(** App.js 134-139: the counts of one listing's events. *)
Definition aggregate (evs : list ReactionEvent.t) : gmap string jsval :=
  foldl count_reaction zero_counts evs.

(** [reactions[l.id] || { like: 0, ... }] (App.js 334). *)
Definition listing_counts (reactions : gmap Z (gmap string jsval)) (id : Z)
    : gmap string jsval :=
  match reactions !! id with
  | Some c => c
  | None => zero_counts
  end.

(** The number of events of type [k]. *)
Definition type_count (k : string) (evs : list ReactionEvent.t) : nat :=
  count_if (fun r => ReactionEvent.reaction_type r = k) evs.

(** ** The effect of one event on the property it names *)

(** The new value of property [k] after an event of type [k]. *)
Definition bump (k : string) (v : option jsval) : option jsval :=
  if decide (k = "__proto__"%string) then v else
  match v with
  | Some JUndef => Some JUndef
  | Some v' => Some (js_succ v')
  | None => if decide (k ∈ object_prototype_keys) then Some JNaN else None
  end.

(** The value of property [k] after [n] events of type [k]. *)
Definition expected_count (k : string) (n : nat) : option jsval :=
  if decide (k ∈ known_reaction_types) then Some (JNum (Z.min (Z.of_nat n) max_safe))
  else if decide (k ∈ object_prototype_keys /\ k <> "__proto__"%string /\ n <> 0%nat)
  then Some JNaN else None.

Lemma lookup_count_reaction o r k :
  count_reaction o r !! k =
    if decide (ReactionEvent.reaction_type r = k) then bump k (o !! k) else o !! k.
Proof.
  unfold count_reaction, bump.
  destruct (decide (ReactionEvent.reaction_type r = k)) as [<-|Hne].
  - set (t := ReactionEvent.reaction_type r).
    destruct (decide (js_get o t <> JUndef)) as [Hu|Hu];
      unfold js_postinc; [rewrite lookup_js_set|]; unfold js_get in *;
      destruct (o !! t) as [v|] eqn:Ho; [destruct v| | destruct v|];
      repeat case_decide; naive_solver.
  - case_decide; [|done]. by apply lookup_js_postinc_ne.
Qed.

Lemma lookup_foldl_count_reaction o evs k :
  foldl count_reaction o evs !! k = Nat.iter (type_count k evs) (bump k) (o !! k).
Proof.
  revert o. induction evs as [|r evs IH]; intros o; [done|].
  simpl. rewrite IH, lookup_count_reaction. unfold type_count.
  rewrite count_if_cons. case_decide; [|done]. by rewrite <-iter_succ_r.
Qed.

Lemma lookup_zero_counts k :
  zero_counts !! k = if decide (k ∈ known_reaction_types) then Some (JNum 0) else None.
Proof.
  unfold zero_counts, known_reaction_types.
  rewrite !lookup_insert, lookup_empty.
  repeat case_decide; set_solver.
Qed.

Lemma iter_bump_none k n :
  k ∉ object_prototype_keys \/ k = "__proto__"%string -> Nat.iter n (bump k) None = None.
Proof.
  intros Hk. induction n as [|n IH]; [done|].
  rewrite Nat.iter_succ, IH. unfold bump. repeat case_decide; naive_solver.
Qed.

Lemma iter_bump_proto k n :
  k ∈ object_prototype_keys -> k <> "__proto__"%string ->
  Nat.iter (S n) (bump k) None = Some JNaN.
Proof.
  intros Hk Hp. induction n as [|n IH].
  - simpl. unfold bump. by repeat case_decide.
  - rewrite Nat.iter_succ, IH. unfold bump. by case_decide.
Qed.

Lemma iter_bump_known k n :
  k ∈ known_reaction_types ->
  Nat.iter n (bump k) (Some (JNum 0)) = Some (JNum (Z.min (Z.of_nat n) max_safe)).
Proof.
  intros Hk. assert (k <> "__proto__"%string) as Hp by (intros ->; set_solver).
  induction n as [|n IH]; [done|].
  rewrite Nat.iter_succ, IH. unfold bump. rewrite decide_False by done.
  rewrite <-iter_js_succ_zero, <-Nat.iter_succ. by rewrite iter_js_succ_zero.
Qed.

(** Every property of the counts, from the number of events of its
    type. *)
Lemma lookup_aggregate evs k :
  aggregate evs !! k = expected_count k (type_count k evs).
Proof.
  unfold aggregate, expected_count.
  rewrite lookup_foldl_count_reaction, lookup_zero_counts.
  case_decide as Hk; [by apply iter_bump_known|].
  destruct (type_count k evs) as [|n] eqn:Hn.
  - simpl. rewrite decide_False; naive_solver.
  - destruct (decide (k ∈ object_prototype_keys /\ k <> "__proto__"%string)) as [[Hin Hp]|Hnot].
    + rewrite decide_True by naive_solver. by apply iter_bump_proto.
    + rewrite decide_False by naive_solver. apply iter_bump_none.
      destruct (decide (k = "__proto__"%string)); naive_solver.
Qed.

#[export] Hint Rewrite lookup_aggregate : nn.

(** ** Theorems *)

(** A spec scenario (spec 8): the events of listing A. *)
Definition events_A : list ReactionEvent.t :=
  [ReactionEvent.mk 1 "like"; ReactionEvent.mk 1 "like"; ReactionEvent.mk 1 "helpful"]%string.

(** Events of a type the code does not know, and of a type that names a
    property of [Object.prototype]. *)
Definition events_thanks : list ReactionEvent.t :=
  [ReactionEvent.mk 1 "thanks"; ReactionEvent.mk 1 "like"]%string.

Definition events_toString : list ReactionEvent.t :=
  [ReactionEvent.mk 1 "toString"; ReactionEvent.mk 1 "like"]%string.

(** C4. For each of the four known reaction types the count [aggregate]
    returns is the number of events of that type, computed as a double:
    exact up to 2^53 events, the largest count a double holds exactly,
    and stuck at 2^53 beyond, where [counts[k]++] no longer changes the
    value. *)
Theorem aggregate_known_count evs k :
  k ∈ known_reaction_types ->
  js_get (aggregate evs) k = JNum (Z.min (Z.of_nat (type_count k evs)) max_safe).
Proof.
  intros Hk. apply js_get_own. rewrite lookup_aggregate.
  unfold expected_count. by rewrite decide_True.
Qed.

Lemma aggregate_known_count_witness :
  "like"%string ∈ known_reaction_types /\
  js_get (aggregate events_A) "like" = JNum (Z.min (Z.of_nat (type_count "like" events_A)) max_safe).
Proof. split; [vm_decide|]. apply aggregate_known_count. vm_decide. Defined.

(** C5. An event whose type is neither one of the four known types nor
    the name of a property of [Object.prototype] leaves no trace in the
    counts. *)
Theorem aggregate_unknown_absent evs k :
  k ∉ known_reaction_types -> k ∉ object_prototype_keys -> aggregate evs !! k = None.
Proof.
  intros Hk Hp. rewrite lookup_aggregate. unfold expected_count.
  rewrite decide_False by done. rewrite decide_False; naive_solver.
Qed.

Lemma aggregate_unknown_absent_witness :
  (("thanks"%string ∉ known_reaction_types) /\ ("thanks"%string ∉ object_prototype_keys)) /\
  (aggregate events_thanks) !! ("thanks"%string) = None.
Proof.
  split; [split; vm_decide|].
  apply aggregate_unknown_absent; vm_decide.
Defined.

(** C6. An event whose type names a property of [Object.prototype]
    (other than [__proto__]), e.g. ["toString"], passes the
    [!== undefined] test and leaves an own property [NaN] in the counts:
    the counts are not only the four known types, and not all numbers. *)
Theorem aggregate_inherited_nan evs k :
  k ∈ object_prototype_keys -> k <> "__proto__"%string -> type_count k evs <> 0%nat ->
  aggregate evs !! k = Some JNaN.
Proof.
  intros Hk Hp Hn. rewrite lookup_aggregate. unfold expected_count.
  rewrite decide_False by (unfold known_reaction_types, object_prototype_keys in *; set_solver).
  by rewrite decide_True.
Qed.

Lemma aggregate_inherited_nan_witness :
  ("toString"%string ∈ object_prototype_keys /\ "toString"%string <> "__proto__"%string /\
   type_count "toString" events_toString <> 0%nat) /\
  aggregate events_toString !! ("toString"%string) = Some JNaN.
Proof.
  split; [split; [vm_decide|split; vm_compute; discriminate]|].
  apply aggregate_inherited_nan;
    [vm_decide | vm_compute; discriminate | vm_compute; discriminate].
Defined.

(** C7. The counts do not depend on the order of the events. *)
Theorem aggregate_perm evs1 evs2 : evs1 ≡ₚ evs2 -> aggregate evs1 = aggregate evs2.
Proof.
  intros Hp. apply map_eq. intros k. rewrite !lookup_aggregate.
  unfold type_count. by rewrite (count_if_perm _ _ _ Hp).
Qed.

Lemma aggregate_perm_witness :
  events_A ≡ₚ rev events_A /\ aggregate events_A = aggregate (rev events_A).
Proof.
  split; [vm_decide|].
  apply aggregate_perm. vm_decide.
Defined.
