(* ===== verification/State.v ===== *)
(** * The dashboard's session state and its effects

    [dash] is the record of the [useState] hooks of [Dashboard]
    (App.js 81-102), one field per hook, with the hook's name.  Each
    [async] handler of App.js runs up to its first [await] and leaves a
    continuation; a [pending] value is that continuation, holding the
    values its closure captured when the handler started (the render's
    [form], [coords], [matchingListings], ...), since the code after an
    [await] reads those and not the current state.  A [world] is the
    state with the continuations in flight, the requests sent so far and
    the errors reported.  Handlers are computations of the state monad
    [M] (the [St] of the prelude over [world]), written with the setters
    of the code ([setListings], [setForm], ...). *)

From S2P Require Import Prelude JsObject Data ReactionAggregator.
From Stdlib Require Import QArith_base.

Local Close Scope Q_scope.

(** The hooks, App.js 81-102. *)
Record dash := mk_dash {
  coords : option Coordinates;
  listings : list Listing.t;
  urgent : list UrgentNeed.t;
  reactions : gmap Z (gmap string jsval);
  chatbotQuery : list Z;   (* UTF-16 code units *)
  chatbotResponse : option ChatResponse.t;
  showChatbot : bool;
  matchingListings : gmap Z (option (list Listing.t));
  showRespondModal : option Z;
  form : ListingForm.t;
  urgentForm : UrgentForm.t
}.

(** The initial values of the hooks. *)
Definition dash_init : dash :=
  mk_dash None [] [] ∅ [] None false ∅ None ListingForm.init UrgentForm.init.

(** The continuation of an [await], with what its closure captured. *)
Inductive pending :=
| AwaitPosition                          (* getCurrentPosition, App.js 105-116 *)
| AwaitNearby (c : Coordinates)          (* Promise.all, App.js 122-125 *)
| AwaitReactions (listing : Listing.t) (rest : list Listing.t)
    (reactionsMap : gmap Z (gmap string jsval))     (* App.js 133 *)
| AwaitCreateListing (form : ListingForm.t) (c : Coordinates)    (* App.js 155 *)
| AwaitCreateUrgent (urgentForm : UrgentForm.t) (c : Coordinates) (* App.js 164 *)
| AwaitReaction (c : option Coordinates)         (* App.js 175 *)
| AwaitUpdateStatus (c : option Coordinates)     (* App.js 184 *)
| AwaitChatbot                                   (* App.js 195 *)
| AwaitMatching (urgentId : Z) (matchingListings : gmap Z (option (list Listing.t)))
                                                 (* App.js 208 *)
| AwaitRespond (urgentId : Z).                   (* App.js 219 *)

#[global] Instance pending_eq_dec : EqDecision pending.
Proof. solve_decision. Defined.

(** How an awaited operation settles: the value it resolves to, [None]
    when it rejects. *)
Inductive response :=
| Position (r : option Coordinates)
| Nearby (nearListings : option (list Listing.t)) (nearUrgent : option (list UrgentNeed.t))
| Reactions (r : option (list ReactionEvent.t))
| Posted (ok : bool)
| Chatbot (r : option ChatResponse.t)
| Matching (r : option (option (list Listing.t))).

Record world := mk_world {
  dash_of : dash;
  inflight : list pending;
  sent : list request;
  reports : list report
}.

Definition world_init : world := mk_world dash_init [AwaitPosition] [] [].

(** ** The monad of handlers *)

Abbreviation M := (St world).

Local Open Scope st_scope.

Definition modify_dash (f : dash -> dash) : M unit :=
  st_modify (fun w => mk_world (f (dash_of w)) (inflight w) (sent w) (reports w)).

(** The state a handler sees when it starts: the last render's. *)
Definition read : M dash := fun w => (dash_of w, w).

(** An [apiGet]/[apiPost] call leaves the client. *)
Definition send (r : request) : M unit :=
  st_modify (fun w => mk_world (dash_of w) (inflight w) (sent w ++ [r]) (reports w)).

(** [await]: the rest of the handler waits for the operation. *)
Definition await_ (p : pending) : M unit :=
  st_modify (fun w => mk_world (dash_of w) (inflight w ++ [p]) (sent w) (reports w)).

Definition report_ (r : report) : M unit :=
  st_modify (fun w => mk_world (dash_of w) (inflight w) (sent w) (reports w ++ [r])).

Definition console_error : M unit := report_ ConsoleError.
Definition alert (msg : string) : M unit := report_ (Alert msg).

(** The setters of the hooks. *)
Definition setCoords v := modify_dash (fun d =>
  mk_dash v (listings d) (urgent d) (reactions d) (chatbotQuery d) (chatbotResponse d)
    (showChatbot d) (matchingListings d) (showRespondModal d) (form d) (urgentForm d)).
Definition setListings v := modify_dash (fun d =>
  mk_dash (coords d) v (urgent d) (reactions d) (chatbotQuery d) (chatbotResponse d)
    (showChatbot d) (matchingListings d) (showRespondModal d) (form d) (urgentForm d)).
Definition setUrgent v := modify_dash (fun d =>
  mk_dash (coords d) (listings d) v (reactions d) (chatbotQuery d) (chatbotResponse d)
    (showChatbot d) (matchingListings d) (showRespondModal d) (form d) (urgentForm d)).
Definition setReactions v := modify_dash (fun d =>
  mk_dash (coords d) (listings d) (urgent d) v (chatbotQuery d) (chatbotResponse d)
    (showChatbot d) (matchingListings d) (showRespondModal d) (form d) (urgentForm d)).
Definition setChatbotQuery v := modify_dash (fun d =>
  mk_dash (coords d) (listings d) (urgent d) (reactions d) v (chatbotResponse d)
    (showChatbot d) (matchingListings d) (showRespondModal d) (form d) (urgentForm d)).
Definition setChatbotResponse v := modify_dash (fun d =>
  mk_dash (coords d) (listings d) (urgent d) (reactions d) (chatbotQuery d) v
    (showChatbot d) (matchingListings d) (showRespondModal d) (form d) (urgentForm d)).
Definition setShowChatbot v := modify_dash (fun d =>
  mk_dash (coords d) (listings d) (urgent d) (reactions d) (chatbotQuery d) (chatbotResponse d)
    v (matchingListings d) (showRespondModal d) (form d) (urgentForm d)).
Definition setMatchingListings v := modify_dash (fun d =>
  mk_dash (coords d) (listings d) (urgent d) (reactions d) (chatbotQuery d) (chatbotResponse d)
    (showChatbot d) v (showRespondModal d) (form d) (urgentForm d)).
Definition setShowRespondModal v := modify_dash (fun d =>
  mk_dash (coords d) (listings d) (urgent d) (reactions d) (chatbotQuery d) (chatbotResponse d)
    (showChatbot d) (matchingListings d) v (form d) (urgentForm d)).
Definition setForm v := modify_dash (fun d =>
  mk_dash (coords d) (listings d) (urgent d) (reactions d) (chatbotQuery d) (chatbotResponse d)
    (showChatbot d) (matchingListings d) (showRespondModal d) v (urgentForm d)).
Definition setUrgentForm v := modify_dash (fun d =>
  mk_dash (coords d) (listings d) (urgent d) (reactions d) (chatbotQuery d) (chatbotResponse d)
    (showChatbot d) (matchingListings d) (showRespondModal d) (form d) v).

(** The environment settles the continuation at index [i] and runs the
    code after the [await]. *)
Definition resolve (i : nat) (k : M unit) (w : world) : world :=
  st_exec k (mk_world (dash_of w) (delete i (inflight w)) (sent w) (reports w)).

(** ** Effects on the world's components *)

Lemma inflight_modify_dash f w : inflight (st_exec (modify_dash f) w) = inflight w.
Proof. reflexivity. Qed.

Lemma sent_modify_dash f w : sent (st_exec (modify_dash f) w) = sent w.
Proof. reflexivity. Qed.

Lemma reports_modify_dash f w : reports (st_exec (modify_dash f) w) = reports w.
Proof. reflexivity. Qed.

#[export] Hint Rewrite inflight_modify_dash sent_modify_dash reports_modify_dash : nn.
