(* ===== verification/DataSync.v ===== *)
(** * DataSyncEngine: [refreshData] (App.js 119-149)

    {v
      const refreshData = async (c = coords) => {
        if (!c) return;
        try {
          const [nearListings, nearUrgent] = await Promise.all([...]);
          setListings(nearListings);
          setUrgent(nearUrgent);
          const reactionsMap = {};
          for (const listing of nearListings) {
            try { const listingReactions = await apiGet(...); ...
                  reactionsMap[listing.id] = counts;
            } catch (e) { reactionsMap[listing.id] = { like: 0, ... }; }
          }
          setReactions(reactionsMap);
        } catch (e) { console.error(e); }
      };
    v}
    The function is cut at its [await]s: [refreshData] runs to the
    [Promise.all]; [resume_nearby] is the code after it; [resume_reactions]
    is the body of the loop after the reaction request; [load_reactions]
    is the loop's test (next listing, or [setReactions] at the end).

    [refresh_result] is the atomic refresh of spec 4.2, computed from the
    backend's answers ([Backend], in [Data]); [settle] runs one refresh
    with those answers and nothing else in between, each step resolving
    the continuation the previous step left.  The theorems: a refresh
    that succeeds ends, after one step per listing and one for the
    [Promise.all], in the state of the atomic refresh (a refinement);
    a failing [Promise.all] leaves the state as it was; each listing's
    counts come from its own events alone. *)

From S2P Require Import Prelude JsObject Data ReactionAggregator State.
From Stdlib Require Import QArith_base.

Local Close Scope Q_scope.

Local Open Scope st_scope.

(** [radius_km=3] of the two queries (App.js 123-124). *)
Definition refresh_radius_km : Q := 3%Q.

(** App.js 119-125, up to the [await] of [Promise.all].  [c] is the
    argument, or the [coords] of the closure when the caller passes none. *)
Definition refreshData (c : option Coordinates) : M unit :=
  match c with
  | None => st_ret tt
  | Some c =>
      send (GetListings c refresh_radius_km) ;;
      send (GetUrgentNearby c refresh_radius_km) ;;
      await_ (AwaitNearby c)
  end.

(** The loop of App.js 131-145 at its test: request the reactions of the
    next listing and wait, or [setReactions(reactionsMap)] (App.js 145). *)
Definition load_reactions (ls : list Listing.t) (reactionsMap : gmap Z (gmap string jsval))
    : M unit :=
  match ls with
  | [] => setReactions reactionsMap
  | listing :: rest =>
      send (GetReactions (Listing.id listing)) ;;
      await_ (AwaitReactions listing rest reactionsMap)
  end.

(** After [Promise.all] (App.js 126-131); a rejection of either request
    lands in the outer [catch] (App.js 146-148). *)
Definition resume_nearby (nearListings : option (list Listing.t))
    (nearUrgent : option (list UrgentNeed.t)) : M unit :=
  match nearListings, nearUrgent with
  | Some nearListings, Some nearUrgent =>
      setListings nearListings ;;
      setUrgent nearUrgent ;;
      load_reactions nearListings ∅
  | _, _ => console_error
  end.

(** The counts of a listing from the answer to its reaction request:
    [aggregate] (App.js 134-140), or zeros in the [catch] (App.js 142). *)
Definition counts_of (r : option (list ReactionEvent.t)) : gmap string jsval :=
  match r with
  | Some listingReactions => aggregate listingReactions
  | None => zero_counts
  end.

(** After the reaction request of [listing] (App.js 133-143). *)
Definition resume_reactions (listing : Listing.t) (rest : list Listing.t)
    (reactionsMap : gmap Z (gmap string jsval)) (r : option (list ReactionEvent.t)) : M unit :=
  load_reactions rest (<[Listing.id listing := counts_of r]> reactionsMap).

(** The continuations of this component. *)
Definition resume_sync (p : pending) (r : response) : option (M unit) :=
  match p, r with
  | AwaitNearby _, Nearby ls us => Some (resume_nearby ls us)
  | AwaitReactions l rest acc, Reactions evs => Some (resume_reactions l rest acc evs)
  | _, _ => None
  end.

(** ** The atomic refresh of spec 4.2 *)

Section Reference.
Variable b : Backend.

(** The answer the backend gives to a continuation of this component. *)
Definition answer (p : pending) : option response :=
  match p with
  | AwaitNearby c =>
      Some (Nearby (get_listings b c refresh_radius_km) (get_urgent_nearby b c refresh_radius_km))
  | AwaitReactions l _ _ => Some (Reactions (get_reactions b (Listing.id l)))
  | _ => None
  end.

Definition reaction_counts (l : Listing.t) : gmap string jsval :=
  counts_of (get_reactions b (Listing.id l)).

Definition reactions_from (ls : list Listing.t) (acc : gmap Z (gmap string jsval))
    : gmap Z (gmap string jsval) :=
  foldl (fun acc l => <[Listing.id l := reaction_counts l]> acc) acc ls.

(** [refresh(coords)] of spec 4.2: the listings, the urgent needs and
    the counts of each listing, or [None] when a query fails. *)
Definition refresh_result (c : Coordinates)
    : option (list Listing.t * list UrgentNeed.t * gmap Z (gmap string jsval)) :=
  match get_listings b c refresh_radius_km, get_urgent_nearby b c refresh_radius_km with
  | Some ls, Some us => Some (ls, us, reactions_from ls ∅)
  | _, _ => None
  end.

(** Resolve the newest continuation of this component with the
    backend's answer, [fuel] times. *)
Fixpoint settle (fuel : nat) (w : world) : world :=
  match fuel with
  | 0 => w
  | S fuel =>
      match last (inflight w) with
      | Some p =>
          match answer p with
          | Some r =>
              match resume_sync p r with
              | Some k => settle fuel (resolve (pred (length (inflight w))) k w)
              | None => w
              end
          | None => w
          end
      | None => w
      end
  end.
End Reference.

(** ** Lemmas *)

Lemma exec_refreshData c w :
  st_exec (refreshData (Some c)) w =
    mk_world (dash_of w) (inflight w ++ [AwaitNearby c])
      (sent w ++ [GetListings c refresh_radius_km; GetUrgentNearby c refresh_radius_km])
      (reports w).
Proof. unfold refreshData. cbn. by rewrite <-app_assoc. Qed.

Lemma exec_load_reactions_cons l rest acc w :
  st_exec (load_reactions (l :: rest) acc) w =
    mk_world (dash_of w) (inflight w ++ [AwaitReactions l rest acc])
      (sent w ++ [GetReactions (Listing.id l)]) (reports w).
Proof. reflexivity. Qed.

(** One step of [settle] on the newest continuation. *)
Lemma settle_snoc b n w ps p r k :
  inflight w = ps ++ [p] -> answer b p = Some r -> resume_sync p r = Some k ->
  settle b (S n) w = settle b n (st_exec k (mk_world (dash_of w) ps (sent w) (reports w))).
Proof.
  intros Hw Ha Hr. simpl. rewrite Hw, last_snoc, Ha, Hr.
  unfold resolve. by rewrite Hw, pred_length_snoc, delete_snoc.
Qed.

(** The loop, run to its end with the backend's answers. *)
Lemma settle_load_reactions b rest acc w :
  let w' := settle b (length rest) (st_exec (load_reactions rest acc) w) in
  dash_of w' = dash_of (st_exec (setReactions (reactions_from b rest acc)) w) /\
  inflight w' = inflight w /\
  sent w' = sent w ++ map (fun l => GetReactions (Listing.id l)) rest /\
  reports w' = reports w.
Proof.
  revert acc w. induction rest as [|l rest IH]; intros acc w.
  - simpl. by rewrite app_nil_r.
  - rewrite exec_load_reactions_cons. simpl length.
    erewrite settle_snoc by (done || reflexivity). unfold resume_reactions.
    destruct (IH (<[Listing.id l := counts_of (get_reactions b (Listing.id l))]> acc)
      (mk_world (dash_of w) (inflight w) (sent w ++ [GetReactions (Listing.id l)]) (reports w)))
      as (Hd & Hi & Hs & Hr).
    split; [exact Hd|]. split; [exact Hi|]. split; [|exact Hr].
    etransitivity; [apply Hs|]. simpl. by rewrite <-app_assoc.
Qed.

Lemma lookup_reactions_from_notin b ls acc k :
  k ∉ map Listing.id ls -> reactions_from b ls acc !! k = acc !! k.
Proof.
  revert acc. induction ls as [|l ls IH]; intros acc Hk; [done|].
  simpl. rewrite IH by set_solver. apply lookup_insert_ne. set_solver.
Qed.

Lemma lookup_reactions_from b ls acc l :
  NoDup (map Listing.id ls) -> l ∈ ls ->
  reactions_from b ls acc !! Listing.id l = Some (reaction_counts b l).
Proof.
  revert acc. induction ls as [|l0 ls IH]; intros acc Hnd Hl; [set_solver|].
  simpl in *. apply NoDup_cons in Hnd as [Hnotin Hnd].
  apply elem_of_cons in Hl as [->|Hl]; [|by apply IH].
  rewrite lookup_reactions_from_notin by done. apply lookup_insert_eq.
Qed.

(** ** Theorems *)

(** The scenario of spec 8: at [{lat: 10, lng: 20}] the backend returns
    two listings and one urgent need; the reactions of listing A are
    [like, like, helpful]; the reaction request of listing B fails. *)
Definition coords_10_20 : Coordinates := mk_coords 10 20.

Definition listing_A : Listing.t :=
  Listing.mk 1 "Ladder" "Aluminium ladder" "offer" true false "" "active" 10 20.
Definition listing_B : Listing.t :=
  Listing.mk 2 "Drill" "Cordless drill" "offer" false true "" "active" 10 20.
Definition urgent_U : UrgentNeed.t :=
  UrgentNeed.mk 7 "Jumper cables" "Car will not start" 2 10 20.

Definition scenario_backend : Backend :=
  mk_backend (fun _ _ => Some [listing_A; listing_B]) (fun _ _ => Some [urgent_U])
    (fun id => if decide (id = 1%Z) then Some events_A else None).

(** A backend whose listing query fails. *)
Definition failing_backend : Backend :=
  mk_backend (fun _ _ => None) (fun _ _ => Some [urgent_U]) (fun _ => Some []).

(** C1. Refinement of the atomic refresh of spec 4.2: when both queries
    succeed, [refreshData] followed by one resolution per [await] (the
    [Promise.all], then one reaction request per listing, in order) ends
    in the state that sets the listings, the urgent needs and the counts
    of the atomic refresh at once; no continuation of it is left, and the
    requests sent are the two queries and then one reaction request per
    listing, in the listings' order. *)
Theorem refreshData_refines b c w ls us R :
  refresh_result b c = Some (ls, us, R) ->
  let w' := settle b (S (length ls)) (st_exec (refreshData (Some c)) w) in
  dash_of w' = dash_of (st_exec (setListings ls ;; setUrgent us ;; setReactions R) w) /\
  inflight w' = inflight w /\
  sent w' = sent w ++ [GetListings c refresh_radius_km; GetUrgentNearby c refresh_radius_km]
              ++ map (fun l => GetReactions (Listing.id l)) ls.
Proof.
  unfold refresh_result.
  destruct (get_listings b c refresh_radius_km) as [ls'|] eqn:Hl; [|done].
  destruct (get_urgent_nearby b c refresh_radius_km) as [us'|] eqn:Hu; [|done].
  intros [= <- <- <-]. cbn zeta. rewrite exec_refreshData.
  erewrite settle_snoc by (done || reflexivity).
  unfold resume_nearby. rewrite Hl, Hu.
  destruct (settle_load_reactions b ls' ∅
    (st_exec (setUrgent us') (st_exec (setListings ls')
      (mk_world (dash_of w) (inflight w)
        (sent w ++ [GetListings c refresh_radius_km; GetUrgentNearby c refresh_radius_km])
        (reports w))))) as (Hd & Hi & Hs & _).
  split; [exact Hd|]. split; [exact Hi|].
  etransitivity; [apply Hs|]. simpl. by rewrite <-app_assoc.
Qed.

Lemma refreshData_refines_witness :
  refresh_result scenario_backend coords_10_20 =
    Some ([listing_A; listing_B], [urgent_U], reactions_from scenario_backend [listing_A; listing_B] ∅) /\
  let w' := settle scenario_backend 3 (st_exec (refreshData (Some coords_10_20)) world_init) in
  dash_of w' = dash_of (st_exec (setListings [listing_A; listing_B] ;; setUrgent [urgent_U] ;;
                 setReactions (reactions_from scenario_backend [listing_A; listing_B] ∅)) world_init) /\
  inflight w' = inflight world_init /\
  sent w' = sent world_init ++ [GetListings coords_10_20 refresh_radius_km;
                                GetUrgentNearby coords_10_20 refresh_radius_km]
              ++ map (fun l => GetReactions (Listing.id l)) [listing_A; listing_B].
Proof.
  split; [reflexivity|].
  apply (refreshData_refines scenario_backend coords_10_20 world_init [listing_A; listing_B]
    [urgent_U] (reactions_from scenario_backend [listing_A; listing_B] ∅)).
  reflexivity.
Defined.

(** C2. A refresh whose listing or urgent-need query fails changes
    nothing the view reads (spec 4.2 step 1: the prior state is kept,
    no partial overwrite) and reports the error to the console. *)
Theorem refreshData_failure_keeps_state b c w :
  refresh_result b c = None ->
  let w' := settle b 1 (st_exec (refreshData (Some c)) w) in
  dash_of w' = dash_of w /\ inflight w' = inflight w /\ reports w' = reports w ++ [ConsoleError].
Proof.
  unfold refresh_result. intros Hr. cbn zeta. rewrite exec_refreshData.
  erewrite settle_snoc by (done || reflexivity). unfold resume_nearby.
  destruct (get_listings b c refresh_radius_km), (get_urgent_nearby b c refresh_radius_km);
    done.
Qed.

Lemma refreshData_failure_keeps_state_witness :
  refresh_result failing_backend coords_10_20 = None /\
  let w' := settle failing_backend 1 (st_exec (refreshData (Some coords_10_20)) world_init) in
  dash_of w' = dash_of world_init /\ inflight w' = inflight world_init /\
  reports w' = reports world_init ++ [ConsoleError].
Proof. split; [reflexivity|]. apply refreshData_failure_keeps_state. reflexivity. Defined.

(** C3. Failure isolation (spec 4.2 step 2, spec 8): after a refresh
    whose queries succeed, each listing of the answer (with distinct
    ids) has the counts of its own reaction events, or all zeros when
    its own request failed, whatever the other listings' requests
    returned; the refresh is not aborted. *)
Theorem refresh_counts_isolated b c w ls us l :
  get_listings b c refresh_radius_km = Some ls ->
  get_urgent_nearby b c refresh_radius_km = Some us ->
  NoDup (map Listing.id ls) -> l ∈ ls ->
  reactions (dash_of (settle b (S (length ls)) (st_exec (refreshData (Some c)) w)))
    !! Listing.id l = Some (counts_of (get_reactions b (Listing.id l))).
Proof.
  intros Hl Hu Hnd Hin.
  assert (refresh_result b c = Some (ls, us, reactions_from b ls ∅)) as Hr
    by (unfold refresh_result; by rewrite Hl, Hu).
  destruct (refreshData_refines b c w ls us _ Hr) as (-> & _).
  by apply lookup_reactions_from.
Qed.

Lemma refresh_counts_isolated_witness :
  (get_listings scenario_backend coords_10_20 refresh_radius_km = Some [listing_A; listing_B] /\
   get_urgent_nearby scenario_backend coords_10_20 refresh_radius_km = Some [urgent_U] /\
   NoDup (map Listing.id [listing_A; listing_B]) /\ listing_B ∈ [listing_A; listing_B]) /\
  reactions (dash_of (settle scenario_backend 3
      (st_exec (refreshData (Some coords_10_20)) world_init))) !! Listing.id listing_B
    = Some (counts_of (get_reactions scenario_backend (Listing.id listing_B))).
Proof.
  split; [split; [reflexivity|split; [reflexivity|split; vm_decide]]|].
  apply (refresh_counts_isolated scenario_backend coords_10_20 world_init [listing_A; listing_B]
    [urgent_U]); [reflexivity|reflexivity|vm_decide..].
Defined.

(** The scenario of spec 8, evaluated: A has [like: 2, helpful: 1] and
    zeros elsewhere; B, whose request failed, has all zeros. *)
Example refresh_scenario_counts :
  let d := dash_of (settle scenario_backend 3 (st_exec (refreshData (Some coords_10_20)) world_init)) in
  (fun cs => (js_get cs "like", js_get cs "helpful", js_get cs "available",
              js_get cs "unavailable"))%string <$> (reactions d !! 1%Z)
    = Some (JNum 2, JNum 1, JNum 0, JNum 0) /\
  reactions d !! 2%Z = Some zero_counts.
Proof. vm_compute. split; reflexivity. Qed.
