(* ===== verification/Location.v ===== *)
(** * LocationProvider: the position effect (App.js 104-117)

    {v
      useEffect(() => {
        navigator.geolocation.getCurrentPosition(
          (pos) => { const c = { lat: ..., lng: ... }; setCoords(c); refreshData(c); },
          () => { const fallback = { lat: 0, lng: 0 }; setCoords(fallback); refreshData(fallback); });
      }, []);
    v}
    The effect runs once, on mount: the initial world ([world_init])
    holds the one [AwaitPosition] continuation.  [resume_position] is
    the callback that runs when the position arrives ([Some c]) or the
    request fails ([None]). *)

From S2P Require Import Prelude Data State DataSync.
From Stdlib Require Import QArith_base.

Local Close Scope Q_scope.
Local Open Scope st_scope.

(** [{ lat: 0, lng: 0 }] (App.js 112). *)
Definition fallback : Coordinates := mk_coords 0 0.

(** The two callbacks of [getCurrentPosition] (App.js 106-115). *)
Definition resume_position (r : option Coordinates) : M unit :=
  let c := match r with Some c => c | None => fallback end in
  setCoords (Some c) ;;
  refreshData (Some c).

Definition resume_location (p : pending) (r : response) : option (M unit) :=
  match p, r with
  | AwaitPosition, Position r => Some (resume_position r)
  | _, _ => None
  end.

(** ** Lemmas *)

Lemma exec_resume_position r w :
  let c := match r with Some c => c | None => fallback end in
  st_exec (resume_position r) w =
    st_exec (refreshData (Some c)) (st_exec (setCoords (Some c)) w).
Proof. reflexivity. Qed.

Lemma coords_resume_position r w :
  coords (dash_of (st_exec (resume_position r) w)) =
    Some (match r with Some c => c | None => fallback end).
Proof. destruct r; reflexivity. Qed.

(** ** Theorems *)

(** C26. The position callback (spec 4.1, spec 7 (a)): the coordinates
    become the device's position, or [{ lat: 0, lng: 0 }] when it cannot
    be obtained, without any report; exactly one refresh is issued, at
    those coordinates: the listing and urgent-need queries with radius
    3 km and the continuation of their [Promise.all]. *)
Theorem position_outcomes r w :
  let c := match r with Some c => c | None => fallback end in
  let w' := st_exec (resume_position r) w in
  coords (dash_of w') = Some c /\ reports w' = reports w /\
  sent w' = sent w ++ [GetListings c refresh_radius_km; GetUrgentNearby c refresh_radius_km] /\
  inflight w' = inflight w ++ [AwaitNearby c].
Proof.
  cbn zeta. rewrite exec_resume_position, exec_refreshData.
  split; [by destruct r|]. done.
Qed.
