(* ===== verification/ListingLifecycle.v ===== *)
(** * ListingLifecycle: creating listings, changing their status, reacting

    The handlers of App.js that act on listings:
    - [handleCreateListing] (151-158): with coordinates known, post the
      form with them; after the post, clear the title and description of
      the form the closure captured and refresh; a rejected post is not
      caught (no [try]), the promise rejects unhandled;
    - [handleUpdateStatus] (182-189) and [handleReaction] (173-180): post,
      then refresh with the closure's coordinates; a rejection is logged;
    - the inputs of the listing form (289-330): each [onChange] sets one
      field of the current form; the form has no input for [category];
      the browser submits only when the [required] title and description
      are non-empty;
    - the controls of a listing card (343-365): four reaction buttons, and
      the two status buttons only when the listing's status is
      ["active"].
    Each handler is cut at its [await] into a start ([handle...]) and a
    continuation ([resume_...]) that receives what the closure captured. *)

From S2P Require Import Prelude JsObject Data ReactionAggregator State DataSync.
From Stdlib Require Import QArith_base.

Local Close Scope Q_scope.
Local Open Scope st_scope.

(** ** The form *)

Definition with_title (f : ListingForm.t) (s : string) : ListingForm.t :=
  ListingForm.mk s (ListingForm.description f) (ListingForm.type f) (ListingForm.is_free f)
    (ListingForm.is_trade f) (ListingForm.category f).
Definition with_description (f : ListingForm.t) (s : string) : ListingForm.t :=
  ListingForm.mk (ListingForm.title f) s (ListingForm.type f) (ListingForm.is_free f)
    (ListingForm.is_trade f) (ListingForm.category f).
Definition with_type (f : ListingForm.t) (s : string) : ListingForm.t :=
  ListingForm.mk (ListingForm.title f) (ListingForm.description f) s (ListingForm.is_free f)
    (ListingForm.is_trade f) (ListingForm.category f).
Definition with_is_free (f : ListingForm.t) (b : bool) : ListingForm.t :=
  ListingForm.mk (ListingForm.title f) (ListingForm.description f) (ListingForm.type f) b
    (ListingForm.is_trade f) (ListingForm.category f).
Definition with_is_trade (f : ListingForm.t) (b : bool) : ListingForm.t :=
  ListingForm.mk (ListingForm.title f) (ListingForm.description f) (ListingForm.type f)
    (ListingForm.is_free f) b (ListingForm.category f).

(** The options of the type [select] (App.js 308-310). *)
Definition listing_types : list string := ["offer"; "request"; "skill"]%string.

(** The [required] title and description (App.js 294, 300): the browser
    blocks the submission of an empty one. *)
Definition listing_form_valid (f : ListingForm.t) : bool :=
  bool_decide (ListingForm.title f <> ""%string) && bool_decide (ListingForm.description f <> ""%string).

(** ** Handlers *)

(** [handleCreateListing] up to its [await] (App.js 151-155). *)
Definition handleCreateListing : M unit :=
  let! d := read in
  match coords d with
  | None => st_ret tt
  | Some c => send (PostListing (form d) c) ;; await_ (AwaitCreateListing (form d) c)
  end.

(** After the post (App.js 156-157): [setForm({ ...form, title: '',
    description: '' })] with the [form] of the closure, then
    [refreshData()] with the closure's [coords]; a rejected post
    propagates out of the handler unhandled. *)
Definition resume_create_listing (form0 : ListingForm.t) (c : Coordinates) (ok : bool) : M unit :=
  if ok then
    setForm (with_description (with_title form0 "") "") ;;
    refreshData (Some c)
  else report_ Unhandled.

(** [handleUpdateStatus] up to its [await] (App.js 182-184). *)
Definition handleUpdateStatus (listingId : Z) (newStatus : string) : M unit :=
  let! d := read in
  send (PatchListing listingId newStatus) ;;
  await_ (AwaitUpdateStatus (coords d)).

(** [handleReaction] up to its [await] (App.js 173-175). *)
Definition handleReaction (type : string) (listingId : Z) : M unit :=
  let! d := read in
  send (PostReaction listingId type) ;;
  await_ (AwaitReaction (coords d)).

(** After the status or reaction post (App.js 176-179, 185-188). *)
Definition resume_refresh_after (c : option Coordinates) (ok : bool) : M unit :=
  if ok then refreshData c else console_error.

Definition resume_listing (p : pending) (r : response) : option (M unit) :=
  match p, r with
  | AwaitCreateListing f c, Posted ok => Some (resume_create_listing f c ok)
  | AwaitUpdateStatus c, Posted ok => Some (resume_refresh_after c ok)
  | AwaitReaction c, Posted ok => Some (resume_refresh_after c ok)
  | _, _ => None
  end.

(** ** The controls of a listing card *)

(** The status buttons are rendered when [l.status === 'active']
    (App.js 356-365), with the statuses of App.js 358 and 361. *)
Definition status_actions (l : Listing.t) : list string :=
  if decide (Listing.status l = "active"%string) then ["reserved"; "completed"]%string else [].

(** The numbers of the four reaction buttons (App.js 334-354). *)
Definition reaction_buttons (reactions : gmap Z (gmap string jsval)) (l : Listing.t) : list jsval :=
  let listingReactions := listing_counts reactions (Listing.id l) in
  map (js_get listingReactions) known_reaction_types.

(** ** Lemmas *)

Lemma exec_handleCreateListing_some w c :
  coords (dash_of w) = Some c ->
  st_exec handleCreateListing w =
    st_exec (await_ (AwaitCreateListing (form (dash_of w)) c))
      (st_exec (send (PostListing (form (dash_of w)) c)) w).
Proof. intros Hc. unfold handleCreateListing, st_exec, st_bind, read. cbv beta iota. by rewrite Hc. Qed.

Lemma exec_handleCreateListing_none w :
  coords (dash_of w) = None -> st_exec handleCreateListing w = w.
Proof. intros Hc. unfold handleCreateListing, st_exec, st_bind, read. cbv beta iota. by rewrite Hc. Qed.

(** ** Theorems *)

(** C13. The two outcomes of a listing post (App.js 155-157, spec 4.4).
    Success: the form is the one the handler captured at submission,
    with an empty title and description and its type, [is_free],
    [is_trade] and [category] kept -- a choice made in the form while
    the post is in flight is overwritten by the captured one; a refresh at the captured
    coordinates is issued; nothing is reported.  Failure: no [catch] --
    the hooks, the continuations and the requests are unchanged, and the
    only trace is an unhandled rejection: no alert, no console message
    (spec 7 (d) asks for the failure to be reported to the user). *)
Theorem create_listing_outcomes form0 c (ok : bool) w :
  let w' := st_exec (resume_create_listing form0 c ok) w in
  if ok then
    ListingForm.title (form (dash_of w')) = ""%string /\
    ListingForm.description (form (dash_of w')) = ""%string /\
    ListingForm.type (form (dash_of w')) = ListingForm.type form0 /\
    ListingForm.is_free (form (dash_of w')) = ListingForm.is_free form0 /\
    ListingForm.is_trade (form (dash_of w')) = ListingForm.is_trade form0 /\
    ListingForm.category (form (dash_of w')) = ListingForm.category form0 /\
    inflight w' = inflight w ++ [AwaitNearby c] /\ reports w' = reports w
  else
    dash_of w' = dash_of w /\ inflight w' = inflight w /\ sent w' = sent w /\
    reports w' = reports w ++ [Unhandled].
Proof.
  destruct ok; cbn zeta; unfold resume_create_listing; [|done].
  rewrite st_exec_seq, exec_refreshData. simpl. repeat split.
Qed.

(** Settling the continuation a handler has just appended. *)
Lemma resolve_snoc k d ps p rs es :
  resolve (length ps) k (mk_world d (ps ++ [p]) rs es) = st_exec k (mk_world d ps rs es).
Proof. unfold resolve. simpl. by rewrite delete_snoc. Qed.

(** C28. Reacting to a listing and changing its status (App.js 173-189,
    spec 4.4): the click posts the reaction or the new status and waits
    with the coordinates of its render; when the post succeeds exactly
    one refresh is issued at those coordinates; when it fails the hooks
    and the requests are unchanged and the failure is only written to the
    console -- not surfaced to the user as spec 7 (d) asks. *)
Theorem mutation_refresh_outcomes id t s (ok : bool) w c :
  coords (dash_of w) = Some c ->
  let wr := st_exec (handleReaction t id) w in
  let ws := st_exec (handleUpdateStatus id s) w in
  sent wr = sent w ++ [PostReaction id t] /\ inflight wr = inflight w ++ [AwaitReaction (Some c)] /\
  sent ws = sent w ++ [PatchListing id s] /\ inflight ws = inflight w ++ [AwaitUpdateStatus (Some c)] /\
  forall w1, w1 = wr \/ w1 = ws ->
    let w2 := resolve (length (inflight w)) (resume_refresh_after (Some c) ok) w1 in
    dash_of w2 = dash_of w /\
    inflight w2 = inflight w ++ (if ok then [AwaitNearby c] else []) /\
    sent w2 = sent w1 ++ (if ok then [GetListings c refresh_radius_km; GetUrgentNearby c refresh_radius_km]
                          else []) /\
    reports w2 = reports w ++ (if ok then [] else [ConsoleError]).
Proof.
  intros Hc. cbn zeta. unfold handleReaction, handleUpdateStatus, st_exec, st_bind, read.
  cbv beta iota. simpl. rewrite Hc. do 4 (split; [done|]).
  intros w1 [-> | ->]; rewrite resolve_snoc; unfold resume_refresh_after;
    destruct ok; rewrite ?exec_refreshData; simpl; rewrite ?app_nil_r; done.
Qed.

(** The dashboard once the position [{ lat: 10, lng: 20 }] is known. *)
Definition w_located : world := st_exec (setCoords (Some coords_10_20)) world_init.

Lemma mutation_refresh_outcomes_witness :
  coords (dash_of w_located) = Some coords_10_20 /\
  (let wr := st_exec (handleReaction "like"%string 1%Z) w_located in
  let ws := st_exec (handleUpdateStatus 1%Z "reserved"%string) w_located in
  sent wr = sent w_located ++ [PostReaction 1%Z "like"%string] /\ inflight wr = inflight w_located ++ [AwaitReaction (Some coords_10_20)] /\
  sent ws = sent w_located ++ [PatchListing 1%Z "reserved"%string] /\ inflight ws = inflight w_located ++ [AwaitUpdateStatus (Some coords_10_20)] /\
  forall w1, w1 = wr \/ w1 = ws ->
    let w2 := resolve (length (inflight w_located)) (resume_refresh_after (Some coords_10_20) true) w1 in
    dash_of w2 = dash_of w_located /\
    inflight w2 = inflight w_located ++ (if true then [AwaitNearby coords_10_20] else []) /\
    sent w2 = sent w1 ++ (if true then [GetListings coords_10_20 refresh_radius_km; GetUrgentNearby coords_10_20 refresh_radius_km]
                          else []) /\
    reports w2 = reports w_located ++ (if true then [] else [ConsoleError])).
Proof.
  split; [reflexivity|].
  exact (mutation_refresh_outcomes 1 "like" "reserved" true w_located coords_10_20 eq_refl).
Defined.
