(* ===== verification/UrgentLifecycle.v ===== *)
(** * UrgentNeedLifecycle: broadcasting an urgent need (App.js 160-167, 374-401)

    [handleCreateUrgent] posts the urgent form with the coordinates; after
    the post it clears the title and description of the form its closure
    captured, keeps [radius_km], and refreshes.  A rejected post is not
    caught.  The form's inputs set one field each; the radius input is
    [type="number" min="0.5" max="10" step="0.5"] and its value goes
    through [Number(...)]: the browser's constraint validation blocks a
    submission whose radius is below 0.5, above 10, or not a multiple of
    0.5 from 0.5 ([radius_valid]), as it blocks an empty title or
    description. *)

From S2P Require Import Prelude Data State DataSync.
From Stdlib Require Import QArith_base.

Local Close Scope Q_scope.
Local Open Scope st_scope.

Definition with_urgent_title (f : UrgentForm.t) (s : string) : UrgentForm.t :=
  UrgentForm.mk s (UrgentForm.description f) (UrgentForm.radius_km f).
Definition with_urgent_description (f : UrgentForm.t) (s : string) : UrgentForm.t :=
  UrgentForm.mk (UrgentForm.title f) s (UrgentForm.radius_km f).
Definition with_radius (f : UrgentForm.t) (r : Q) : UrgentForm.t :=
  UrgentForm.mk (UrgentForm.title f) (UrgentForm.description f) r.

(** [min="0.5" max="10" step="0.5"] (App.js 391-393): a value [r] is
    valid when [0.5 <= r <= 10] and [(r - 0.5) / 0.5] is an integer,
    i.e. [2 r] is an integer. *)
Definition radius_valid (r : Q) : bool :=
  Qle_bool (1 # 2) r && Qle_bool r 10 && (Z.rem (2 * Qnum r) (Z.pos (Qden r)) =? 0)%Z.

(** The submission the browser lets through (App.js 379, 385, 391-393). *)
Definition urgent_form_valid (f : UrgentForm.t) : bool :=
  bool_decide (UrgentForm.title f <> ""%string) &&
  bool_decide (UrgentForm.description f <> ""%string) &&
  radius_valid (UrgentForm.radius_km f).

(** [handleCreateUrgent] up to its [await] (App.js 160-164). *)
Definition handleCreateUrgent : M unit :=
  let! d := read in
  match coords d with
  | None => st_ret tt
  | Some c => send (PostUrgent (urgentForm d) c) ;; await_ (AwaitCreateUrgent (urgentForm d) c)
  end.

(** After the post (App.js 165-166), with the closure's [urgentForm]. *)
Definition resume_create_urgent (urgentForm0 : UrgentForm.t) (c : Coordinates) (ok : bool) : M unit :=
  if ok then
    setUrgentForm (with_urgent_description (with_urgent_title urgentForm0 "") "") ;;
    refreshData (Some c)
  else report_ Unhandled.

Definition resume_urgent (p : pending) (r : response) : option (M unit) :=
  match p, r with
  | AwaitCreateUrgent f c, Posted ok => Some (resume_create_urgent f c ok)
  | _, _ => None
  end.

(** ** Lemmas *)

Lemma radius_valid_bounds r : radius_valid r = true -> (1 # 2 <= r <= 10)%Q.
Proof.
  unfold radius_valid. intros H. apply andb_true_iff in H as [H _].
  apply andb_true_iff in H as [H1 H2]. split; by apply Qle_bool_imp_le.
Qed.

Lemma exec_handleCreateUrgent_some w c :
  coords (dash_of w) = Some c ->
  st_exec handleCreateUrgent w =
    st_exec (await_ (AwaitCreateUrgent (urgentForm (dash_of w)) c))
      (st_exec (send (PostUrgent (urgentForm (dash_of w)) c)) w).
Proof. intros Hc. unfold handleCreateUrgent, st_exec, st_bind, read. cbv beta iota. by rewrite Hc. Qed.

(** ** Theorems *)

(** C27. The two outcomes of an urgent-need post (App.js 164-166, spec
    4.5).  Success: the urgent form is the one the handler captured at
    submission with an empty title and description and its [radius_km]
    kept; a refresh at the captured coordinates is issued; nothing is
    reported.  Failure: no [catch] -- the hooks, the continuations and
    the requests are unchanged and the only trace is an unhandled
    rejection (spec 7 (d) asks for the failure to be reported to the
    user). *)
Theorem create_urgent_outcomes urgentForm0 c (ok : bool) w :
  let w' := st_exec (resume_create_urgent urgentForm0 c ok) w in
  if ok then
    urgentForm (dash_of w') = UrgentForm.mk "" "" (UrgentForm.radius_km urgentForm0) /\
    sent w' = sent w ++ [GetListings c refresh_radius_km; GetUrgentNearby c refresh_radius_km] /\
    inflight w' = inflight w ++ [AwaitNearby c] /\ reports w' = reports w
  else
    dash_of w' = dash_of w /\ inflight w' = inflight w /\ sent w' = sent w /\
    reports w' = reports w ++ [Unhandled].
Proof.
  destruct ok; cbn zeta; unfold resume_create_urgent; [|done].
  rewrite st_exec_seq, exec_refreshData. done.
Qed.
