(* ===== verification/Matching.v ===== *)
(** * MatchingWorkflow: responding to an urgent need with a listing

    App.js 206-226 and 404-449.  [handleGetMatchingListings(urgentId)]
    asks the backend for the user's matching listings and, when they
    arrive, stores them with [setMatchingListings({ ...matchingListings,
    [urgentId]: response.listings })] -- the [matchingListings] of the
    closure, captured when the button was clicked -- and opens the modal
    ([setShowRespondModal(urgentId)]); a failure is logged and alerted.
    The modal is rendered when [showRespondModal &&
    matchingListings[showRespondModal]] is truthy (App.js 419): an id of
    [0] is falsy, an array (even empty) is truthy, [undefined] is not.
    [handleRespondWithListing] posts the chosen listing; on success it
    closes the modal and alerts; on failure it alerts and leaves the
    modal open.  The overlay and the Close button close the modal
    (App.js 420, 444) without touching [matchingListings].

    The workflow's abstract state of spec 4.6 ([Closed] or [Open] with
    the candidates) is [workflow_state], read off the hooks. *)

From S2P Require Import Prelude Data State.

Local Open Scope st_scope.

(** [handleGetMatchingListings] up to its [await] (App.js 206-208). *)
Definition handleGetMatchingListings (urgentId : Z) : M unit :=
  let! d := read in
  send (GetMyMatchingListings urgentId) ;;
  await_ (AwaitMatching urgentId (matchingListings d)).

Definition msg_matching_failed : string :=
  "Could not load your listings. Make sure you have active listings.".
Definition msg_response_sent : string :=
  "Response sent! The requester will see your listing.".
Definition msg_response_failed : string := "Failed to send response.".

(** After the request (App.js 209-214); [r] is [Some listings] when the
    request succeeds, [listings] being [response.listings] ([None] when
    the field is absent). *)
Definition resume_matching (urgentId : Z) (matchingListings0 : gmap Z (option (list Listing.t)))
    (r : option (option (list Listing.t))) : M unit :=
  match r with
  | Some listings =>
      setMatchingListings (<[urgentId := listings]> matchingListings0) ;;
      setShowRespondModal (Some urgentId)
  | None => console_error ;; alert msg_matching_failed
  end.

(** [handleRespondWithListing] up to its [await] (App.js 217-219). *)
Definition handleRespondWithListing (urgentId listingId : Z) : M unit :=
  send (PostRespondWithListing urgentId listingId) ;;
  await_ (AwaitRespond urgentId).

(** After the post (App.js 220-225). *)
Definition resume_respond (ok : bool) : M unit :=
  if ok then setShowRespondModal None ;; alert msg_response_sent
  else console_error ;; alert msg_response_failed.

(** The overlay and the Close button (App.js 420, 444). *)
Definition close_modal : M unit := setShowRespondModal None.

Definition resume_matching_workflow (p : pending) (r : response) : option (M unit) :=
  match p, r with
  | AwaitMatching u m, Matching r => Some (resume_matching u m r)
  | AwaitRespond _, Posted ok => Some (resume_respond ok)
  | _, _ => None
  end.

(** The candidates the modal lists, when it is rendered (App.js 419-443):
    [showRespondModal] must be a non-zero id and
    [matchingListings[showRespondModal]] an array. *)
Definition modal_candidates (d : dash) : option (list Listing.t) :=
  match showRespondModal d with
  | Some u =>
      if decide (u = 0%Z) then None
      else match matchingListings d !! u with
           | Some (Some ls) => Some ls
           | _ => None
           end
  | None => None
  end.

(** The workflow states of spec 4.6. *)
Inductive workflow := Closed | Open (candidates : list Listing.t).

#[global] Instance workflow_eq_dec : EqDecision workflow.
Proof. solve_decision. Defined.

Definition workflow_state (d : dash) : workflow :=
  match modal_candidates d with
  | Some ls => Open ls
  | None => Closed
  end.

(** ** Theorems *)

Lemma workflow_state_open d u ls :
  showRespondModal d = Some u -> u <> 0%Z -> matchingListings d !! u = Some (Some ls) ->
  workflow_state d = Open ls.
Proof.
  intros Hs Hu Hm. unfold workflow_state, modal_candidates.
  rewrite Hs, decide_False by done. by rewrite Hm.
Qed.

(** C14. Opening the workflow (spec 4.6, spec 8): when the request for
    matching listings succeeds with the list [ls] -- possibly empty --
    the workflow is open with exactly those candidates; when it fails,
    the hooks are unchanged (the workflow stays as it was, closed
    included) and the user gets the console error and the alert with
    the guidance. *)
Theorem matching_open_or_fail u m ls w :
  u <> 0%Z ->
  workflow_state (dash_of (st_exec (resume_matching u m (Some (Some ls))) w)) = Open ls /\
  dash_of (st_exec (resume_matching u m None) w) = dash_of w /\
  reports (st_exec (resume_matching u m None) w) =
    reports w ++ [ConsoleError; Alert msg_matching_failed].
Proof.
  intros Hu. split; [|split; [done|]].
  - apply (workflow_state_open _ u); [done|done|]. simpl. apply lookup_insert_eq.
  - simpl. by rewrite <-app_assoc.
Qed.

Lemma matching_open_or_fail_witness :
  (7%Z <> 0%Z) /\
  workflow_state (dash_of (st_exec (resume_matching 7 ∅ (Some (Some []))) world_init)) = Open [] /\
  dash_of (st_exec (resume_matching 7 ∅ None) world_init) = dash_of world_init /\
  reports (st_exec (resume_matching 7 ∅ None) world_init) =
    reports world_init ++ [ConsoleError; Alert msg_matching_failed].
Proof. split; [discriminate|]. apply matching_open_or_fail. discriminate. Defined.

(** C15. Responding (spec 4.6, spec 8): on success the workflow closes
    and the confirmation is alerted; on failure the hooks are unchanged
    -- the workflow stays open with the same candidates, for a retry with
    another listing -- and the failure is alerted. *)
Theorem respond_outcomes (ok : bool) w :
  let w' := st_exec (resume_respond ok) w in
  if ok then workflow_state (dash_of w') = Closed /\ reports w' = reports w ++ [Alert msg_response_sent]
  else dash_of w' = dash_of w /\
       reports w' = reports w ++ [ConsoleError; Alert msg_response_failed].
Proof. destruct ok; simpl; [done|]. split; [done|]. by rewrite <-app_assoc. Qed.

(** C16. Closing the modal (App.js 420, 444) hides it but keeps the
    candidates stored in [matchingListings] (spec 4.6: [close()]
    discards the stored candidates of that urgent need). *)
Theorem close_modal_keeps_candidates w :
  let d' := dash_of (st_exec close_modal w) in
  workflow_state d' = Closed /\ matchingListings d' = matchingListings (dash_of w).
Proof. done. Qed.

(** C17. An urgent need with id 0 never opens the workflow: the request
    succeeds and [showRespondModal] becomes 0, but the guard
    [showRespondModal && ...] (App.js 419) reads 0 as false, so the
    modal is not rendered, whatever the candidates. *)
Theorem matching_zero_id_never_opens m r w :
  let d' := dash_of (st_exec (resume_matching 0 m (Some r)) w) in
  showRespondModal d' = Some 0%Z /\ workflow_state d' = Closed.
Proof. done. Qed.
