(* ===== verification/Chatbot.v ===== *)
(** * ChatbotQueryClient: the search assistant (App.js 191-204, 233-285)

    [handleChatbotQuery] returns at once when [!chatbotQuery.trim() ||
    !coords]; otherwise it posts the query with the coordinates and
    stores the answer, logging a failure.  The query is a JavaScript
    string, a sequence of UTF-16 code units: [String.prototype.trim]
    removes the WhiteSpace and LineTerminator code points of ECMAScript
    (12.2, 12.3) at both ends, so the guard is "the query is all
    white space".  The panel (App.js 239-285) shows the answer's text,
    the suggestions and the external links when the arrays are present
    and non-empty, and after each suggestion the value of
    [s.distance_km && <span>...</span>]: nothing for an absent distance,
    the span for a non-zero one, and the number [0] itself -- which
    React prints as the text "0" -- for a distance of 0. *)

From S2P Require Import Prelude Data State.
From Stdlib Require Import QArith_base.

Local Close Scope Q_scope.
Local Open Scope st_scope.

(** WhiteSpace (TAB, VT, FF, SP, NBSP, ZWNBSP and the category Zs) and
    LineTerminator (LF, CR, LS, PS) code points. *)
Definition js_whitespace (u : Z) : bool :=
  bool_decide (u ∈ [9; 10; 11; 12; 13; 32; 160; 5760; 8232; 8233; 8239; 8287; 12288; 65279]%Z)
  || ((8192 <=? u) && (u <=? 8202))%Z.

Fixpoint trim_start (s : list Z) : list Z :=
  match s with
  | [] => []
  | u :: s' => if js_whitespace u then trim_start s' else s
  end.

(** [String.prototype.trim]. *)
Definition js_trim (s : list Z) : list Z := rev (trim_start (rev (trim_start s))).

(** [handleChatbotQuery] up to its [await] (App.js 191-199). *)
Definition handleChatbotQuery : M unit :=
  let! d := read in
  if decide (js_trim (chatbotQuery d) = []) then st_ret tt else
  match coords d with
  | None => st_ret tt
  | Some c => send (PostChatbotQuery (chatbotQuery d) c) ;; await_ AwaitChatbot
  end.

(** After the post (App.js 200-203). *)
Definition resume_chatbot (r : option ChatResponse.t) : M unit :=
  match r with
  | Some response => setChatbotResponse (Some response)
  | None => console_error
  end.

Definition resume_chat (p : pending) (r : response) : option (M unit) :=
  match p, r with
  | AwaitChatbot, Chatbot r => Some (resume_chatbot r)
  | _, _ => None
  end.

(** ** The panel *)

(** What [{s.distance_km && <span> ({s.distance_km} km away)</span>}]
    renders (App.js 261): [undefined] and [null] render nothing; a
    non-zero number is truthy, so the span is rendered; [0] is falsy, so
    the expression is the number [0], which React renders as the text
    "0". *)
Inductive distance_view := NoDistance | BareZero | KmAway (q : Q).

Definition render_distance (d : option Q) : distance_view :=
  match d with
  | Some q => if Qeq_bool q 0 then BareZero else KmAway q
  | None => NoDistance
  end.

Record suggestion_view := mk_suggestion_view {
  sv_title : string; sv_description : string; sv_distance : distance_view }.

Record chat_view := mk_chat_view {
  cv_text : string;
  cv_suggestions : list suggestion_view;
  cv_links : list ExternalLink.t }.

Definition render_suggestion (s : Suggestion.t) : suggestion_view :=
  mk_suggestion_view (Suggestion.title s) (Suggestion.description s)
    (render_distance (Suggestion.distance_km s)).

(** [xs && xs.length > 0 && ...] (App.js 255, 266). *)
Definition nonempty_or_nil {A} (xs : option (list A)) : list A :=
  match xs with Some l => l | None => [] end.

(** The panel of App.js 239-285: rendered when [showChatbot], with the
    answer when there is one. *)
Definition render_chatbot (d : dash) : option (option chat_view) :=
  if showChatbot d then
    Some (match chatbotResponse d with
          | Some r =>
              Some (mk_chat_view (ChatResponse.response r)
                      (map render_suggestion (nonempty_or_nil (ChatResponse.suggestions r)))
                      (nonempty_or_nil (ChatResponse.external_links r)))
          | None => None
          end)
  else None.

(** ** Lemmas *)

Lemma trim_start_nil s : trim_start s = [] <-> Forall (fun u => js_whitespace u = true) s.
Proof.
  induction s as [|u s IH]; simpl; [split; auto|].
  rewrite Forall_cons. destruct (js_whitespace u); naive_solver.
Qed.

Lemma trim_start_app_ws s t :
  Forall (fun u => js_whitespace u = true) s -> trim_start (s ++ t) = trim_start t.
Proof. induction 1 as [|u s Hu _ IH]; simpl; [done|]. by rewrite Hu. Qed.

Lemma trim_start_head s u t : trim_start s = u :: t -> js_whitespace u = false.
Proof.
  induction s as [|v s IH]; simpl; [done|].
  destruct (js_whitespace v) eqn:Hv; [exact IH|]. by intros [= <- _].
Qed.

(** [trim()] is empty exactly when the string is all white space. *)
Lemma js_trim_nil s : js_trim s = [] <-> Forall (fun u => js_whitespace u = true) s.
Proof.
  rewrite <-trim_start_nil. unfold js_trim. split; [|by intros ->].
  destruct (trim_start s) as [|u t] eqn:Hs; [done|]. intros Hnil. exfalso.
  apply trim_start_head in Hs. simpl in Hnil.
  apply (f_equal (@rev Z)) in Hnil. rewrite rev_involutive in Hnil. simpl in Hnil.
  apply trim_start_nil, Forall_app in Hnil as [_ Hu]. inversion Hu. congruence.
Qed.

(** ** Theorems *)

(** C18. The guard of [handleChatbotQuery] (App.js 193, spec 4.7): the
    handler changes nothing -- no request, no continuation -- exactly when
    the query is empty or all white space (in the sense of
    [String.prototype.trim], Unicode spaces included) or the coordinates
    are not resolved yet. *)
Theorem chatbot_noop_iff w :
  st_exec handleChatbotQuery w = w <->
  Forall (fun u => js_whitespace u = true) (chatbotQuery (dash_of w)) \/ coords (dash_of w) = None.
Proof.
  unfold handleChatbotQuery, st_exec, st_bind, read. cbv beta iota.
  rewrite <-js_trim_nil. case_decide as Ht; [naive_solver|].
  destruct (coords (dash_of w)) as [c|]; [|naive_solver].
  split; [|naive_solver]. intros Hw. exfalso.
  apply (f_equal (fun w => length (inflight w))) in Hw. simpl in Hw.
  rewrite length_app in Hw. simpl in Hw. lia.
Qed.

(** C33. The chatbot panel (App.js 252-285, spec 4.7): once an answer
    has arrived and the panel is open, it shows the answer's text, its
    suggestions in order with their titles and descriptions, and its
    external links -- an absent array as an empty one; after a
    suggestion, " (q km away)" is shown exactly when its distance [q] is
    present and non-zero, and a distance of 0 km is shown as a bare "0"
    (the falsy number that [{s.distance_km && ...}] evaluates to), not
    as "0 km away" (spec 4.7: the fields are rendered as given). *)
Theorem render_chatbot_as_given d r :
  showChatbot d = true -> chatbotResponse d = Some r ->
  exists v, render_chatbot d = Some (Some v) /\
    cv_text v = ChatResponse.response r /\
    map (fun sv => (sv_title sv, sv_description sv)) (cv_suggestions v) =
      map (fun s => (Suggestion.title s, Suggestion.description s))
        (default [] (ChatResponse.suggestions r)) /\
    cv_links v = default [] (ChatResponse.external_links r) /\
    Forall2 (fun s sv =>
               (forall q, sv_distance sv = KmAway q <->
                          Suggestion.distance_km s = Some q /\ ~ (q == 0)%Q) /\
               (sv_distance sv = BareZero <->
                exists q, Suggestion.distance_km s = Some q /\ (q == 0)%Q))
      (default [] (ChatResponse.suggestions r)) (cv_suggestions v).
Proof.
  intros Hs Hr. unfold render_chatbot. rewrite Hs, Hr. eexists. split; [reflexivity|].
  simpl. split; [done|]. unfold nonempty_or_nil.
  destruct (ChatResponse.suggestions r) as [ss|]; simpl; [|split; [done|split; [|constructor]];
    by destruct (ChatResponse.external_links r)].
  rewrite map_map. split; [done|]. split; [by destruct (ChatResponse.external_links r)|].
  induction ss as [|s ss IH]; simpl; constructor; [|exact IH].
  unfold render_suggestion, render_distance. simpl.
  destruct (Suggestion.distance_km s) as [q|]; [|naive_solver].
  destruct (Qeq_bool q 0) eqn:Hq.
  - apply Qeq_bool_iff in Hq. split; [|naive_solver]. intros q'. split; [done|naive_solver].
  - assert (~ (q == 0)%Q) as Hq' by (intros Hq'; apply Qeq_bool_iff in Hq'; congruence).
    split; [|split; [done|intros (q' & [= <-] & ?); contradiction]].
    intros q'. split; [intros [= <-]; auto|intros [[= <-] _]; done].
Qed.

(** An answer with a suggestion at 0 km and one at 1.5 km, on an open
    panel. *)
Definition answer_tools : ChatResponse.t :=
  ChatResponse.mk "Tools nearby"
    (Some [Suggestion.mk "Ladder" "Aluminium ladder" (Some 0%Q);
           Suggestion.mk "Drill" "Cordless drill" (Some (3 # 2)%Q)]) None.

Definition panel_dash : dash :=
  dash_of (st_exec (setShowChatbot true ;; setChatbotResponse (Some answer_tools)) world_init).

Lemma render_chatbot_as_given_witness :
  (showChatbot panel_dash = true /\ chatbotResponse panel_dash = Some answer_tools) /\
  exists v, render_chatbot panel_dash = Some (Some v) /\
    cv_text v = ChatResponse.response answer_tools /\
    map (fun sv => (sv_title sv, sv_description sv)) (cv_suggestions v) =
      map (fun s => (Suggestion.title s, Suggestion.description s))
        (default [] (ChatResponse.suggestions answer_tools)) /\
    cv_links v = default [] (ChatResponse.external_links answer_tools) /\
    Forall2 (fun s sv =>
               (forall q, sv_distance sv = KmAway q <->
                          Suggestion.distance_km s = Some q /\ ~ (q == 0)%Q) /\
               (sv_distance sv = BareZero <->
                exists q, Suggestion.distance_km s = Some q /\ (q == 0)%Q))
      (default [] (ChatResponse.suggestions answer_tools)) (cv_suggestions v).
Proof.
  split; [split; reflexivity|]. exact (render_chatbot_as_given panel_dash answer_tools eq_refl eq_refl).
Defined.
