(* ===== verification/Dashboard.v ===== *)
(** * The dashboard's event loop: handlers and settlements interleaved

    React delivers user events to the handlers of the last render, one
    at a time; each handler runs to its first [await] ([handle]).  The
    environment settles the awaited operations in any order, with any
    outcome, and the code after the [await] runs ([resume], dispatching
    to the component that owns the continuation).  [step] is the
    relation of these two kinds of steps; [reachable] the worlds reached
    from the mount ([world_init], whose only continuation is the
    position request).  A user event is [enabled] when the rendered page
    offers it: the chatbot input only when the panel is open, a status
    button only on an active listing of the list, the modal's buttons
    only when the modal is rendered, a form submission only when the
    browser's constraint validation lets it through.  [run] executes a
    list of steps and is the executable counterpart of [step]. *)

From S2P Require Import Prelude JsObject Data ReactionAggregator State DataSync Location ListingLifecycle UrgentLifecycle Matching Chatbot.
From Stdlib Require Import QArith_base.

Local Close Scope Q_scope.
Local Open Scope st_scope.

(** The events the rendered page offers (App.js 233-449). *)
Inductive ui_event :=
| ToggleChatbot                          (* 233 *)
| EditChatbotQuery (q : list Z)          (* 247 *)
| SubmitChatbot                          (* 243 *)
| EditTitle (s : string)                 (* 293 *)
| EditDescription (s : string)           (* 299 *)
| EditType (s : string)                  (* 306 *)
| EditFree (b : bool)                    (* 318 *)
| EditTrade (b : bool)                   (* 326 *)
| SubmitListing                          (* 289 *)
| EditUrgentTitle (s : string)           (* 378 *)
| EditUrgentDescription (s : string)     (* 384 *)
| EditRadius (r : Q)                     (* 395-397 *)
| SubmitUrgent                           (* 374 *)
| React (type : string) (l : Listing.t)  (* 343-353 *)
| UpdateStatus (l : Listing.t) (newStatus : string)  (* 358, 361 *)
| OpenRespond (u : UrgentNeed.t)         (* 410 *)
| UseListing (l : Listing.t)             (* 433 *)
| CloseModal.                            (* 420, 444 *)

(** What the last render offers. *)
Definition enabled (e : ui_event) (d : dash) : bool :=
  match e with
  | ToggleChatbot => true
  | EditChatbotQuery _ | SubmitChatbot => showChatbot d
  | EditTitle _ | EditDescription _ | EditFree _ | EditTrade _ => true
  | EditType s => bool_decide (s ∈ listing_types)
  | SubmitListing => listing_form_valid (form d)
  | EditUrgentTitle _ | EditUrgentDescription _ | EditRadius _ => true
  | SubmitUrgent => urgent_form_valid (urgentForm d)
  | React t l => bool_decide (l ∈ listings d) && bool_decide (t ∈ known_reaction_types)
  | UpdateStatus l s => bool_decide (l ∈ listings d) && bool_decide (s ∈ status_actions l)
  | OpenRespond u => bool_decide (u ∈ urgent d)
  | UseListing l =>
      match modal_candidates d with Some ls => bool_decide (l ∈ ls) | None => false end
  | CloseModal => bool_decide (modal_candidates d <> None)
  end.

(** The handler of each event, up to its first [await]. *)
Definition handle (e : ui_event) : M unit :=
  match e with
  | ToggleChatbot => let! d := read in setShowChatbot (negb (showChatbot d))
  | EditChatbotQuery q => setChatbotQuery q
  | SubmitChatbot => handleChatbotQuery
  | EditTitle s => let! d := read in setForm (with_title (form d) s)
  | EditDescription s => let! d := read in setForm (with_description (form d) s)
  | EditType s => let! d := read in setForm (with_type (form d) s)
  | EditFree b => let! d := read in setForm (with_is_free (form d) b)
  | EditTrade b => let! d := read in setForm (with_is_trade (form d) b)
  | SubmitListing => handleCreateListing
  | EditUrgentTitle s => let! d := read in setUrgentForm (with_urgent_title (urgentForm d) s)
  | EditUrgentDescription s =>
      let! d := read in setUrgentForm (with_urgent_description (urgentForm d) s)
  | EditRadius r => let! d := read in setUrgentForm (with_radius (urgentForm d) r)
  | SubmitUrgent => handleCreateUrgent
  | React t l => handleReaction t (Listing.id l)
  | UpdateStatus l s => handleUpdateStatus (Listing.id l) s
  | OpenRespond u => handleGetMatchingListings (UrgentNeed.id u)
  | UseListing l =>
      let! d := read in
      match showRespondModal d with
      | Some u => handleRespondWithListing u (Listing.id l)
      | None => st_ret tt
      end
  | CloseModal => close_modal
  end.

(** The code after an [await], by the component that owns it. *)
Definition resume (p : pending) (r : response) : option (M unit) :=
  match p with
  | AwaitPosition => resume_location p r
  | AwaitNearby _ | AwaitReactions _ _ _ => resume_sync p r
  | AwaitCreateListing _ _ | AwaitUpdateStatus _ | AwaitReaction _ => resume_listing p r
  | AwaitCreateUrgent _ _ => resume_urgent p r
  | AwaitChatbot => resume_chat p r
  | AwaitMatching _ _ | AwaitRespond _ => resume_matching_workflow p r
  end.

Inductive step : world -> world -> Prop :=
| step_user e w :
    enabled e (dash_of w) = true -> step w (st_exec (handle e) w)
| step_settle i p r k w :
    inflight w !! i = Some p -> resume p r = Some k -> step w (resolve i k w).

Definition reachable (w : world) : Prop := rtc step world_init w.

(** ** The executable semantics *)

Inductive event :=
| User (e : ui_event)
| Settle (i : nat) (r : response).

Definition exec_event (ev : event) (w : world) : option world :=
  match ev with
  | User e => if enabled e (dash_of w) then Some (st_exec (handle e) w) else None
  | Settle i r =>
      match inflight w !! i with
      | Some p => match resume p r with Some k => Some (resolve i k w) | None => None end
      | None => None
      end
  end.

Fixpoint run (evs : list event) (w : world) : option world :=
  match evs with
  | [] => Some w
  | ev :: evs => match exec_event ev w with Some w' => run evs w' | None => None end
  end.

(** ** Lemmas *)

Lemma exec_event_step ev w w' : exec_event ev w = Some w' -> step w w'.
Proof.
  destruct ev as [e|i r]; simpl.
  - destruct (enabled e (dash_of w)) eqn:He; intros; simplify_eq. by constructor.
  - destruct (inflight w !! i) as [p|] eqn:Hp; [|done].
    destruct (resume p r) as [k|] eqn:Hk; intros; simplify_eq. by econstructor.
Qed.

Lemma step_exec_event w w' : step w w' -> exists ev, exec_event ev w = Some w'.
Proof.
  destruct 1 as [e w He|i p r k w Hp Hk].
  - exists (User e). simpl. by rewrite He.
  - exists (Settle i r). simpl. by rewrite Hp, Hk.
Qed.

Lemma run_rtc evs w w' : run evs w = Some w' -> rtc step w w'.
Proof.
  revert w. induction evs as [|ev evs IH]; intros w; simpl; [by intros [= ->]|].
  destruct (exec_event ev w) as [w1|] eqn:He; [|done].
  intros Hr. eapply rtc_l; [by eapply exec_event_step|]. by apply IH.
Qed.

Lemma resume_sync_resume p r k : resume_sync p r = Some k -> resume p r = Some k.
Proof. by destruct p. Qed.

(** Every step of [settle] is a settlement of the dashboard. *)
Lemma settle_rtc b n w : rtc step w (settle b n w).
Proof.
  revert w. induction n as [|n IH]; intros w; simpl; [done|].
  destruct (last (inflight w)) as [p|] eqn:Hl; [|done].
  destruct (answer b p) as [r|]; [|done].
  destruct (resume_sync p r) as [k|] eqn:Hk; [|done].
  eapply rtc_l; [|apply IH]. eapply step_settle; [|by apply resume_sync_resume].
  rewrite last_lookup in Hl. exact Hl.
Qed.
