(* ===== verification/Footprint.v ===== *)
(** * Footprints of handlers

    A handler of App.js touches the world in four ways: it changes hooks,
    appends continuations (an [await]), appends requests (an [apiGet] or
    [apiPost]) and appends reports.  [footprint D P Q m] says that every
    run of [m] relates the hooks before and after by [D], appends only
    continuations satisfying [P] and requests satisfying [Q], and only
    appends reports.  Footprints compose along [st_bind] when [D] is a
    preorder, so the footprint of a handler follows from those of the
    primitives it is written with; the hint database [footprint] and the
    tactic [footprint_tac] do that composition.  The invariants of
    [Invariants] are proved from the footprints of the handlers. *)

From S2P Require Import Prelude Data State.

Local Open Scope st_scope.

Definition footprint (D : dash -> dash -> Prop) (P : pending -> Prop) (Q : request -> Prop)
    {A} (m : M A) : Prop :=
  forall w, let w' := st_exec m w in
    D (dash_of w) (dash_of w') /\
    (exists ps, inflight w' = inflight w ++ ps /\ Forall P ps) /\
    (exists rs, sent w' = sent w ++ rs /\ Forall Q rs) /\
    (exists es, reports w' = reports w ++ es).

Section footprint.
  Context (D : dash -> dash -> Prop) `{!PreOrder D} (P : pending -> Prop) (Q : request -> Prop).

Lemma footprint_bind {A B} (m : M A) (k : A -> M B) :
  footprint D P Q m -> (forall a, footprint D P Q (k a)) -> footprint D P Q (st_bind m k).
Proof.
  intros Hm Hk w. rewrite st_exec_bind.
  destruct (Hm w) as (HD1 & (ps1 & Hp1 & HP1) & (rs1 & Hr1 & HQ1) & (es1 & He1)).
  destruct (Hk (fst (m w)) (snd (m w))) as (HD2 & (ps2 & Hp2 & HP2) & (rs2 & Hr2 & HQ2) & (es2 & He2)).
  unfold st_exec in *. split; [by etrans|].
  split; [exists (ps1 ++ ps2); rewrite Hp2, Hp1, app_assoc; split; [done|]; by apply Forall_app|].
  split; [exists (rs1 ++ rs2); rewrite Hr2, Hr1, app_assoc; split; [done|]; by apply Forall_app|].
  exists (es1 ++ es2). by rewrite He2, He1, app_assoc.
Qed.

(** A primitive that only changes the hooks. *)
Lemma footprint_hooks_only {A} (m : M A) :
  (forall w, D (dash_of w) (dash_of (st_exec m w)) /\ inflight (st_exec m w) = inflight w /\
             sent (st_exec m w) = sent w /\ reports (st_exec m w) = reports w) ->
  footprint D P Q m.
Proof.
  intros Hm w. destruct (Hm w) as (HD & Hi & Hs & Hr). split; [done|].
  split; [exists []; by rewrite app_nil_r|]. split; [exists []; by rewrite app_nil_r|].
  exists []. by rewrite app_nil_r.
Qed.

Lemma footprint_ret {A} (a : A) : footprint D P Q (st_ret a).
Proof. apply footprint_hooks_only. done. Qed.

Lemma footprint_read : footprint D P Q read.
Proof. apply footprint_hooks_only. done. Qed.

Lemma footprint_modify_dash f : (forall d, D d (f d)) -> footprint D P Q (modify_dash f).
Proof. intros Hf. apply footprint_hooks_only. intros w. by split; [apply Hf|]. Qed.

Lemma footprint_send r : Q r -> footprint D P Q (send r).
Proof.
  intros Hr w. split; [done|].
  split; [exists []; by rewrite app_nil_r|]. split; [exists [r]; by split; [|constructor]|].
  exists []. by rewrite app_nil_r.
Qed.

Lemma footprint_await p : P p -> footprint D P Q (await_ p).
Proof.
  intros Hp w. split; [done|].
  split; [exists [p]; by split; [|constructor]|]. split; [exists []; by rewrite app_nil_r|].
  exists []. by rewrite app_nil_r.
Qed.

Lemma footprint_report r : footprint D P Q (report_ r).
Proof.
  intros w. split; [done|].
  split; [exists []; by rewrite app_nil_r|]. split; [exists []; by rewrite app_nil_r|].
  by exists [r].
Qed.

End footprint.

Create HintDb footprint discriminated.
#[export] Hint Resolve footprint_ret footprint_read footprint_report : footprint.

(** Unfold [m] and compose the footprints of its primitives, splitting
    the matches of the code; what is left are the side conditions on the
    primitives ([D] for a setter, [P] for an await, [Q] for a request). *)
Ltac footprint_tac :=
  repeat (first
    [ apply footprint_bind; [exact _| |intros ?]
    | apply footprint_ret | apply footprint_read | apply footprint_report
    | apply footprint_send | apply footprint_await | apply footprint_modify_dash; intros ?
    | case_match
    | exact _ ]).

(** ** Footprints under a guard

    [footprint_on G D P Q m]: the footprint of [m] on the worlds whose
    hooks satisfy [G].  A handler that reads the hooks and acts on what
    it read (the coordinates, say) has a footprint that depends on them;
    [footprint_on_read] passes the guard to the code after the [read]. *)

Definition footprint_on (G : dash -> Prop) (D : dash -> dash -> Prop) (P : pending -> Prop)
    (Q : request -> Prop) {A} (m : M A) : Prop :=
  forall w, G (dash_of w) ->
    let w' := st_exec m w in
    D (dash_of w) (dash_of w') /\
    (exists ps, inflight w' = inflight w ++ ps /\ Forall P ps) /\
    (exists rs, sent w' = sent w ++ rs /\ Forall Q rs) /\
    (exists es, reports w' = reports w ++ es).

Section footprint_on.
  Context (G : dash -> Prop) (D : dash -> dash -> Prop) `{!PreOrder D}
    (P : pending -> Prop) (Q : request -> Prop).
  Hypothesis HG : forall d d', G d -> D d d' -> G d'.

Lemma footprint_on_weaken {A} (m : M A) : footprint D P Q m -> footprint_on G D P Q m.
Proof. intros Hm w _. apply Hm. Qed.

Lemma footprint_on_bind {A B} (m : M A) (k : A -> M B) :
  footprint_on G D P Q m -> (forall a, footprint_on G D P Q (k a)) ->
  footprint_on G D P Q (st_bind m k).
Proof.
  intros Hm Hk w Hw. rewrite st_exec_bind.
  destruct (Hm w Hw) as (HD1 & (ps1 & Hp1 & HP1) & (rs1 & Hr1 & HQ1) & (es1 & He1)).
  destruct (Hk (fst (m w)) (snd (m w))) as (HD2 & (ps2 & Hp2 & HP2) & (rs2 & Hr2 & HQ2) & (es2 & He2));
    [by eapply HG|].
  unfold st_exec in *. split; [by etrans|].
  split; [exists (ps1 ++ ps2); rewrite Hp2, Hp1, app_assoc; split; [done|]; by apply Forall_app|].
  split; [exists (rs1 ++ rs2); rewrite Hr2, Hr1, app_assoc; split; [done|]; by apply Forall_app|].
  exists (es1 ++ es2). by rewrite He2, He1, app_assoc.
Qed.

(** The code after a [read] runs on hooks satisfying the guard. *)
Lemma footprint_on_read {B} (k : dash -> M B) :
  (forall d, G d -> footprint_on G D P Q (k d)) -> footprint_on G D P Q (st_bind read k).
Proof. intros Hk w Hw. rewrite st_exec_bind. by apply Hk. Qed.

End footprint_on.

(** [footprint_tac] under a guard: the [read]s first, then the
    primitives through [footprint_on_weaken]. *)
Ltac footprint_on_tac :=
  repeat (first
    [ apply footprint_on_read; intros ? ?
    | apply footprint_on_bind; [exact _| | |intros ?]
    | apply footprint_on_weaken; footprint_tac
    | case_match ]).
