(* ===== verification/Interleaving.v ===== *)
(** * Interleavings of refreshes and handlers

    [refreshData] carries no sequence token (App.js 119-149): whichever
    refresh settles last writes the listings, the urgent needs and the
    counts, whatever the order in which the refreshes were issued
    (spec 5 asks for the last issued to win).  Its writes are also split:
    [setListings]/[setUrgent] happen when the [Promise.all] settles,
    [setReactions] only after the last reaction request (spec 4.2 step 3
    asks for one atomic replacement).  The same hazard of suspension
    points holds for the matching store, written from the snapshot the
    click captured, and for the chatbot's answer, which nothing ties to
    its query.  This file proves these for every world of the step
    relation of [Dashboard] in which the continuations are in flight;
    the witnesses replay runs of the page from the mount (a listing just
    created appears and then disappears, spec 8; two matching requests;
    two chatbot queries). *)

From S2P Require Import Prelude JsObject Data ReactionAggregator State DataSync Location ListingLifecycle Matching Chatbot Dashboard.
From Stdlib Require Import QArith_base.

Local Close Scope Q_scope.
Local Open Scope st_scope.

(** What a refresh writes and the page shows: the listings, the urgent
    needs and the counts. *)
Definition visible (d : dash) : list Listing.t * list UrgentNeed.t * gmap Z (gmap string jsval) :=
  (listings d, urgent d, reactions d).

(** ** A refresh settled from any position of the in-flight list *)

Lemma exec_resume_nearby ls us w :
  st_exec (resume_nearby (Some ls) (Some us)) w =
    st_exec (load_reactions ls ∅) (st_exec (setUrgent us) (st_exec (setListings ls) w)).
Proof. unfold resume_nearby. by rewrite !st_exec_seq. Qed.

(** The [Promise.all] of a refresh settles with [ls] and [us]; then the
    reaction requests settle, in order, with the backend's answers. *)
Lemma settle_nearby_at b w i c ls us :
  inflight w !! i = Some (AwaitNearby c) ->
  let w' := settle b (length ls) (resolve i (resume_nearby (Some ls) (Some us)) w) in
  rtc step w w' /\
  listings (dash_of w') = ls /\ urgent (dash_of w') = us /\
  reactions (dash_of w') = reactions_from b ls ∅ /\
  inflight w' = delete i (inflight w).
Proof.
  intros Hi. cbn zeta.
  destruct (settle_load_reactions b ls ∅
    (st_exec (setUrgent us) (st_exec (setListings ls)
      (mk_world (dash_of w) (delete i (inflight w)) (sent w) (reports w)))))
    as (Hd & Hinf & _ & _).
  split; [|split; [|split; [|split]]].
  - eapply rtc_l; [by apply (step_settle i (AwaitNearby c) (Nearby (Some ls) (Some us)))|].
    apply settle_rtc.
  - unfold resolve. rewrite exec_resume_nearby, Hd. reflexivity.
  - unfold resolve. rewrite exec_resume_nearby, Hd. reflexivity.
  - unfold resolve. rewrite exec_resume_nearby, Hd. reflexivity.
  - unfold resolve. rewrite exec_resume_nearby, Hinf. reflexivity.
Qed.

Lemma refresh_result_Some b c ls us R :
  refresh_result b c = Some (ls, us, R) -> R = reactions_from b ls ∅.
Proof.
  unfold refresh_result.
  destruct (get_listings b c refresh_radius_km), (get_urgent_nearby b c refresh_radius_km);
    naive_solver.
Qed.

(** ** Theorems *)

(** C11. No sequence token (against spec 5): when two refreshes are in
    flight, the one issued first (earlier in the list of continuations)
    at [i] and the one issued second at [j], there is a schedule in which
    the second settles completely (its listings, urgent needs and counts
    are shown) and then the first settles and replaces all three with
    its own, older, answers: the last to arrive wins, not the last
    issued. *)
Theorem stale_refresh_lands_last w i j c1 c2 b1 b2 ls1 us1 R1 ls2 us2 R2 :
  i < j ->
  inflight w !! i = Some (AwaitNearby c1) -> inflight w !! j = Some (AwaitNearby c2) ->
  refresh_result b1 c1 = Some (ls1, us1, R1) -> refresh_result b2 c2 = Some (ls2, us2, R2) ->
  exists w2 w3, rtc step w w2 /\ rtc step w2 w3 /\
    visible (dash_of w2) = (ls2, us2, R2) /\ visible (dash_of w3) = (ls1, us1, R1) /\
    inflight w3 = delete i (delete j (inflight w)).
Proof.
  intros Hij Hi Hj H1 H2.
  apply refresh_result_Some in H1 as ->. apply refresh_result_Some in H2 as ->.
  destruct (settle_nearby_at b2 w j c2 ls2 us2 Hj) as (Hs2 & Hl2 & Hu2 & Hr2 & Hf2).
  set (w2 := settle b2 (length ls2) (resolve j (resume_nearby (Some ls2) (Some us2)) w)) in *.
  assert (inflight w2 !! i = Some (AwaitNearby c1)) as Hi2
    by (rewrite Hf2, list_lookup_delete_lt by done; exact Hi).
  destruct (settle_nearby_at b1 w2 i c1 ls1 us1 Hi2) as (Hs1 & Hl1 & Hu1 & Hr1 & Hf1).
  eexists w2, _. split; [exact Hs2|]. split; [exact Hs1|]. unfold visible.
  rewrite Hl2, Hu2, Hr2, Hl1, Hu1, Hr1. split; [done|]. split; [done|]. by rewrite Hf1, Hf2.
Qed.

(** A run of the page from the mount: the position arrives (a refresh
    is issued), the user fills in and posts a listing, the post succeeds
    (a second refresh is issued) while the first refresh is still in
    flight. *)
Definition race_trace : list event :=
  [Settle 0 (Position (Some coords_10_20));
   User (EditTitle "Ladder"); User (EditDescription "Aluminium ladder");
   User SubmitListing;
   Settle 1 (Posted true)].

Definition race_world : world := default world_init (run race_trace world_init).

Lemma run_race_trace : run race_trace world_init = Some race_world.
Proof. vm_compute. reflexivity. Qed.

Lemma race_world_reachable : reachable race_world.
Proof. apply (run_rtc race_trace), run_race_trace. Qed.

(** The backend before the listing is created, and after. *)
Definition backend_before : Backend :=
  mk_backend (fun _ _ => Some []) (fun _ _ => Some []) (fun _ => Some []).
Definition backend_after : Backend :=
  mk_backend (fun _ _ => Some [listing_A]) (fun _ _ => Some []) (fun _ => Some []).

(** The witness of [stale_refresh_lands_last] is the scenario of spec 8
    ("creating a listing followed by a refresh must result in that
    listing appearing"): the refresh issued by the creation shows
    "Ladder", then the refresh issued at mount, answered before the
    creation, lands and the listing disappears. *)
Lemma stale_refresh_lands_last_witness :
  ((0 < 1)%nat /\
   inflight race_world !! 0%nat = Some (AwaitNearby coords_10_20) /\
   inflight race_world !! 1%nat = Some (AwaitNearby coords_10_20) /\
   refresh_result backend_before coords_10_20 = Some ([], [], ∅) /\
   refresh_result backend_after coords_10_20 =
     Some ([listing_A], [], reactions_from backend_after [listing_A] ∅)) /\
  exists w2 w3, rtc step race_world w2 /\ rtc step w2 w3 /\
    visible (dash_of w2) = ([listing_A], [], reactions_from backend_after [listing_A] ∅) /\
    visible (dash_of w3) = ([], [], ∅) /\
    inflight w3 = delete 0 (delete 1 (inflight race_world)).
Proof.
  split; [split; [lia|]; split; [vm_compute; reflexivity|]; split; [vm_compute; reflexivity|];
          split; reflexivity|].
  apply (stale_refresh_lands_last race_world 0 1 coords_10_20 coords_10_20
           backend_before backend_after);
    [lia | vm_compute; reflexivity | vm_compute; reflexivity | reflexivity | reflexivity].
Defined.

(** C12. The replacement is not atomic (against spec 4.2 step 3): when
    the [Promise.all] of a refresh settles with a non-empty list, the
    new listings and urgent needs are shown at once while the counts are
    still the previous refresh's map, until the last reaction request
    settles; a reaction request is then in flight. *)
Theorem refresh_not_atomic w i c ls us :
  inflight w !! i = Some (AwaitNearby c) -> ls <> [] ->
  let w' := resolve i (resume_nearby (Some ls) (Some us)) w in
  step w w' /\ visible (dash_of w') = (ls, us, reactions (dash_of w)) /\
  exists l rest, last (inflight w') = Some (AwaitReactions l rest ∅).
Proof.
  intros Hi Hne. destruct ls as [|l rest]; [done|]. cbn zeta.
  split; [by apply (step_settle i (AwaitNearby c) (Nearby (Some (l :: rest)) (Some us)))|].
  unfold resolve. rewrite exec_resume_nearby, exec_load_reactions_cons.
  split; [done|]. exists l, rest. simpl. by rewrite last_snoc.
Qed.

Lemma refresh_not_atomic_witness :
  (inflight race_world !! 0%nat = Some (AwaitNearby coords_10_20) /\ [listing_A] <> []) /\
  let w' := resolve 0 (resume_nearby (Some [listing_A]) (Some [])) race_world in
  step race_world w' /\ visible (dash_of w') = ([listing_A], [], reactions (dash_of race_world)) /\
  exists l rest, last (inflight w') = Some (AwaitReactions l rest ∅).
Proof.
  split; [split; [vm_compute; reflexivity | discriminate]|].
  apply (refresh_not_atomic race_world 0 coords_10_20);
    [vm_compute; reflexivity | discriminate].
Defined.

(** ** Two matching requests in flight *)

Definition urgent_V : UrgentNeed.t :=
  UrgentNeed.mk 8 "Ladder" "Gutter cleaning" 1 10 20.

(** The user opens the respond workflow for two urgent needs before the
    first request returns; the first returns with "Ladder". *)
Definition matching_race_trace : list event :=
  [Settle 0 (Position (Some coords_10_20));
   Settle 0 (Nearby (Some []) (Some [urgent_U; urgent_V]));
   User (OpenRespond urgent_U); User (OpenRespond urgent_V);
   Settle 0 (Matching (Some (Some [listing_A])))].

(** The continuation at position [i] of the in-flight list is that of a
    matching request for the need [u], whose closure captured the store
    [m]. *)
Definition matching_snapshot (w : world) (i : nat) (u : Z) (m : gmap Z (option (list Listing.t))) : Prop :=
  inflight w !! i = Some (AwaitMatching u m).

(** C29. Lost update in [handleGetMatchingListings] (App.js 210): the
    store is written as [{ ...matchingListings, [urgentId]: ... }] with
    the [matchingListings] of the closure.  When the continuation of the
    request for [u] settles, the store becomes the snapshot [m] taken at
    the click with [u] added: an entry for another need [u'] stored in
    the meantime -- by another matching request that completed first --
    is erased, and the modal opens for [u] (spec 2: one entry per opened
    urgent need; spec 5 names the refresh race as the only hazard across
    suspension points). *)
Theorem matching_lost_update w i u m ls u' c' :
  matching_snapshot w i u m -> u' <> u -> m !! u' = None ->
  matchingListings (dash_of w) !! u' = Some c' ->
  exists w', step w w' /\
    matchingListings (dash_of w') = <[u := ls]> m /\
    matchingListings (dash_of w') !! u' = None /\
    showRespondModal (dash_of w') = Some u.
Proof.
  intros Hi Hne Hm _.
  exists (resolve i (resume_matching u m (Some ls)) w). split.
  - by apply (step_settle i (AwaitMatching u m) (Matching (Some ls))).
  - simpl. split; [done|]. split; [|done]. by rewrite lookup_insert_ne.
Qed.

(** The run of [matching_race_trace]: the request for "Jumper cables"
    (id 7) has completed, the one for "Gutter cleaning" (id 8), which
    captured the empty store, is in flight. *)
Definition matching_race_world : world := default world_init (run matching_race_trace world_init).

Lemma matching_lost_update_witness :
  (matching_snapshot matching_race_world 0 8 ∅ /\ (7 <> 8)%Z /\
   (∅ : gmap Z (option (list Listing.t))) !! 7%Z = None /\
   matchingListings (dash_of matching_race_world) !! 7%Z = Some (Some [listing_A])) /\
  exists w', step matching_race_world w' /\
    matchingListings (dash_of w') = <[8%Z := Some [listing_B]]> ∅ /\
    matchingListings (dash_of w') !! 7%Z = None /\
    showRespondModal (dash_of w') = Some 8%Z.
Proof.
  split; [split; [vm_compute; reflexivity|split; [lia|split; [reflexivity|vm_compute; reflexivity]]]|].
  apply (matching_lost_update matching_race_world 0 8 ∅ (Some [listing_B]) 7 (Some [listing_A]));
    [vm_compute; reflexivity|lia|reflexivity|vm_compute; reflexivity].
Defined.

(** ** Two chatbot queries in flight *)

(** A query typed in the input, as UTF-16 code units. *)
Definition utf16 (s : string) : list Z :=
  map (fun a => Z.of_nat (Ascii.nat_of_ascii a)) (String.list_ascii_of_string s).

Definition answer_ladder : ChatResponse.t := ChatResponse.mk "Ladder: 1 nearby" None None.
Definition answer_drill : ChatResponse.t := ChatResponse.mk "Drill: 1 nearby" None None.

(** The user asks for a ladder, then for a drill; the answer to the
    drill arrives first. *)
Definition chatbot_race_trace : list event :=
  [Settle 0 (Position (Some coords_10_20)); User ToggleChatbot;
   User (EditChatbotQuery (utf16 "ladder")); User SubmitChatbot;
   User (EditChatbotQuery (utf16 "drill")); User SubmitChatbot;
   Settle 2 (Chatbot (Some answer_drill))].

(** Two chatbot queries are in flight, the older at position [i], the
    newer at [j] (continuations are appended in the order of the
    submissions). *)
Definition chatbot_queries_in_flight (w : world) (i j : nat) : Prop :=
  (i < j)%nat /\ inflight w !! i = Some AwaitChatbot /\ inflight w !! j = Some AwaitChatbot.

(** C30. Last answer wins in [handleChatbotQuery] (App.js 191-204):
    the continuation of a query captures nothing of it, and
    [setChatbotResponse] stores whatever answer settles.  With two
    queries in flight, the older at [i] and the newer at [j], whatever
    answers [r_old] and [r_new] they get, the newer may land first: the
    panel shows [r_new], then [r_old] replaces it, under the input as it
    was -- the answer to the older query ends under the newer one (spec
    5: the last-to-arrive-wins hazard; spec 4.7 renders the answer to
    the query sent). *)
Theorem chatbot_last_answer_wins w i j r_old r_new :
  chatbot_queries_in_flight w i j ->
  exists w1 w2, step w w1 /\ step w1 w2 /\
    chatbotResponse (dash_of w1) = Some r_new /\
    chatbotResponse (dash_of w2) = Some r_old /\
    chatbotQuery (dash_of w2) = chatbotQuery (dash_of w).
Proof.
  intros (Hij & Hi & Hj).
  set (w1 := resolve j (resume_chatbot (Some r_new)) w).
  assert (inflight w1 !! i = Some AwaitChatbot) as Hi1
    by (simpl; rewrite list_lookup_delete_lt by lia; exact Hi).
  exists w1, (resolve i (resume_chatbot (Some r_old)) w1).
  split; [by apply (step_settle j AwaitChatbot (Chatbot (Some r_new)))|].
  split; [by apply (step_settle i AwaitChatbot (Chatbot (Some r_old)))|].
  done.
Qed.

(** Both queries of [chatbot_race_trace] in flight: "ladder" at 1,
    "drill" at 2. *)
Definition chatbot_race_world : world :=
  default world_init (run (take 6 chatbot_race_trace) world_init).

Lemma chatbot_last_answer_wins_witness :
  chatbot_queries_in_flight chatbot_race_world 1 2 /\
  exists w1 w2, step chatbot_race_world w1 /\ step w1 w2 /\
    chatbotResponse (dash_of w1) = Some answer_drill /\
    chatbotResponse (dash_of w2) = Some answer_ladder /\
    chatbotQuery (dash_of w2) = chatbotQuery (dash_of chatbot_race_world).
Proof.
  assert (chatbot_queries_in_flight chatbot_race_world 1 2) as Hq
    by (split; [lia|split; vm_compute; reflexivity]).
  split; [exact Hq|]. exact (chatbot_last_answer_wins chatbot_race_world 1 2 _ _ Hq).
Defined.
