(* ===== verification/Invariants.v ===== *)
(** * Invariants of the dashboard

    The footprints ([Footprint]) of every handler and every continuation
    of App.js, and the properties of the reachable worlds proved from
    them by induction on the steps:
    - the position is requested once, at mount; until it arrives the
      coordinates are unset and exactly one position request is in
      flight; afterwards the coordinates are set and never change
      (spec 3: resolved once, immutable for the session);
    - the requests a step sends ([sent_by], [step_sent]): a status
      change only from the buttons of an active listing, an urgent need
      only with a radius the form accepts, a response only for a listing
      the open modal offers;
    - the listing form's category, which no input sets, stays empty in
      the form and in every posted listing. *)

From S2P Require Import Prelude Data State Footprint DataSync Location Interleaving ListingLifecycle UrgentLifecycle Matching Chatbot Dashboard.
From Stdlib Require Import QArith_base.

Local Close Scope Q_scope.
Local Open Scope st_scope.

(** ** The coordinates *)

(** The hooks keep [coords]. *)
Definition coords_same (d d' : dash) : Prop := coords d' = coords d.

#[global] Instance coords_same_preorder : PreOrder coords_same.
Proof. split; [by intros ?|]. intros x y z H1 H2. unfold coords_same in *. congruence. Qed.

Definition not_position (p : pending) : Prop := p <> AwaitPosition.
Definition any_request (r : request) : Prop := True.

Abbreviation keeps_coords := (footprint coords_same not_position any_request).

(** Close the side conditions of [footprint_tac] for these predicates. *)
Ltac coords_side := first [ reflexivity | done | exact I | by intros ? ].

(** Unfold the handlers, continuations and setters of App.js down to the
    primitives of [State]. *)
Ltac unfold_code :=
  repeat progress unfold handleChatbotQuery, handleCreateListing, handleCreateUrgent,
    handleReaction, handleUpdateStatus, handleGetMatchingListings, handleRespondWithListing,
    close_modal, resume_position, refreshData, resume_nearby, load_reactions, resume_reactions,
    resume_create_listing, resume_refresh_after, resume_create_urgent, resume_chatbot,
    resume_matching, resume_respond, console_error, alert, setCoords, setListings, setUrgent,
    setReactions, setChatbotQuery, setChatbotResponse, setShowChatbot, setMatchingListings,
    setShowRespondModal, setForm, setUrgentForm.

Lemma footprint_refreshData c : keeps_coords (refreshData c).
Proof. unfold_code. footprint_tac; coords_side. Qed.

Lemma footprint_load_reactions ls acc : keeps_coords (load_reactions ls acc).
Proof. unfold_code. footprint_tac; coords_side. Qed.

#[local] Hint Resolve footprint_refreshData footprint_load_reactions : footprint.

Lemma footprint_handle e : keeps_coords (handle e).
Proof.
  destruct e; simpl;
    unfold_code;
    footprint_tac; coords_side.
Qed.

Lemma footprint_resume p r k : p <> AwaitPosition -> resume p r = Some k -> keeps_coords k.
Proof.
  intros Hp Hk. destruct p; simpl in Hk; destruct r; simplify_eq; try done;
    unfold_code;
    footprint_tac; auto with footprint; coords_side.
Qed.

(** Any change of the hooks. *)
Definition any_change (d d' : dash) : Prop := True.

#[global] Instance any_change_preorder : PreOrder any_change.
Proof. by split. Qed.

Lemma footprint_resume_position r :
  footprint any_change not_position any_request (resume_position r).
Proof. unfold_code. footprint_tac; coords_side. Qed.

(** The number of position requests in flight. *)
Definition position_requests (w : world) : nat :=
  count_if (fun p => p = AwaitPosition) (inflight w).

(** One position request in flight until the coordinates are set, none
    after. *)
Definition coords_inv (w : world) : Prop :=
  position_requests w = match coords (dash_of w) with None => 1 | Some _ => 0 end.

Lemma position_requests_app w ps :
  Forall not_position ps ->
  count_if (fun p => p = AwaitPosition) (inflight w ++ ps) = position_requests w.
Proof.
  intros Hps. unfold position_requests. rewrite count_if_app.
  assert (count_if (fun p => p = AwaitPosition) ps = 0) as ->; [|lia].
  apply count_if_eq_zero. intros Hin. by eapply Forall_forall in Hps; [|exact Hin].
Qed.

Lemma coords_inv_step w w' : step w w' -> coords_inv w -> coords_inv w'.
Proof.
  unfold coords_inv. destruct 1 as [e w He|i p r k w Hp Hk]; intros Hinv.
  - destruct (footprint_handle e w) as (Hc & (ps & Hps & HP) & _).
    unfold position_requests. rewrite Hps, position_requests_app by done.
    unfold coords_same in Hc. by rewrite Hc.
  - pose proof (count_if_delete (fun p => p = AwaitPosition) _ _ _ Hp) as Hdel. cbv beta in Hdel.
    unfold position_requests in *. unfold resolve.
    set (w0 := mk_world (dash_of w) (delete i (inflight w)) (sent w) (reports w)).
    destruct (decide (p = AwaitPosition)) as [->|Hne].
    + destruct r; simpl in Hk; simplify_eq.
      destruct (footprint_resume_position r w0) as (_ & (ps & Hps & HP) & _).
      rewrite coords_resume_position, Hps.
      change (count_if (fun p => p = AwaitPosition) (inflight w0 ++ ps) = 0).
      rewrite position_requests_app by done. unfold position_requests. simpl.
      rewrite ?decide_True in Hdel by done.
      destruct (coords (dash_of w)); lia.
    + destruct (footprint_resume p r k Hne Hk w0) as (Hc & (ps & Hps & HP) & _).
      unfold coords_same in Hc. rewrite Hc, Hps.
      change (count_if (fun p => p = AwaitPosition) (inflight w0 ++ ps) =
              match coords (dash_of w) with None => 1 | Some _ => 0 end).
      rewrite position_requests_app by done. unfold position_requests. simpl.
      rewrite ?decide_False in Hdel by done. lia.
Qed.

Lemma coords_inv_rtc w w' : rtc step w w' -> coords_inv w -> coords_inv w'.
Proof. induction 1; eauto using coords_inv_step. Qed.

(** A step from a world with coordinates keeps them. *)
Lemma coords_step_same w w' c :
  coords_inv w -> coords (dash_of w) = Some c -> step w w' -> coords (dash_of w') = Some c.
Proof.
  unfold coords_inv. intros Hinv Hc. rewrite Hc in Hinv.
  destruct 1 as [e w He|i p r k w Hp Hk].
  - destruct (footprint_handle e w) as (Hs & _). unfold coords_same in Hs. by rewrite Hs.
  - destruct (decide (p = AwaitPosition)) as [->|Hne].
    + pose proof (count_if_delete (fun p => p = AwaitPosition) _ _ _ Hp) as Hdel. cbv beta in Hdel.
      unfold position_requests in Hinv. rewrite ?decide_True in Hdel by done. lia.
    + unfold resolve.
      destruct (footprint_resume p r k Hne Hk
        (mk_world (dash_of w) (delete i (inflight w)) (sent w) (reports w))) as (Hs & _).
      unfold coords_same in Hs. by rewrite Hs.
Qed.

(** ** Theorems *)

(** C8. The position is requested once and resolved once (spec 3:
    resolved at mount, immutable for the session): in every reachable
    world exactly one position request is in flight while the
    coordinates are unset and none once they are set, and once set the
    coordinates never change, whatever the user does and however the
    backend answers. *)
Theorem position_requested_once w :
  reachable w ->
  position_requests w = (match coords (dash_of w) with None => 1 | Some _ => 0 end) /\
  forall c w', coords (dash_of w) = Some c -> rtc step w w' -> coords (dash_of w') = Some c.
Proof.
  intros Hr.
  assert (coords_inv w) as Hinv by (apply (coords_inv_rtc world_init); [exact Hr | reflexivity]).
  split; [exact Hinv|]. intros c w' Hc Hs.
  induction Hs as [w|w w1 w' Hstep Hs IH]; [done|].
  apply IH; [eapply rtc_r; [exact Hr | exact Hstep]|by eapply coords_inv_step|by eapply coords_step_same].
Qed.

(** After the race: both refreshes and the reaction request settle. *)
Definition after_race_trace : list event :=
  [Settle 1 (Nearby (Some []) (Some []));
   Settle 0 (Nearby (Some [listing_A]) (Some [urgent_U]));
   Settle 0 (Reactions None)].

Definition after_race_world : world := default race_world (run after_race_trace race_world).

Lemma position_requested_once_witness :
  reachable race_world /\
  position_requests race_world = (match coords (dash_of race_world) with None => 1 | Some _ => 0 end) /\
  coords (dash_of after_race_world) = Some coords_10_20.
Proof.
  split; [exact race_world_reachable|].
  destruct (position_requested_once race_world race_world_reachable) as [H1 H2].
  split; [exact H1|]. apply H2; [vm_compute; reflexivity|].
  apply (run_rtc after_race_trace). vm_compute. reflexivity.
Defined.

(** ** The requests a step sends *)

(** [r] is one of the requests the step from [w] to [w'] sends. *)
Definition sent_by (w w' : world) (r : request) : Prop := r ∈ sent w' /\ r ∉ sent w.

Definition any_pending (p : pending) : Prop := True.

(** The requests of a refresh. *)
Definition refresh_request (r : request) : Prop :=
  match r with GetListings _ _ | GetUrgentNearby _ _ | GetReactions _ => True | _ => False end.

(** Any request but a status change and an urgent need. *)
Definition plain_request (r : request) : Prop :=
  match r with PatchListing _ _ | PostUrgent _ _ => False | _ => True end.

Lemma footprint_resume_refresh p r k :
  resume p r = Some k -> footprint any_change any_pending refresh_request k.
Proof.
  intros Hk. destruct p; simpl in Hk; destruct r; simplify_eq; try done;
    unfold_code;
    footprint_tac; try exact I; done.
Qed.

Lemma footprint_handle_plain e :
  (forall l s, e <> UpdateStatus l s) -> e <> SubmitUrgent ->
  footprint any_change any_pending plain_request (handle e).
Proof.
  intros Hs Hu. destruct e; try (exfalso; naive_solver); simpl;
    unfold_code;
    footprint_tac; try exact I; done.
Qed.

Lemma footprint_new_request D P Q `{!PreOrder D} {A} (m : M A) w r :
  footprint D P Q m -> r ∈ sent (st_exec m w) -> r ∈ sent w \/ Q r.
Proof.
  intros Hm Hr. destruct (Hm w) as (_ & _ & (rs & Hrs & HQ) & _).
  rewrite Hrs, elem_of_app in Hr. destruct Hr as [|Hr]; [by left|right].
  by eapply Forall_forall in HQ; [|exact Hr].
Qed.

(** A request a step adds is a plain one, a status change offered by the
    page, or the urgent form the browser validated. *)
Lemma step_sent w w' r :
  step w w' -> r ∈ sent w' ->
  r ∈ sent w \/ plain_request r \/
  (exists l s, r = PatchListing (Listing.id l) s /\ enabled (UpdateStatus l s) (dash_of w) = true) \/
  (exists c, r = PostUrgent (urgentForm (dash_of w)) c /\
             urgent_form_valid (urgentForm (dash_of w)) = true).
Proof.
  destruct 1 as [e w He|i p r' k w Hp Hk]; intros Hr.
  - assert ((exists l s, e = UpdateStatus l s) \/ e = SubmitUrgent \/
            ((forall l s, e <> UpdateStatus l s) /\ e <> SubmitUrgent)) as [(l & s & ->)|[->|[Hs Hu]]]
      by (destruct e; naive_solver).
    + simpl in Hr. unfold handleUpdateStatus in Hr. st_simpl. simpl in Hr.
      rewrite elem_of_app, list_elem_of_singleton in Hr.
      destruct Hr as [| ->]; [by left|]. right; right; left. by exists l, s.
    + simpl in Hr. destruct (coords (dash_of w)) as [c|] eqn:Hc.
      * rewrite (exec_handleCreateUrgent_some w c) in Hr by done. simpl in Hr.
        rewrite elem_of_app, list_elem_of_singleton in Hr.
        destruct Hr as [| ->]; [by left|]. right; right; right. by exists c.
      * left. unfold handleCreateUrgent, st_exec, st_bind, read in Hr.
        cbv beta iota in Hr. by rewrite Hc in Hr.
    + destruct (footprint_new_request any_change _ _ _ w r (footprint_handle_plain e Hs Hu) Hr)
        as [?|?]; [by left|by right; left].
  - unfold resolve in Hr.
    destruct (footprint_new_request _ _ _ _ _ r (footprint_resume_refresh p r' k Hk) Hr)
      as [?|Hq]; [by left|]. right; left. destruct r; done.
Qed.

(** C9. The client changes a listing's status only from the controls of
    an active listing (spec 4.4): a step that sends [PATCH
    /listings/{id}] does so for a listing the page shows with status
    ["active"], and the new status is ["reserved"] or ["completed"]. *)
Theorem patch_only_for_active w w' id s :
  step w w' -> sent_by w w' (PatchListing id s) ->
  exists l, l ∈ listings (dash_of w) /\ Listing.id l = id /\
    Listing.status l = "active"%string /\ s ∈ ["reserved"; "completed"]%string.
Proof.
  intros Hs [Hin Hnot].
  destruct (step_sent _ _ _ Hs Hin) as [?|[[]|[(l & s' & [= -> ->] & He)|(c & [=] & _)]]]; [done|].
  simpl in He. apply andb_true_iff in He as [Hl Ha].
  apply bool_decide_eq_true in Hl, Ha. exists l. unfold status_actions in Ha.
  case_decide; [done|set_solver].
Qed.

(** The page after the race of [Interleaving], with the listing
    "Ladder" shown. *)
Lemma after_race_reachable : reachable after_race_world.
Proof.
  eapply rtc_trans; [exact race_world_reachable|].
  apply (run_rtc after_race_trace). vm_compute. reflexivity.
Qed.

Lemma patch_only_for_active_witness :
  (step after_race_world (st_exec (handle (UpdateStatus listing_A "reserved")) after_race_world) /\
   sent_by after_race_world (st_exec (handle (UpdateStatus listing_A "reserved")) after_race_world)
     (PatchListing 1 "reserved")) /\
  exists l, l ∈ listings (dash_of after_race_world) /\ Listing.id l = 1%Z /\
    Listing.status l = "active"%string /\ "reserved"%string ∈ ["reserved"; "completed"]%string.
Proof.
  assert (sent_by after_race_world (st_exec (handle (UpdateStatus listing_A "reserved")) after_race_world)
            (PatchListing 1 "reserved")) as Hb by (split; vm_decide).
  split; [split; [apply step_user; vm_compute; reflexivity|exact Hb]|].
  apply (patch_only_for_active after_race_world
           (st_exec (handle (UpdateStatus listing_A "reserved")) after_race_world));
    [apply step_user; vm_compute; reflexivity | exact Hb].
Defined.

(** A posted urgent need has a radius the form accepts. *)
Definition urgent_post_ok (r : request) : Prop :=
  match r with PostUrgent f _ => radius_valid (UrgentForm.radius_km f) = true | _ => True end.

(** C10. Every urgent need the client posts has a radius between 0.5 and
    10 km in steps of 0.5 (spec 3: [radius_km ∈ [0.5, 10]]): the
    browser's validation of the number input (App.js 391-393) is the only
    guard, and it holds for every post of every reachable run. *)
Theorem urgent_posts_valid_radius w :
  reachable w -> Forall urgent_post_ok (sent w).
Proof.
  intros Hr. apply Forall_forall. intros r' Hin'. destruct r' as [| | | |f c| | | | |]; try done.
  revert f c Hin'. pattern w. revert w Hr. apply rtc_ind_r.
  - intros f c Hin. simpl in Hin. set_solver.
  - intros w w' Hr Hs IH f c Hin. destruct (step_sent _ _ _ Hs Hin) as [?|[[]|[(l & s & [=] & _)|(c' & [= <- <-] & Hv)]]];
      [by eapply IH|].
    unfold urgent_form_valid in Hv. by apply andb_true_iff in Hv as [_ Hv].
Qed.

Definition urgent_post_trace : list event :=
  [User (EditUrgentTitle "Jumper cables"); User (EditUrgentDescription "Car will not start");
   User (EditRadius (5 # 2)); User SubmitUrgent].

Definition urgent_post_world : world := default after_race_world (run urgent_post_trace after_race_world).

Lemma urgent_posts_valid_radius_witness :
  (reachable urgent_post_world /\
   PostUrgent (UrgentForm.mk "Jumper cables" "Car will not start" (5 # 2)) coords_10_20
     ∈ sent urgent_post_world) /\
  Forall urgent_post_ok (sent urgent_post_world).
Proof.
  assert (reachable urgent_post_world) as Hr.
  { eapply rtc_trans; [exact after_race_reachable|].
    apply (run_rtc urgent_post_trace). vm_compute. reflexivity. }
  split; [split; [exact Hr | vm_decide]|].
  exact (urgent_posts_valid_radius urgent_post_world Hr).
Defined.

(** ** Responses to urgent needs *)

Definition not_respond (r : request) : Prop :=
  match r with PostRespondWithListing _ _ => False | _ => True end.

Lemma footprint_handle_not_respond e :
  (forall l, e <> UseListing l) -> footprint any_change any_pending not_respond (handle e).
Proof.
  intros Hu. destruct e; try (exfalso; naive_solver); simpl;
    unfold_code;
    footprint_tac; try exact I; done.
Qed.

(** The modal is rendered for the need [u] with the candidates [ls]. *)
Lemma modal_candidates_some d ls :
  modal_candidates d = Some ls ->
  exists u, showRespondModal d = Some u /\ workflow_state d = Open ls.
Proof.
  unfold workflow_state. intros Hm. rewrite Hm. unfold modal_candidates in Hm.
  destruct (showRespondModal d) as [u|]; [|done]. by exists u.
Qed.

(** C32. A response to an urgent need is sent only from the open modal
    (App.js 419-443, spec 4.6): a step that posts
    [/urgent/{u}/respond-with-listing] with listing [lid] is a click on
    a listing the workflow offers -- the workflow is open with
    candidates [ls], one of them has id [lid] -- and [u] is the need
    whose modal is open. *)
Theorem respond_only_offered w w' u lid :
  step w w' -> sent_by w w' (PostRespondWithListing u lid) ->
  exists l ls, workflow_state (dash_of w) = Open ls /\ l ∈ ls /\ Listing.id l = lid /\
    showRespondModal (dash_of w) = Some u.
Proof.
  intros Hs [Hin Hnot]. destruct Hs as [e w He|i p r k w Hp Hk].
  - assert ((exists l, e = UseListing l) \/ forall l, e <> UseListing l) as [[l ->]|Hne]
      by (destruct e; naive_solver).
    + simpl in He. destruct (modal_candidates (dash_of w)) as [ls|] eqn:Hm; [|done].
      apply bool_decide_eq_true in He.
      destruct (modal_candidates_some _ _ Hm) as (u' & Hu' & Hw).
      simpl in Hin. unfold handleRespondWithListing, st_exec, st_bind, read in Hin.
      cbv beta iota in Hin. rewrite Hu' in Hin. simpl in Hin.
      rewrite elem_of_app, list_elem_of_singleton in Hin.
      destruct Hin as [|[= Hu Hl]]; [done|]. subst. by exists l, ls.
    + destruct (footprint_new_request any_change _ _ _ w _
        (footprint_handle_not_respond e Hne) Hin); done.
  - unfold resolve in Hin.
    by destruct (footprint_new_request _ _ _ _ _ _ (footprint_resume_refresh p r k Hk) Hin).
Qed.

(** The modal open for the need "Jumper cables" with the listing
    "Ladder", in the run of [matching_race_trace]. *)
Definition modal_world : world := default world_init (run matching_race_trace world_init).

Lemma respond_only_offered_witness :
  (step modal_world (st_exec (handle (UseListing listing_A)) modal_world) /\
   sent_by modal_world (st_exec (handle (UseListing listing_A)) modal_world)
     (PostRespondWithListing 7 1)) /\
  exists l ls, workflow_state (dash_of modal_world) = Open ls /\ l ∈ ls /\ Listing.id l = 1%Z /\
    showRespondModal (dash_of modal_world) = Some 7%Z.
Proof.
  assert (step modal_world (st_exec (handle (UseListing listing_A)) modal_world)) as Hs
    by (apply step_user; vm_compute; reflexivity).
  assert (sent_by modal_world (st_exec (handle (UseListing listing_A)) modal_world)
            (PostRespondWithListing 7 1)) as Hb by (split; vm_decide).
  split; [split; [exact Hs|exact Hb]|].
  exact (respond_only_offered _ _ 7 1 Hs Hb).
Defined.

(** ** The category of the listing form *)

Definition form_same (d d' : dash) : Prop := form d' = form d.

#[global] Instance form_same_preorder : PreOrder form_same.
Proof. split; [by intros ?|]. intros x y z H1 H2. unfold form_same in *. congruence. Qed.

(** The captured forms and the posted forms have an empty category. *)
Definition pending_cat (p : pending) : Prop :=
  match p with AwaitCreateListing f _ => ListingForm.category f = ""%string | _ => True end.
Definition request_cat (r : request) : Prop :=
  match r with PostListing f _ => ListingForm.category f = ""%string | _ => True end.

Definition cat_inv (w : world) : Prop :=
  ListingForm.category (form (dash_of w)) = ""%string /\
  Forall pending_cat (inflight w) /\ Forall request_cat (sent w).

(** The handlers that neither edit nor post the listing form. *)
Definition form_event (e : ui_event) : Prop :=
  match e with
  | EditTitle _ | EditDescription _ | EditType _ | EditFree _ | EditTrade _ | SubmitListing => True
  | _ => False
  end.

Lemma footprint_handle_cat e : ~ form_event e -> footprint form_same pending_cat request_cat (handle e).
Proof. intros He. destruct e; try (exfalso; by apply He); simpl; unfold_code; footprint_tac; coords_side. Qed.

(** The hooks keep an empty category empty. *)
Definition cat_kept (d d' : dash) : Prop :=
  ListingForm.category (form d) = ""%string -> ListingForm.category (form d') = ""%string.

#[global] Instance cat_kept_preorder : PreOrder cat_kept.
Proof. split; [by intros d H|]. intros x y z H1 H2 H. by apply H2, H1. Qed.

Lemma footprint_resume_cat p r k :
  pending_cat p -> resume p r = Some k -> footprint cat_kept pending_cat request_cat k.
Proof.
  intros Hp Hk. destruct p; simpl in Hk; destruct r; simplify_eq; try done; simpl in Hp;
    unfold_code; footprint_tac; coords_side.
Qed.

Lemma cat_inv_extend w w' ps rs :
  cat_inv w -> ListingForm.category (form (dash_of w')) = ""%string ->
  inflight w' = inflight w ++ ps -> Forall pending_cat ps ->
  sent w' = sent w ++ rs -> Forall request_cat rs -> cat_inv w'.
Proof.
  unfold cat_inv. intros (_ & Hp & Hr) Hc Hi Hps Hs Hrs. rewrite Hi, Hs.
  split; [done|]. split; by apply Forall_app.
Qed.

Lemma cat_inv_step w w' : step w w' -> cat_inv w -> cat_inv w'.
Proof.
  destruct 1 as [e w He|i p r k w Hp Hk]; intros Hinv.
  - assert (form_event e \/ ~ form_event e) as [Hf|Hf] by (destruct e; simpl; tauto).
    + destruct Hinv as (Hc & Hps & Hrs).
      destruct e; simpl in Hf; try done; try (split; [exact Hc|split; assumption]).
      simpl. destruct (coords (dash_of w)) as [c|] eqn:Hco.
      * rewrite (exec_handleCreateListing_some w c) by done.
        apply (cat_inv_extend w _ [AwaitCreateListing (form (dash_of w)) c]
                 [PostListing (form (dash_of w)) c]); try done; by repeat constructor.
      * rewrite exec_handleCreateListing_none by done. done.
    + destruct (footprint_handle_cat e Hf w) as (Hd & (ps & Hi & HP) & (rs & Hs & HQ) & _).
      apply (cat_inv_extend w _ ps rs); try done. unfold form_same in Hd. rewrite Hd. apply Hinv.
  - destruct Hinv as (Hc & Hps & Hrs).
    assert (pending_cat p) as Hpc by (eapply Forall_lookup; eauto).
    set (w0 := mk_world (dash_of w) (delete i (inflight w)) (sent w) (reports w)).
    assert (cat_inv w0) as Hinv0.
    { split; [done|]. split; [by apply Forall_delete|done]. }
    destruct (footprint_resume_cat p r k Hpc Hk w0) as (Hd & (ps & Hi & HP) & (rs & Hs & HQ) & _).
    apply (cat_inv_extend w0 _ ps rs); try done. by apply Hd.
Qed.



(** C19. The listing form has no input for [category] (App.js 289-330;
    spec 4.4 says the category is submitted with the listing): in every
    reachable world the form's category is empty, and so is the category
    of every listing the client has posted. *)
Theorem listing_category_always_empty w :
  reachable w ->
  ListingForm.category (form (dash_of w)) = ""%string /\ Forall request_cat (sent w).
Proof.
  intros Hr.
  assert (cat_inv w) as (Hc & _ & Hrs).
  { pattern w. revert w Hr. apply rtc_ind_r.
    - split; [done|]. split; [by repeat constructor|constructor].
    - intros w w' _ Hs IH. by eapply cat_inv_step. }
  by split.
Qed.

Lemma listing_category_always_empty_witness :
  reachable race_world /\
  ListingForm.category (form (dash_of race_world)) = ""%string /\ Forall request_cat (sent race_world).
Proof. split; [exact race_world_reachable|]. apply listing_category_always_empty, race_world_reachable. Defined.
