(* ===== verification/SessionCoords.v ===== *)
(** * Every geolocated request is made at the session's coordinates

    Five requests of App.js carry coordinates: the two queries of
    [refreshData] (App.js 123-124), the listing and urgent-need posts
    (152-153, 162-163) and the chatbot query (195-199).  The coordinates
    come from the hooks when the handler runs, or from a closure: the
    continuations of the posts refresh at the [coords] their closure
    captured (App.js 157, 166), and so do those of a reaction and a
    status change (177, 186).  [geo_inv] says that every request sent
    and every captured coordinate in flight agrees with the current
    [coords]; it is proved with the guarded footprints of [Footprint]
    (the guard being the value of [coords] the handler reads) and, for
    the position callback, with the invariant [coords_inv] of
    [Invariants]: while the position is awaited, no coordinates exist
    anywhere in the world. *)

From S2P Require Import Prelude Data State Footprint DataSync Location ListingLifecycle UrgentLifecycle Matching Chatbot Dashboard Interleaving Invariants.
From Stdlib Require Import QArith_base.

Local Close Scope Q_scope.
Local Open Scope st_scope.

(** The coordinates a request carries (spec 6). *)
Definition request_coords (r : request) : option Coordinates :=
  match r with
  | GetListings c _ | PostListing _ c | GetUrgentNearby c _ | PostUrgent _ c
  | PostChatbotQuery _ c => Some c
  | _ => None
  end.

(** The coordinates a continuation captured. *)
Definition pending_coords (p : pending) : option Coordinates :=
  match p with
  | AwaitNearby c | AwaitCreateListing _ c | AwaitCreateUrgent _ c => Some c
  | AwaitReaction oc | AwaitUpdateStatus oc => oc
  | _ => None
  end.

(** Coordinates [oc], when there are some, are the session's [cw]. *)
Definition at_coords (cw oc : option Coordinates) : Prop :=
  forall c, oc = Some c -> cw = Some c.

Definition geo_inv (w : world) : Prop :=
  Forall (fun r => at_coords (coords (dash_of w)) (request_coords r)) (sent w) /\
  Forall (fun p => at_coords (coords (dash_of w)) (pending_coords p)) (inflight w).

(** The guard: the hooks hold the coordinates [cw]. *)
Definition coords_are (cw : option Coordinates) (d : dash) : Prop := coords d = cw.

Abbreviation geo_footprint cw :=
  (footprint_on (coords_are cw) coords_same (fun p => at_coords cw (pending_coords p))
     (fun r => at_coords cw (request_coords r))).

Lemma coords_are_same cw d d' : coords_are cw d -> coords_same d d' -> coords_are cw d'.
Proof. unfold coords_are, coords_same. congruence. Qed.

(** Close the side conditions of [footprint_on_tac] for [geo_footprint]. *)
Ltac geo_side :=
  first
    [ reflexivity | done | exact I
    | apply coords_are_same
    | by intros ? ?
    | (unfold at_coords, coords_are in *; cbn; intros ? [= <-]; first [congruence | naive_solver]) ].

Lemma geo_refreshData cw c : at_coords cw c -> geo_footprint cw (refreshData c).
Proof. intros Hc. unfold_code. footprint_on_tac; geo_side. Qed.

Lemma geo_handle cw e : geo_footprint cw (handle e).
Proof. destruct e; simpl; unfold_code; footprint_on_tac; geo_side. Qed.

Lemma geo_resume cw p r k :
  p <> AwaitPosition -> at_coords cw (pending_coords p) -> resume p r = Some k -> geo_footprint cw k.
Proof.
  intros Hp Hc Hk. destruct p; simpl in Hk; destruct r; simplify_eq; try done;
    simpl in Hc; unfold_code; footprint_on_tac; geo_side.
Qed.

(** While the position request is in flight the coordinates are unset. *)
Lemma position_pending_unset w i :
  coords_inv w -> inflight w !! i = Some AwaitPosition -> coords (dash_of w) = None.
Proof.
  unfold coords_inv, position_requests. intros Hinv Hi.
  rewrite (count_if_delete _ _ _ _ Hi), decide_True in Hinv by done.
  destruct (coords (dash_of w)); [lia|done].
Qed.

(** A world whose coordinates are unset carries none. *)
Lemma geo_inv_unset w : coords (dash_of w) = None -> geo_inv w ->
  Forall (fun r => request_coords r = None) (sent w) /\
  Forall (fun p => pending_coords p = None) (inflight w).
Proof.
  unfold geo_inv, at_coords. intros Hc [Hr Hp]. rewrite Hc in Hr, Hp. split.
  - eapply Forall_impl; [exact Hr|]. intros x Hx.
    destruct (request_coords x) as [c|] eqn:Hx'; [by discriminate (Hx c Hx')|done].
  - eapply Forall_impl; [exact Hp|]. intros x Hx.
    destruct (pending_coords x) as [c|] eqn:Hx'; [by discriminate (Hx c Hx')|done].
Qed.

Lemma at_coords_none cw oc : oc = None -> at_coords cw oc.
Proof. by intros -> ?. Qed.

(** The invariant after the hooks keep their coordinates and the lists
    grow by entries at those coordinates. *)
Lemma geo_inv_extend w w' ps rs :
  geo_inv w -> coords (dash_of w') = coords (dash_of w) ->
  inflight w' = inflight w ++ ps -> Forall (fun p => at_coords (coords (dash_of w)) (pending_coords p)) ps ->
  sent w' = sent w ++ rs -> Forall (fun r => at_coords (coords (dash_of w)) (request_coords r)) rs ->
  geo_inv w'.
Proof.
  intros [Hr Hp] Hc Hi Hps Hs Hrs. unfold geo_inv. rewrite Hc, Hi, Hs.
  split; by apply Forall_app.
Qed.

Lemma geo_inv_step w w' : step w w' -> coords_inv w -> geo_inv w -> geo_inv w'.
Proof.
  destruct 1 as [e w He|i p r k w Hp Hk]; intros Hci Hg.
  - destruct (geo_handle (coords (dash_of w)) e w eq_refl) as (Hc & (ps & Hi & HP) & (rs & Hs & HQ) & _).
    by apply (geo_inv_extend w _ ps rs).
  - set (w0 := mk_world (dash_of w) (delete i (inflight w)) (sent w) (reports w)).
    assert (geo_inv w0) as Hg0.
    { destruct Hg as [Hr Hpi]. split; [done|]. by apply Forall_delete. }
    destruct (decide (p = AwaitPosition)) as [->|Hne].
    + destruct r; simpl in Hk; simplify_eq. unfold resolve. fold w0.
      pose proof (position_pending_unset w i Hci Hp) as Hu.
      destruct (geo_inv_unset w0 Hu Hg0) as [Hr0 Hp0].
      rewrite exec_resume_position, exec_refreshData. unfold geo_inv. simpl.
      split; apply Forall_app; split;
        try (eapply Forall_impl; [eassumption|]; intros; by apply at_coords_none);
        repeat constructor; by intros ? [= <-].
    + destruct Hg as [_ Hpi].
      assert (at_coords (coords (dash_of w)) (pending_coords p)) as Hpc
        by (rewrite Forall_lookup in Hpi; exact (Hpi i p Hp)).
      destruct (geo_resume (coords (dash_of w)) p r k Hne Hpc Hk w0 eq_refl)
        as (Hc & (ps & Hi & HP) & (rs & Hs & HQ) & _).
      by apply (geo_inv_extend w0 _ ps rs).
Qed.

Lemma geo_inv_reachable w : reachable w -> coords_inv w /\ geo_inv w.
Proof.
  intros Hr. pattern w. revert w Hr. apply rtc_ind_r.
  - split; [reflexivity|]. split; constructor; [|constructor]. by intros ? [=].
  - intros w w' _ Hs [Hc Hg]. split; [by eapply coords_inv_step|by eapply geo_inv_step].
Qed.

(** ** Theorems *)

(** C31. Every request the client sends with coordinates -- the two
    queries of a refresh, a listing or urgent-need post, a chatbot
    query -- carries the session's coordinates: the device's position,
    or the fallback when it could not be obtained (spec 4.1: the
    coordinates resolved once are the ones every consumer receives),
    including the refreshes that continuations issue with the
    coordinates their closures captured. *)
Theorem requests_at_session_coords w r c :
  reachable w -> r ∈ sent w -> request_coords r = Some c -> coords (dash_of w) = Some c.
Proof.
  intros Hr Hin Hc. destruct (geo_inv_reachable w Hr) as (_ & Hs & _).
  rewrite Forall_forall in Hs. by apply (Hs r Hin).
Qed.

Lemma requests_at_session_coords_witness :
  (reachable after_race_world /\ GetListings coords_10_20 refresh_radius_km ∈ sent after_race_world /\
   request_coords (GetListings coords_10_20 refresh_radius_km) = Some coords_10_20) /\
  coords (dash_of after_race_world) = Some coords_10_20.
Proof.
  split; [split; [exact after_race_reachable|split; [vm_decide|reflexivity]]|].
  apply (requests_at_session_coords after_race_world (GetListings coords_10_20 refresh_radius_km));
    [exact after_race_reachable|vm_decide|reflexivity].
Defined.
