(* ===== verification/Auth.v ===== *)
(** * Authentication and routing: [AuthGate], [LoginPage], [handleLogout], [App]

    App.js 8-78, 169-171, 236 and 456-472.  [App] routes ["/login"] to
    [LoginPage] and every other path to [AuthGate] around [Dashboard].
    Both pages subscribe, when mounted, to Firebase's
    [onAuthStateChanged] and unsubscribe when unmounted.  [AuthGate]
    keeps the user of the last notification ([undefined] before the
    first one): it shows "Loading..." for [undefined], redirects to
    ["/login"] for [null] and renders the dashboard for a user.  The
    login page navigates to ["/"] when a notification carries a user,
    and its [handleSubmit] clears the error, calls
    [createUserWithEmailAndPassword] or [signInWithEmailAndPassword]
    and, when the promise resolves, navigates to ["/"]; a rejection puts
    [err.message] in the error.  [handleLogout] (the dashboard's "Log
    out" button) calls [signOut] without a [catch].

    Firebase is the environment: [fb_user] is [auth.currentUser];
    a change of it queues a notification for the mounted page's
    observer (Firebase notifies on a change of user, and once at
    subscription with the current one), and [notifications] are
    delivered in order, one per step.  Unsubscribing drops the queued
    ones.  A sign-in that succeeds sets the user before its promise
    resolves.  Another tab signing in or out, or an expired session,
    changes the user on its own ([auth_external]).

    [auth_inv] is the invariant of every reachable world: the mounted
    page is the one of the path's route, the queue ends with the
    current user, and when the queue is empty the page agrees with
    Firebase.  [drain] delivers the queue; it settles within [2n+1]
    deliveries for a queue of length [n], by the measure [settle_measure]. *)

From S2P Require Import Prelude Data.
From Stdlib Require Import Ascii.

(** ** Routes *)

(** A Firebase user, by its uid. *)
Definition user := string.

Definition ascii_lower (a : Ascii.ascii) : Ascii.ascii :=
  let n := Ascii.nat_of_ascii a in
  if (65 <=? n) && (n <=? 90) then Ascii.ascii_of_nat (n + 32) else a.

Fixpoint str_lower (s : string) : string :=
  match s with
  | EmptyString => EmptyString
  | String a s => String (ascii_lower a) (str_lower s)
  end.

Fixpoint all_slashes (s : string) : bool :=
  match s with
  | EmptyString => true
  | String a s => bool_decide (a = "/"%char) && all_slashes s
  end.

Fixpoint drop_prefix (pre s : string) : option string :=
  match pre, s with
  | EmptyString, _ => Some s
  | String a pre, String b s => if decide (a = b) then drop_prefix pre s else None
  | String _ _, EmptyString => None
  end.

Inductive route := RouteLogin | RouteGate.

#[global] Instance route_eq_dec : EqDecision route.
Proof. solve_decision. Defined.

(** The value of a hexadecimal digit. *)
Definition hex_value (a : Ascii.ascii) : option nat :=
  let n := Ascii.nat_of_ascii a in
  if (48 <=? n) && (n <=? 57) then Some (n - 48)
  else if (65 <=? n) && (n <=? 70) then Some (n - 55)
  else if (97 <=? n) && (n <=? 102) then Some (n - 87)
  else None.

(** react-router decodes the pathname before matching it: each segment
    goes through [decodeURIComponent], an encoded "/" staying "%2F"
    (older releases apply [decodeURI], which keeps "%2F" as well).  An
    escape [%XY] of an ASCII code other than "/" decodes to that
    character.  The other escapes either decode, with the bytes around
    them, to characters outside ASCII, or make the decoding fail, in
    which case the router keeps the whole path as it is: in both cases
    no character of ["/login"] and no slash comes out of them, and a path
    holding them cannot match ["/login"].  They are kept as they are
    here, which gives the same route. *)
Fixpoint decode_path (s : string) : string :=
  match s with
  | EmptyString => EmptyString
  | String a t =>
      if decide (a = "%"%char) then
        match t with
        | String h1 (String h2 rest) =>
            match hex_value h1, hex_value h2 with
            | Some x, Some y =>
                let n := 16 * x + y in
                if (n <? 128) && negb (n =? 47) then String (Ascii.ascii_of_nat n) (decode_path rest)
                else String a (decode_path t)
            | _, _ => String a (decode_path t)
            end
        | _ => String a (decode_path t)
        end
      else String a (decode_path t)
  end.

(** [<Route path="/login">] and [<Route path="/*">] (App.js 460-468):
    react-router matches the decoded path against ["/login"] without
    regard to ASCII case and with any number of trailing slashes, and
    ranks it above the splat route, which takes every other path. *)
Definition route_of (p : string) : route :=
  match drop_prefix "/login" (str_lower (decode_path p)) with
  | Some rest => if all_slashes rest then RouteLogin else RouteGate
  | None => RouteGate
  end.

(** The router on a few paths. *)
Example route_of_escaped : route_of "/%6Cogin" = RouteLogin.
Proof. vm_compute. reflexivity. Qed.

Example route_of_upper_trailing : route_of "/LOGIN//" = RouteLogin.
Proof. vm_compute. reflexivity. Qed.

Example route_of_encoded_slash : route_of "/login%2F" = RouteGate.
Proof. vm_compute. reflexivity. Qed.

Example route_of_subpath : route_of "/login/x" = RouteGate.
Proof. vm_compute. reflexivity. Qed.

(** ** The pages' hooks *)

(** [user] of [AuthGate] (App.js 9): [undefined], [null] or a user. *)
Inductive gate_user := GateUndefined | GateNull | GateUser (u : user).

#[global] Instance gate_user_eq_dec : EqDecision gate_user.
Proof. solve_decision. Defined.

(** [setUser(u || null)] (App.js 12). *)
Definition gate_of (u : option user) : gate_user :=
  match u with Some u => GateUser u | None => GateNull end.

(** The hooks of [LoginPage] (App.js 23-26). *)
Record login := mk_login { isRegister : bool; email : string; password : string; error : string }.

#[global] Instance login_eq_dec : EqDecision login.
Proof. solve_decision. Defined.

Definition login_init : login := mk_login false "" "" "".

(** The element the router has mounted, with its hooks. *)
Inductive element := LoginPage (l : login) | AuthGate (u : gate_user).

#[global] Instance element_eq_dec : EqDecision element.
Proof. solve_decision. Defined.

Definition route_element (r : route) : element :=
  match r with RouteLogin => LoginPage login_init | RouteGate => AuthGate GateUndefined end.

Definition element_route (e : element) : route :=
  match e with LoginPage _ => RouteLogin | AuthGate _ => RouteGate end.

(** ** The world of the authentication flow *)

(** The Firebase calls of App.js 40, 42 and 170. *)
Inductive fb_call :=
| CreateUser (email password : string)
| SignIn (email password : string)
| SignOut.

#[global] Instance fb_call_eq_dec : EqDecision fb_call.
Proof. solve_decision. Defined.

(** The code after an [await]: [handleSubmit] of the login page mounted
    as instance [g], or [handleLogout]. *)
Inductive auth_pending := AwaitSubmit (g : nat) | AwaitSignOut.

#[global] Instance auth_pending_eq_dec : EqDecision auth_pending.
Proof. solve_decision. Defined.

(** How a Firebase promise settles. *)
Inductive fb_answer := FbUser (u : user) | FbDone | FbError (message : string).

Record auth_world := mk_auth {
  path : string;
  gen : nat;                          (* instance number of the mounted page *)
  mounted : element;
  fb_user : option user;              (* auth.currentUser *)
  notifications : list (option user); (* queued calls of the mounted page's observer *)
  auth_inflight : list auth_pending;
  calls : list fb_call;
  auth_reports : list report }.

(** The page of path [p] at load, Firebase having restored [persisted]. *)
Definition auth_init (p : string) (persisted : option user) : auth_world :=
  mk_auth p 0 (route_element (route_of p)) persisted [persisted] [] [] [].

(** ** Operations *)

Definition set_element (e : element) (w : auth_world) : auth_world :=
  mk_auth (path w) (gen w) e (fb_user w) (notifications w) (auth_inflight w) (calls w) (auth_reports w).

(** Unmount the page (its [unsub] drops the queued notifications) and
    mount the element of route [r], whose [useEffect] subscribes: the
    observer is called once with the current user. *)
Definition mount (r : route) (w : auth_world) : auth_world :=
  mk_auth (path w) (S (gen w)) (route_element r) (fb_user w) [fb_user w]
    (auth_inflight w) (calls w) (auth_reports w).

(** [navigate(p, { replace: true })]: the element stays mounted when
    the route does not change. *)
Definition navigate (p : string) (w : auth_world) : auth_world :=
  let w' := mk_auth p (gen w) (mounted w) (fb_user w) (notifications w)
              (auth_inflight w) (calls w) (auth_reports w) in
  if decide (route_of p = element_route (mounted w)) then w' else mount (route_of p) w'.

(** Firebase changes the current user: the observer is notified when the
    user changes. *)
Definition fb_set (u : option user) (w : auth_world) : auth_world :=
  if decide (u = fb_user w) then w
  else mk_auth (path w) (gen w) (mounted w) u (notifications w ++ [u])
         (auth_inflight w) (calls w) (auth_reports w).

(** [AuthGate] renders [<Navigate to="/login" replace />] for [null]
    (App.js 17), whose effect navigates. *)
Definition gate_render (w : auth_world) : auth_world :=
  match mounted w with
  | AuthGate GateNull => navigate "/login" w
  | _ => w
  end.

(** The observer of the mounted page: [setUser(u || null)] (App.js 12)
    or [if (u) navigate('/')] (App.js 30). *)
Definition observe (u : option user) (w : auth_world) : auth_world :=
  match mounted w with
  | AuthGate _ => gate_render (set_element (AuthGate (gate_of u)) w)
  | LoginPage _ => match u with Some _ => navigate "/" w | None => w end
  end.

(** Deliver the first queued notification. *)
Definition deliver (w : auth_world) : option auth_world :=
  match notifications w with
  | u :: rest =>
      Some (observe u (mk_auth (path w) (gen w) (mounted w) (fb_user w) rest
                         (auth_inflight w) (calls w) (auth_reports w)))
  | [] => None
  end.

Definition set_login (f : login -> login) (w : auth_world) : auth_world :=
  match mounted w with
  | LoginPage l => set_element (LoginPage (f l)) w
  | AuthGate _ => w
  end.

Definition setEmail (s : string) (l : login) : login := mk_login (isRegister l) s (password l) (error l).
Definition setPassword (s : string) (l : login) : login := mk_login (isRegister l) (email l) s (error l).
Definition setIsRegister (b : bool) (l : login) : login := mk_login b (email l) (password l) (error l).
Definition setError (s : string) (l : login) : login := mk_login (isRegister l) (email l) (password l) s.

(** [handleSubmit] up to its [await] (App.js 35-43). *)
Definition handleSubmit (l : login) (w : auth_world) : auth_world :=
  let w := set_login (setError "") w in
  let call := if isRegister l then CreateUser (email l) (password l)
              else SignIn (email l) (password l) in
  mk_auth (path w) (gen w) (mounted w) (fb_user w) (notifications w)
    (auth_inflight w ++ [AwaitSubmit (gen w)]) (calls w ++ [call]) (auth_reports w).

(** After the sign-in (App.js 44-47): the user is set, then [navigate];
    a rejection sets the error of the instance that submitted, a no-op
    once it is unmounted. *)
Definition resume_submit (g : nat) (a : fb_answer) (w : auth_world) : option auth_world :=
  match a with
  | FbUser u => Some (navigate "/" (fb_set (Some u) w))
  | FbError msg =>
      Some (if decide (gen w = g) then set_login (setError msg) w else w)
  | FbDone => None
  end.

(** [handleLogout] up to its [await] (App.js 169-170). *)
Definition handleLogout (w : auth_world) : auth_world :=
  mk_auth (path w) (gen w) (mounted w) (fb_user w) (notifications w)
    (auth_inflight w ++ [AwaitSignOut]) (calls w ++ [SignOut]) (auth_reports w).

(** After [signOut]: nothing runs; a rejection is unhandled. *)
Definition resume_logout (a : fb_answer) (w : auth_world) : option auth_world :=
  match a with
  | FbDone => Some (fb_set None w)
  | FbError _ =>
      Some (mk_auth (path w) (gen w) (mounted w) (fb_user w) (notifications w)
              (auth_inflight w) (calls w) (auth_reports w ++ [Unhandled]))
  | FbUser _ => None
  end.

(** ** The steps of the flow *)

(** The events the pages offer: the login form's inputs, its toggle
    and its submission (App.js 53-74), and the dashboard's "Log out"
    (App.js 236). *)
Inductive auth_event :=
| EditEmail (s : string)
| EditPassword (s : string)
| ToggleRegister
| Submit
| Logout.

Definition auth_enabled (e : auth_event) (w : auth_world) : bool :=
  match e, mounted w with
  | (EditEmail _ | EditPassword _ | ToggleRegister | Submit), LoginPage _ => true
  | Logout, AuthGate (GateUser _) => true
  | _, _ => false
  end.

Definition auth_handle (e : auth_event) (w : auth_world) : auth_world :=
  match e with
  | EditEmail s => set_login (setEmail s) w
  | EditPassword s => set_login (setPassword s) w
  | ToggleRegister => set_login (fun l => setIsRegister (negb (isRegister l)) l) w
  | Submit => match mounted w with LoginPage l => handleSubmit l w | AuthGate _ => w end
  | Logout => handleLogout w
  end.

Definition auth_resume (p : auth_pending) (a : fb_answer) : auth_world -> option auth_world :=
  match p with
  | AwaitSubmit g => resume_submit g a
  | AwaitSignOut => resume_logout a
  end.

Definition drop_inflight (i : nat) (w : auth_world) : auth_world :=
  mk_auth (path w) (gen w) (mounted w) (fb_user w) (notifications w)
    (delete i (auth_inflight w)) (calls w) (auth_reports w).

(** A user event on the last render; the delivery of a notification;
    the settlement of a Firebase promise, in any order and with any
    outcome; a change of user made outside this page. *)
Inductive auth_step : auth_world -> auth_world -> Prop :=
| auth_user e w :
    auth_enabled e w = true -> auth_step w (auth_handle e w)
| auth_deliver w w' :
    deliver w = Some w' -> auth_step w w'
| auth_settle i p a w w' :
    auth_inflight w !! i = Some p -> auth_resume p a (drop_inflight i w) = Some w' -> auth_step w w'
| auth_external u w :
    auth_step w (fb_set u w).

Definition auth_reachable (w : auth_world) : Prop :=
  exists p0 u0, rtc auth_step (auth_init p0 u0) w.

(** What the user sees. *)
Inductive screen := ScreenLogin (l : login) | ScreenLoading | ScreenDashboard (u : user).

#[global] Instance screen_eq_dec : EqDecision screen.
Proof. solve_decision. Defined.

(** App.js 16-18 and 50-77. *)
Definition screen_of (w : auth_world) : screen :=
  match mounted w with
  | LoginPage l => ScreenLogin l
  | AuthGate (GateUser u) => ScreenDashboard u
  | AuthGate _ => ScreenLoading
  end.

(** The screen agrees with Firebase's user. *)
Definition agrees (u : option user) (s : screen) : Prop :=
  match u, s with
  | Some u, ScreenDashboard v => u = v
  | None, ScreenLogin _ => True
  | _, _ => False
  end.

(** Deliver the queue, one notification per step. *)
Fixpoint drain (fuel : nat) (w : auth_world) : auth_world :=
  match fuel with
  | 0 => w
  | S n => match deliver w with Some w' => drain n w' | None => w end
  end.

(** ** The invariant *)

(** When the queue is empty the mounted page agrees with Firebase. *)
Definition settled_agrees (w : auth_world) : Prop :=
  match mounted w with
  | AuthGate gu => gu = gate_of (fb_user w)
  | LoginPage _ => fb_user w = None
  end.

Definition auth_inv (w : auth_world) : Prop :=
  route_of (path w) = element_route (mounted w) /\
  (notifications w = [] \/ last (notifications w) = Some (fb_user w)) /\
  mounted w <> AuthGate GateNull /\
  (notifications w = [] -> settled_agrees w).

Lemma route_of_login : route_of "/login" = RouteLogin.
Proof. reflexivity. Qed.

Lemma route_of_root : route_of "/" = RouteGate.
Proof. reflexivity. Qed.

Lemma auth_inv_init p u : auth_inv (auth_init p u).
Proof.
  unfold auth_inv, auth_init. simpl. split; [by destruct (route_of p)|].
  split; [by right|]. split; [by destruct (route_of p)|done].
Qed.

(** Mounting a page restores the invariant, whatever the state before. *)
Lemma auth_inv_mount r w : route_of (path w) = r -> auth_inv (mount r w).
Proof.
  intros <-. unfold auth_inv, mount. simpl.
  split; [by destruct (route_of (path w))|]. split; [by right|].
  split; [by destruct (route_of (path w))|done].
Qed.

Lemma auth_inv_navigate p w : auth_inv w -> auth_inv (navigate p w).
Proof.
  unfold navigate. case_decide as Hr; [|intros _; by apply auth_inv_mount].
  unfold auth_inv. simpl. naive_solver.
Qed.

Lemma auth_inv_fb_set u w : auth_inv w -> auth_inv (fb_set u w).
Proof.
  unfold fb_set. case_decide; [done|]. unfold auth_inv. simpl. intros (Hr & _ & Hn & _).
  split; [done|]. split; [by right; rewrite last_snoc|]. split; [done|].
  by intros []%app_nil.
Qed.

Lemma auth_inv_set_login f w : auth_inv w -> auth_inv (set_login f w).
Proof.
  unfold set_login. destruct (mounted w) as [l|gu] eqn:Hm; [|done].
  unfold auth_inv, settled_agrees, set_element. simpl. rewrite Hm. naive_solver.
Qed.

(** A change of the inflight list, the calls or the reports keeps the
    invariant. *)
Lemma auth_inv_bookkeeping w i c r :
  auth_inv w -> auth_inv (mk_auth (path w) (gen w) (mounted w) (fb_user w) (notifications w) i c r).
Proof. done. Qed.

(** A navigation that changes the route remounts; the invariant then
    holds whatever held before. *)
Lemma auth_inv_navigate_remount p w :
  route_of p <> element_route (mounted w) -> auth_inv (navigate p w).
Proof. intros Hr. unfold navigate. rewrite decide_False by done. by apply auth_inv_mount. Qed.

Lemma auth_inv_deliver w w' : auth_inv w -> deliver w = Some w' -> auth_inv w'.
Proof.
  unfold deliver. destruct (notifications w) as [|u rest] eqn:Hq; [done|].
  intros (Hr & Hl & Hn & Ha) [= <-]. rewrite Hq in Hl.
  destruct Hl as [|Hl]; [done|].
  assert (rest <> [] -> last rest = Some (fb_user w)) as Hrest
    by (intros Hne; destruct rest; [done|exact Hl]).
  assert (rest = [] -> u = fb_user w) as Hlast by (intros ->; simpl in Hl; congruence).
  unfold observe. simpl. destruct (mounted w) as [l|gu] eqn:Hm.
  - destruct u as [v|].
    + apply auth_inv_navigate_remount. by rewrite route_of_root.
    + unfold auth_inv, settled_agrees. simpl.
      split; [done|]. split; [destruct rest; [by left|right; by apply Hrest]|].
      split; [done|]. intros ->. by rewrite <-Hlast.
  - unfold gate_render, set_element. simpl. destruct u as [v|].
    + unfold auth_inv, settled_agrees. simpl. split; [done|].
      split; [destruct rest; [by left|right; by apply Hrest]|]. split; [done|].
      intros ->. by rewrite <-Hlast.
    + apply auth_inv_navigate_remount. by rewrite route_of_login.
Qed.

Lemma auth_inv_handle e w : auth_inv w -> auth_inv (auth_handle e w).
Proof.
  intros Hw. destruct e; simpl; try by apply auth_inv_set_login.
  - destruct (mounted w); [|done]. unfold handleSubmit.
    apply auth_inv_bookkeeping, auth_inv_set_login, Hw.
  - by apply auth_inv_bookkeeping.
Qed.

Lemma auth_inv_resume p a w w' : auth_inv w -> auth_resume p a w = Some w' -> auth_inv w'.
Proof.
  intros Hw. destruct p as [g|], a as [u| |msg]; simpl; intros; simplify_eq.
  - by apply auth_inv_navigate, auth_inv_fb_set.
  - case_decide; [by apply auth_inv_set_login|done].
  - by apply auth_inv_fb_set.
  - by apply auth_inv_bookkeeping.
Qed.

Lemma auth_inv_step w w' : auth_step w w' -> auth_inv w -> auth_inv w'.
Proof.
  destruct 1 as [e w He|w w' Hd|i p a w w' Hp Hr|u w]; intros Hw.
  - by apply auth_inv_handle.
  - by eapply auth_inv_deliver.
  - eapply auth_inv_resume; [|exact Hr]. by apply auth_inv_bookkeeping.
  - by apply auth_inv_fb_set.
Qed.

Lemma auth_inv_reachable w : auth_reachable w -> auth_inv w.
Proof.
  intros (p0 & u0 & Hr). pattern w. revert w Hr. apply rtc_ind_r; [apply auth_inv_init|].
  intros w w' _ Hs Hw. by eapply auth_inv_step.
Qed.

Lemma auth_reachable_step w w' : auth_reachable w -> auth_step w w' -> auth_reachable w'.
Proof. intros (p0 & u0 & Hr) Hs. exists p0, u0. by eapply rtc_r. Qed.

Lemma auth_reachable_rtc w w' : auth_reachable w -> rtc auth_step w w' -> auth_reachable w'.
Proof. intros Hr Hs. induction Hs; eauto using auth_reachable_step. Qed.

Lemma settled_agrees_screen w :
  auth_inv w -> notifications w = [] -> agrees (fb_user w) (screen_of w).
Proof.
  intros (_ & _ & Hn & Ha) Hq. specialize (Ha Hq). unfold settled_agrees in Ha.
  unfold screen_of, agrees. destruct (mounted w) as [l|gu]; subst.
  - by rewrite Ha.
  - destruct (fb_user w); simpl in *; [done|by destruct Hn].
Qed.

(** ** Settling *)

(** Whether the kind of page mounted is the one of Firebase's user. *)
Definition kind_agrees (w : auth_world) : bool :=
  match mounted w, fb_user w with
  | AuthGate _, Some _ | LoginPage _, None => true
  | _, _ => false
  end.

Definition settle_measure (w : auth_world) : nat :=
  2 * length (notifications w) + (if kind_agrees w then 0 else 1).

Lemma mount_fb_user r w : fb_user (mount r w) = fb_user w.
Proof. done. Qed.

Lemma navigate_fb_user p w : fb_user (navigate p w) = fb_user w.
Proof. unfold navigate. by case_decide. Qed.

(** Each delivery lowers the measure and keeps Firebase's user. *)
Lemma deliver_measure w w' :
  auth_inv w -> deliver w = Some w' ->
  settle_measure w' < settle_measure w /\ fb_user w' = fb_user w.
Proof.
  unfold deliver. destruct (notifications w) as [|u rest] eqn:Hq; [done|].
  intros (_ & Hl & _) [= <-]. rewrite Hq in Hl. destruct Hl as [|Hl]; [done|].
  assert (rest = [] -> u = fb_user w) as Hlast by (intros ->; simpl in Hl; congruence).
  unfold settle_measure, kind_agrees. rewrite Hq. simpl length.
  unfold observe. simpl. destruct (mounted w) as [l|gu] eqn:Hm.
  - destruct u as [v|].
    + unfold navigate. rewrite decide_False by (rewrite route_of_root; simpl; congruence).
      rewrite route_of_root. simpl.
      destruct (fb_user w) eqn:Hf; [split; [lia|done]|].
      destruct rest; [specialize (Hlast eq_refl); congruence|]. simpl. split; [lia|done].
    + simpl. split; [|done]. destruct (fb_user w); lia.
  - unfold gate_render, set_element. simpl. destruct u as [v|].
    + simpl. split; [|done]. destruct (fb_user w); lia.
    + unfold navigate. rewrite decide_False by (rewrite route_of_login; simpl; congruence).
      rewrite route_of_login. simpl.
      destruct (fb_user w) eqn:Hf; [|split; [lia|done]].
      destruct rest; [specialize (Hlast eq_refl); congruence|]. simpl. split; [lia|done].
Qed.

Lemma deliver_None w : deliver w = None <-> notifications w = [].
Proof. unfold deliver. by destruct (notifications w). Qed.

(** [drain] with at least [settle_measure w] fuel empties the queue, by
    steps of the flow, and keeps Firebase's user. *)
Lemma drain_settles n w :
  auth_inv w -> settle_measure w <= n ->
  notifications (drain n w) = [] /\ rtc auth_step w (drain n w) /\ fb_user (drain n w) = fb_user w.
Proof.
  revert w. induction n as [|n IH]; intros w Hw Hn; simpl.
  - unfold settle_measure in Hn. destruct (notifications w); simpl in Hn; [done|lia].
  - destruct (deliver w) as [w'|] eqn:Hd; [|by apply deliver_None in Hd].
    destruct (deliver_measure w w' Hw Hd) as [Hlt Hf].
    destruct (IH w') as (Hq & Hs & Hf'); [by eapply auth_inv_deliver|lia|].
    split; [done|]. split; [eapply rtc_l; [by apply auth_deliver|exact Hs]|congruence].
Qed.

Lemma settle_measure_bound w : settle_measure w <= 2 * length (notifications w) + 1.
Proof. unfold settle_measure. destruct (kind_agrees w); lia. Qed.

(** Reachability of a drained world. *)
Lemma drain_reachable n w : auth_reachable w -> auth_reachable (drain n w).
Proof.
  revert w. induction n as [|n IH]; intros w Hw; simpl; [done|].
  destruct (deliver w) as [w'|] eqn:Hd; [|done].
  apply IH. eapply auth_reachable_step; [exact Hw|]. by apply auth_deliver.
Qed.

Lemma init_reachable p u : auth_reachable (auth_init p u).
Proof. by exists p, u. Qed.

(** ** Theorems *)


(** A session restored at ["/"] for the user "alice", once Firebase's
    first notification is delivered. *)
Definition alice_world : auth_world := drain 1 (auth_init "/" (Some "alice"%string)).

(** C20. Once the queued notifications are delivered, the page agrees
    with Firebase in every reachable state of the flow: the dashboard
    of user [u] exactly when [u] is signed in, the login page when no
    one is; never "Loading..." nor a dashboard of a signed-out user. *)
Theorem settled_screen_agrees w :
  auth_reachable w -> notifications w = [] -> agrees (fb_user w) (screen_of w).
Proof. intros Hr. apply settled_agrees_screen, auth_inv_reachable, Hr. Qed.

Lemma settled_screen_agrees_witness :
  (auth_reachable alice_world /\ notifications alice_world = []) /\
  agrees (fb_user alice_world) (screen_of alice_world).
Proof.
  assert (auth_reachable alice_world) as Hr by apply drain_reachable, init_reachable.
  split; [split; [exact Hr|reflexivity]|]. apply settled_screen_agrees; [exact Hr|reflexivity].
Defined.

(** C21. The flow settles: from any reachable state, delivering the
    queued notifications -- at most [2n+1] deliveries for [n] queued,
    each a step of the flow -- empties the queue and shows the page of
    the signed-in user, or the login page; in particular "Loading..."
    and the redirection of a signed-out gate always end. *)
Theorem drain_reaches_agreement w :
  auth_reachable w ->
  let w' := drain (2 * length (notifications w) + 1) w in
  rtc auth_step w w' /\ notifications w' = [] /\ agrees (fb_user w) (screen_of w').
Proof.
  intros Hr. cbn zeta. pose proof (auth_inv_reachable w Hr) as Hw.
  destruct (drain_settles (2 * length (notifications w) + 1) w Hw (settle_measure_bound w))
    as (Hq & Hs & Hf).
  split; [exact Hs|]. split; [exact Hq|]. rewrite <-Hf.
  apply settled_agrees_screen; [|exact Hq]. apply auth_inv_reachable. by eapply auth_reachable_rtc.
Qed.

Lemma drain_reaches_agreement_witness :
  auth_reachable (auth_init "/listings" None) /\
  let w' := drain 3 (auth_init "/listings" None) in
  rtc auth_step (auth_init "/listings" None) w' /\ notifications w' = [] /\
  agrees (fb_user (auth_init "/listings" None)) (screen_of w').
Proof.
  split; [apply init_reachable|]. exact (drain_reaches_agreement _ (init_reachable "/listings" None)).
Defined.

(** C22. Submitting the login form (App.js 35-47): the error is cleared,
    Firebase is asked to create the account when the form is in
    "register" mode and to sign in otherwise, with the typed email and
    password; when the promise rejects, the page that submitted shows
    the rejection's message, keeps the email, the password and the
    mode, and stays where it is. *)
Theorem submit_outcomes w l msg :
  mounted w = LoginPage l ->
  let w1 := auth_handle Submit w in
  calls w1 = calls w ++ [if isRegister l then CreateUser (email l) (password l)
                         else SignIn (email l) (password l)] /\
  screen_of w1 = ScreenLogin (setError "" l) /\
  exists w2, auth_step w1 w2 /\ screen_of w2 = ScreenLogin (setError msg l) /\
    path w2 = path w /\ fb_user w2 = fb_user w.
Proof.
  intros Hm. cbn zeta. simpl. rewrite Hm. unfold handleSubmit, set_login, set_element. rewrite Hm.
  simpl. split; [done|]. split; [by unfold screen_of|].
  eexists. split.
  - eapply (auth_settle (length (auth_inflight w)) (AwaitSubmit (gen w)) (FbError msg)).
    + simpl. by rewrite lookup_app_r, Nat.sub_diag by lia.
    + reflexivity.
  - simpl. rewrite decide_True by done. done.
Qed.

Lemma submit_outcomes_witness :
  mounted (auth_init "/login" None) = LoginPage login_init /\
  let w1 := auth_handle Submit (auth_init "/login" None) in
  calls w1 = calls (auth_init "/login" None) ++ [SignIn "" ""] /\
  screen_of w1 = ScreenLogin (setError "" login_init) /\
  exists w2, auth_step w1 w2 /\ screen_of w2 = ScreenLogin (setError "auth/invalid-email" login_init) /\
    path w2 = path (auth_init "/login" None) /\ fb_user w2 = fb_user (auth_init "/login" None).
Proof. split; [reflexivity|]. exact (submit_outcomes (auth_init "/login" None) login_init "auth/invalid-email" eq_refl). Defined.

(** Settle the newest continuation with the answer [a]. *)
Definition settle_last (a : fb_answer) (w : auth_world) : option auth_world :=
  match last (auth_inflight w) with
  | Some p => auth_resume p a (drop_inflight (pred (length (auth_inflight w))) w)
  | None => None
  end.

Lemma settle_last_step a w w' : settle_last a w = Some w' -> auth_step w w'.
Proof.
  unfold settle_last. destruct (last (auth_inflight w)) as [p|] eqn:Hl; [|done].
  apply auth_settle. by rewrite <-last_lookup.
Qed.

(** The screen of a settled world of user [u]. *)
Lemma agrees_some u s : agrees (Some u) s -> s = ScreenDashboard u.
Proof. destruct s; simpl; naive_solver. Qed.

Lemma agrees_none s : agrees None s -> exists l, s = ScreenLogin l.
Proof. destruct s; simpl; naive_solver. Qed.

Lemma fb_set_fb_user u w : fb_user (fb_set u w) = u.
Proof. unfold fb_set. by case_decide. Qed.

(** C23. A sign-in that succeeds leads to the dashboard: the submitting
    page navigates to ["/"] once Firebase has set the user [u], and once
    the queued notifications are delivered the dashboard of [u] is
    shown; the result is the same whether the account is created or
    signed in. *)
Theorem sign_in_reaches_dashboard w l u :
  auth_reachable w -> mounted w = LoginPage l ->
  let w1 := auth_handle Submit w in
  exists w2, settle_last (FbUser u) w1 = Some w2 /\ path w2 = "/"%string /\ fb_user w2 = Some u /\
    screen_of (drain (2 * length (notifications w2) + 1) w2) = ScreenDashboard u.
Proof.
  intros Hr Hm. cbn zeta.
  assert (auth_step w (auth_handle Submit w)) as Hs1 by (apply auth_user; simpl; by rewrite Hm).
  set (w1 := auth_handle Submit w) in *.
  assert (last (auth_inflight w1) = Some (AwaitSubmit (gen w))) as Hl
    by (subst w1; simpl; rewrite Hm; unfold handleSubmit, set_login; rewrite Hm; apply last_snoc).
  assert (settle_last (FbUser u) w1 = Some (navigate "/" (fb_set (Some u)
            (drop_inflight (pred (length (auth_inflight w1))) w1)))) as Hw2
    by (unfold settle_last; by rewrite Hl).
  pose proof (settle_last_step _ _ _ Hw2) as Hs2.
  eexists. split; [exact Hw2|]. split; [by unfold navigate; case_decide|].
  split; [by rewrite navigate_fb_user, fb_set_fb_user|].
  destruct (drain_reaches_agreement _ (auth_reachable_step _ _ (auth_reachable_step _ _ Hr Hs1) Hs2))
    as (_ & _ & Ha).
  rewrite navigate_fb_user, fb_set_fb_user in Ha. by apply agrees_some.
Qed.

Lemma sign_in_reaches_dashboard_witness :
  (auth_reachable (auth_init "/login" None) /\ mounted (auth_init "/login" None) = LoginPage login_init) /\
  let w1 := auth_handle Submit (auth_init "/login" None) in
  exists w2, settle_last (FbUser "bob") w1 = Some w2 /\ path w2 = "/"%string /\ fb_user w2 = Some "bob"%string /\
    screen_of (drain (2 * length (notifications w2) + 1) w2) = ScreenDashboard "bob".
Proof.
  split; [split; [apply init_reachable|reflexivity]|].
  exact (sign_in_reaches_dashboard _ login_init "bob" (init_reachable "/login" None) eq_refl).
Defined.

(** C24. Logging out (App.js 169-171, 236): the dashboard asks Firebase
    to sign out; when it does, the login page is shown once the queued
    notifications are delivered; when [signOut] rejects, nothing catches
    it -- the rejection is unhandled, the user stays on the dashboard
    and no message is shown. *)
Theorem logout_outcomes w u (msg : string) :
  auth_reachable w -> screen_of w = ScreenDashboard u ->
  let w1 := auth_handle Logout w in
  calls w1 = calls w ++ [SignOut] /\
  (exists w2, settle_last FbDone w1 = Some w2 /\ fb_user w2 = None /\
     exists l, screen_of (drain (2 * length (notifications w2) + 1) w2) = ScreenLogin l) /\
  (exists w3, settle_last (FbError msg) w1 = Some w3 /\ screen_of w3 = ScreenDashboard u /\
     fb_user w3 = fb_user w /\ auth_reports w3 = auth_reports w ++ [Unhandled]).
Proof.
  intros Hr Hsc. cbn zeta.
  assert (auth_enabled Logout w = true) as He
    by (unfold screen_of in Hsc; simpl; destruct (mounted w) as [|[]]; congruence).
  pose proof (auth_user Logout w He) as Hs1.
  assert (last (auth_inflight (auth_handle Logout w)) = Some AwaitSignOut) as Hl
    by (simpl; apply last_snoc).
  split; [done|]. split.
  - eexists. split; [unfold settle_last; rewrite Hl; reflexivity|]. split; [apply fb_set_fb_user|].
    destruct (drain_reaches_agreement _ (auth_reachable_step _ _ (auth_reachable_step _ _ Hr Hs1)
      (settle_last_step FbDone _ _ ltac:(unfold settle_last; rewrite Hl; reflexivity)))) as (_ & _ & Ha).
    rewrite fb_set_fb_user in Ha. by apply agrees_none.
  - eexists. split; [unfold settle_last; rewrite Hl; reflexivity|]. done.
Qed.

Lemma logout_outcomes_witness :
  (auth_reachable alice_world /\ screen_of alice_world = ScreenDashboard "alice") /\
  let w1 := auth_handle Logout alice_world in
  calls w1 = calls alice_world ++ [SignOut] /\
  (exists w2, settle_last FbDone w1 = Some w2 /\ fb_user w2 = None /\
     exists l, screen_of (drain (2 * length (notifications w2) + 1) w2) = ScreenLogin l) /\
  (exists w3, settle_last (FbError "auth/network-request-failed") w1 = Some w3 /\
     screen_of w3 = ScreenDashboard "alice" /\
     fb_user w3 = fb_user alice_world /\ auth_reports w3 = auth_reports alice_world ++ [Unhandled]).
Proof.
  assert (auth_reachable alice_world) as Hr by apply drain_reachable, init_reachable.
  split; [split; [exact Hr|reflexivity]|].
  exact (logout_outcomes alice_world "alice" "auth/network-request-failed" Hr eq_refl).
Defined.
