(* ===== verification/App.v ===== *)
(** * The application: the authentication flow around the dashboard

    App.js 456-472 and 8-19: [AuthGate] renders its [children], the
    element [<Dashboard />], when its user is set.  The application's
    world pairs the authentication flow of [Auth] with the dashboard's
    world of [State], present while the gate renders the dashboard.
    React reconciles after each step of the flow: the dashboard mounts
    with its initial hooks and its position request ([world_init]) when
    the gate starts rendering it, is dropped when the gate stops (its
    continuations still in flight then update an unmounted component,
    which React ignores), and keeps its hooks while the same gate
    instance renders it -- also when the user changes, since the gate
    returns the same element, without a [key], for every user.  The
    dashboard's own steps ([Dashboard.step]) run while it is mounted.

    Every dashboard state of the application is a reachable state of
    [Dashboard] ([app_inv_reachable]), so the dashboard's theorems hold in
    the application.  The theorem: a change of user made in another tab
    hands the mounted dashboard, with the previous user's state, to the
    new user. *)

From S2P Require Import Prelude Data ListingLifecycle State Dashboard Auth.

Record app_world := mk_app { auth_of : auth_world; dashboard : option world }.

(** The gate renders its children (App.js 18). *)
Definition dashboard_shown (a : auth_world) : bool :=
  match mounted a with AuthGate (GateUser _) => true | _ => false end.

(** React's reconciliation of [<Dashboard />] after a step of the flow
    from [a] to [a']. *)
Definition reconcile (a a' : auth_world) (d : option world) : option world :=
  if dashboard_shown a' then
    if dashboard_shown a && bool_decide (gen a = gen a') then d else Some world_init
  else None.

Inductive app_step : app_world -> app_world -> Prop :=
| app_auth a a' d :
    auth_step a a' -> app_step (mk_app a d) (mk_app a' (reconcile a a' d))
| app_dash a w w' :
    step w w' -> app_step (mk_app a (Some w)) (mk_app a (Some w')).

(** The application loaded at path [p], Firebase restoring [u]. *)
Definition app_init (p : string) (u : option user) : app_world := mk_app (auth_init p u) None.

Definition app_reachable (x : app_world) : Prop :=
  exists p u, rtc app_step (app_init p u) x.

(** ** The executable semantics *)

Inductive app_event :=
| AppUser (e : auth_event)
| AppDeliver
| AppSettle (i : nat) (a : fb_answer)
| AppExternal (u : option user)
| AppDash (ev : event).

Definition app_exec_auth (x : app_world) (a' : option auth_world) : option app_world :=
  match a' with
  | Some a' => Some (mk_app a' (reconcile (auth_of x) a' (dashboard x)))
  | None => None
  end.

Definition app_exec (ev : app_event) (x : app_world) : option app_world :=
  let a := auth_of x in
  match ev with
  | AppUser e => app_exec_auth x (if auth_enabled e a then Some (auth_handle e a) else None)
  | AppDeliver => app_exec_auth x (deliver a)
  | AppSettle i r =>
      app_exec_auth x (match auth_inflight a !! i with
                       | Some p => auth_resume p r (drop_inflight i a)
                       | None => None
                       end)
  | AppExternal u => app_exec_auth x (Some (fb_set u a))
  | AppDash ev =>
      match dashboard x with
      | Some w => match exec_event ev w with Some w' => Some (mk_app a (Some w')) | None => None end
      | None => None
      end
  end.

Fixpoint app_run (evs : list app_event) (x : app_world) : option app_world :=
  match evs with
  | [] => Some x
  | ev :: evs => match app_exec ev x with Some x' => app_run evs x' | None => None end
  end.

(** ** Lemmas *)

(** The dashboard is mounted exactly when the gate renders it, and its
    state is one the dashboard reaches on its own. *)
Definition app_inv (x : app_world) : Prop :=
  match dashboard x with
  | Some w => dashboard_shown (auth_of x) = true /\ reachable w
  | None => dashboard_shown (auth_of x) = false
  end.

Lemma app_inv_init p u : app_inv (app_init p u).
Proof. unfold app_inv, app_init, auth_init, dashboard_shown. simpl. by destruct (route_of p). Qed.

Lemma app_inv_reconcile a a' d :
  app_inv (mk_app a d) -> app_inv (mk_app a' (reconcile a a' d)).
Proof.
  unfold app_inv, reconcile. simpl. intros Hd.
  destruct (dashboard_shown a') eqn:Ha'; [|done].
  destruct (dashboard_shown a && bool_decide (gen a = gen a')) eqn:Hk.
  - apply andb_true_iff in Hk as [Ha _]. destruct d; [naive_solver|congruence].
  - split; [done|]. apply rtc_refl.
Qed.

Lemma app_inv_step x x' : app_step x x' -> app_inv x -> app_inv x'.
Proof.
  destruct 1 as [a a' d Hs|a w w' Hs].
  - apply app_inv_reconcile.
  - unfold app_inv. simpl. intros [Ha Hr]. split; [done|]. by eapply rtc_r.
Qed.

Lemma app_inv_reachable x : app_reachable x -> app_inv x.
Proof.
  intros (p & u & Hr). pattern x. revert x Hr. apply rtc_ind_r; [apply app_inv_init|].
  intros x x' _ Hs Hx. by eapply app_inv_step.
Qed.

Lemma app_exec_step ev x x' : app_exec ev x = Some x' -> app_step x x'.
Proof.
  destruct x as [a d]. unfold app_exec, app_exec_auth. simpl.
  destruct ev as [e| |i r|u|ev].
  - destruct (auth_enabled e a) eqn:He; intros; simplify_eq. by constructor; constructor.
  - destruct (deliver a) eqn:Hd; intros; simplify_eq. by constructor; constructor.
  - destruct (auth_inflight a !! i) as [p|] eqn:Hp; [|done].
    destruct (auth_resume p r (drop_inflight i a)) eqn:Hr; intros; simplify_eq.
    constructor. by eapply auth_settle.
  - intros; simplify_eq. by constructor; constructor.
  - destruct d as [w|]; [|done]. destruct (exec_event ev w) eqn:He; intros; simplify_eq.
    constructor. by eapply exec_event_step.
Qed.

Lemma app_run_rtc evs x x' : app_run evs x = Some x' -> rtc app_step x x'.
Proof.
  revert x. induction evs as [|ev evs IH]; intros x; simpl; [by intros [= ->]|].
  destruct (app_exec ev x) as [x1|] eqn:He; [|done].
  intros Hr. eapply rtc_l; [by eapply app_exec_step|]. by apply IH.
Qed.

(** The flow of an application run is a run of the flow. *)
Lemma app_auth_reachable x : app_reachable x -> auth_reachable (auth_of x).
Proof.
  intros (p & u & Hr). pattern x. revert x Hr. apply rtc_ind_r; [apply init_reachable|].
  intros x x' _ Hs Ha. destruct Hs as [a a' d Hs|a w w' _]; [|done].
  by eapply auth_reachable_step.
Qed.

(** The dashboard of a settled gate is that of Firebase's user. *)
Lemma screen_dashboard_settled a u :
  auth_reachable a -> notifications a = [] -> screen_of a = ScreenDashboard u ->
  mounted a = AuthGate (GateUser u) /\ fb_user a = Some u.
Proof.
  intros Hr Hq Hs. destruct (auth_inv_reachable a Hr) as (_ & _ & _ & Ha).
  specialize (Ha Hq). unfold settled_agrees in Ha. unfold screen_of in Hs.
  destruct (mounted a) as [|[| |v]]; try done. injection Hs as ->.
  split; [done|]. destruct (fb_user a); simpl in Ha; congruence.
Qed.

(** ** Theorems *)

(** The page loaded at ["/"] with "alice" restored: the first
    notification mounts the dashboard, on which she types a draft title. *)
Definition alice_trace : list app_event :=
  [AppDeliver; AppDash (User (EditTitle "Alice's draft"))].

Definition alice_app : app_world :=
  default (app_init "/" (Some "alice"%string)) (app_run alice_trace (app_init "/" (Some "alice"%string))).

Lemma alice_app_reachable : app_reachable alice_app.
Proof. exists "/"%string, (Some "alice"%string). apply (app_run_rtc alice_trace). reflexivity. Qed.

(** C25. The dashboard is not reset when the user changes: in every
    reachable state where the settled gate shows the dashboard of [u],
    when another user [u'] signs in from another tab, Firebase notifies
    the gate, which renders the same [<Dashboard />] element (no [key])
    for [u']: the mounted dashboard, with all the hooks of [u]'s session
    -- forms, chatbot answer, matching listings -- is shown to [u'],
    with no action of either in between. *)
Theorem dashboard_survives_user_change x u u' :
  app_reachable x -> notifications (auth_of x) = [] -> screen_of (auth_of x) = ScreenDashboard u ->
  u' <> u ->
  exists x', app_run [AppExternal (Some u'); AppDeliver] x = Some x' /\
    screen_of (auth_of x') = ScreenDashboard u' /\
    dashboard x' = dashboard x /\ dashboard x <> None.
Proof.
  intros Hr Hq Hs Hne.
  destruct (screen_dashboard_settled _ u (app_auth_reachable x Hr) Hq Hs) as [Hm Hf].
  pose proof (app_inv_reachable x Hr) as Hinv.
  destruct x as [[p g m f q inf cs rs] d]; simpl in *; subst.
  assert (d <> None) as Hd by (intros ->; unfold app_inv, dashboard_shown in Hinv; done).
  eexists. split; [|split; [|split; [|exact Hd]]].
  - unfold app_run, app_exec, app_exec_auth, fb_set. simpl.
    rewrite decide_False by congruence. reflexivity.
  - reflexivity.
  - unfold reconcile, dashboard_shown. simpl. by rewrite bool_decide_true.
Qed.

Lemma dashboard_survives_user_change_witness :
  (app_reachable alice_app /\ notifications (auth_of alice_app) = [] /\
   screen_of (auth_of alice_app) = ScreenDashboard "alice" /\ "bob"%string <> "alice"%string) /\
  exists x', app_run [AppExternal (Some "bob"%string); AppDeliver] alice_app = Some x' /\
    screen_of (auth_of x') = ScreenDashboard "bob" /\
    dashboard x' = dashboard alice_app /\ dashboard alice_app <> None.
Proof.
  split; [split; [exact alice_app_reachable|split; [reflexivity|split; [reflexivity|discriminate]]]|].
  apply (dashboard_survives_user_change alice_app "alice"); [exact alice_app_reachable|reflexivity|reflexivity|discriminate].
Defined.
